(** * SAR flood detection: a shallow embedding of the client and its properties

    The development follows the JavaScript sources of the React client
    ([utils/validator.js], [services/api.js], [App.js],
    [components/ResultsPanel.js], [components/ProgressIndicator.js]).
    JavaScript values are embedded as a small universe [JsVal]; numbers are
    IEEE-754 binary64 values (Rocq's primitive floats), so that comparisons
    behave as they do in the browser, NaN included.  Objects used as
    dictionaries (the advanced parameters, the request body) are finite maps.

    Part I holds the definitions, Part II the properties. *)

From Stdlib Require Import ZArith QArith Qround List String Ascii Bool Lia Floats.
From stdpp Require Import gmap strings list fin_maps pretty.

Set Warnings "-inexact-float,-register-all,-clear-no-such-hyp".
Local Open Scope string_scope.
Local Close Scope Q_scope.
Local Open Scope nat_scope.

(** * Part I: definitions *)

(** ** JavaScript values *)

Inductive JsVal : Type :=
| JUndefined
| JNull
| JBool (b : bool)
| JNum (n : float)
| JStr (s : string)
| JArr (items : list JsVal)
| JObj (props : list (string * JsVal)).

(** Completion of an evaluation: a value, or a thrown exception. *)
Inductive Completion (A : Type) : Type :=
| Normal (a : A)
| Throw (e : JsVal).
Arguments Normal {A} a.
Arguments Throw {A} e.

#[global] Instance completion_ret : MRet Completion := @Normal.
#[global] Instance completion_bind : MBind Completion :=
  fun _ _ k c => match c with Normal a => k a | Throw e => Throw e end.

(** [try { body } catch (error) { handler }] *)
Definition try_catch {A} (body : Completion A) (handler : JsVal -> Completion A)
  : Completion A :=
  match body with
  | Normal a => Normal a
  | Throw e => handler e
  end.

(** What the client takes from its host: the turf library, and the number
    formatting of the JavaScript runtime.  [turf_polygon] throws on
    coordinates that are not the rings of a polygon; [turf_area] is in m². *)
Class Host : Type := {
  turf_polygon : JsVal -> Completion JsVal;
  turf_area : JsVal -> float;
  toFixed : float -> nat -> string;
  numToString : float -> string
}.

(** ToBoolean: the falsy values are undefined, null, false, +0, -0, NaN and
    the empty string. *)
Definition truthy (v : JsVal) : bool :=
  match v with
  | JUndefined | JNull => false
  | JBool b => b
  | JNum n => negb (PrimFloat.is_zero n || PrimFloat.is_nan n)
  | JStr s => negb (String.eqb s "")
  | JArr _ | JObj _ => true
  end.

(** [a || b] *)
Definition or_else (a b : JsVal) : JsVal := if truthy a then a else b.

(** [v !== null] *)
Definition not_null (v : JsVal) : bool :=
  match v with JNull => false | _ => true end.

Fixpoint assoc (k : string) (props : list (string * JsVal)) : option JsVal :=
  match props with
  | [] => None
  | (k', v) :: rest => if String.eqb k k' then Some v else assoc k rest
  end.

(** The TypeError raised by a property read on undefined or null.  The
    text of its message differs between engines; a fixed, non-empty text
    stands for it. *)
Definition type_error : JsVal :=
  JObj [("name", JStr "TypeError");
        ("message", JStr "Cannot read properties of undefined or null")].

(** Property read [v.k]: a TypeError on undefined and null, the own property
    of an object, undefined elsewhere (no property name read by the client
    is a built-in of a primitive or of an array). *)
Definition get (v : JsVal) (k : string) : Completion JsVal :=
  match v with
  | JUndefined | JNull => Throw type_error
  | JObj props => Normal (default JUndefined (assoc k props))
  | _ => Normal JUndefined
  end.

Section Conversions.
Context `{!Host}.

(** ToString, with [Array.prototype.join] for arrays and the default
    [Object.prototype.toString] for objects. *)
Fixpoint toString (v : JsVal) : string :=
  match v with
  | JUndefined => "undefined"
  | JNull => "null"
  | JBool true => "true"
  | JBool false => "false"
  | JNum n => numToString n
  | JStr s => s
  | JArr items =>
      String.concat ","
        (List.map (fun x => match x with
                            | JUndefined | JNull => ""
                            | _ => toString x
                            end) items)
  | JObj _ => "[object Object]"
  end.

(** [new Error(message)] *)
Definition new_Error (message : JsVal) : JsVal :=
  JObj [("name", JStr "Error");
        ("message", JStr (match message with
                          | JUndefined => ""
                          | _ => toString message
                          end))].

End Conversions.

(** ** utils/validator.js *)

Module Validator.

Record Validation : Type := {
  isValid : bool;
  error : option string;
  area : float
}.

Definition MAX_AREA_KM2 : float := 2500%float.
Definition MIN_AREA_KM2 : float := 0.01%float.

Section WithHost.
Context `{!Host}.

Definition too_large (areaKm2 : float) : string :=
  "AOI too large (" ++ toFixed areaKm2 2
    ++ " km²). Maximum allowed: 2500 km² (50×50 km)".

Definition too_small (areaKm2 : float) : string :=
  "AOI too small (" ++ toFixed areaKm2 4
    ++ " km²). Minimum allowed: 0.01 km²".

(** The body of the [try] block. *)
Definition validateAOI_try (geometry : JsVal) : Completion Validation :=
  if negb (truthy geometry) then
    Normal {| isValid := false; error := Some "No geometry provided"; area := 0 |}
  else
    coordinates ← get geometry "coordinates";
    polygon ← turf_polygon coordinates;
    let areaM2 := turf_area polygon in
    let areaKm2 := (areaM2 / 1000000)%float in
    if (MAX_AREA_KM2 <? areaKm2)%float then
      Normal {| isValid := false; error := Some (too_large areaKm2);
                area := areaKm2 |}
    else if (areaKm2 <? MIN_AREA_KM2)%float then
      Normal {| isValid := false; error := Some (too_small areaKm2);
                area := areaKm2 |}
    else
      Normal {| isValid := true; error := None; area := areaKm2 |}.

Definition validateAOI (geometry : JsVal) : Completion Validation :=
  try_catch (validateAOI_try geometry)
    (fun _ => Normal {| isValid := false; error := Some "Invalid geometry";
                        area := 0 |}).

(** The polygon turf builds for a geometry, when there is a geometry and
    turf accepts its coordinates. *)
Definition polygon_of (geometry : JsVal) : option JsVal :=
  if truthy geometry then
    match coordinates ← get geometry "coordinates"; turf_polygon coordinates with
    | Normal polygon => Some polygon
    | Throw _ => None
    end
  else None.

(** The area computed for a polygon, in km². *)
Definition areaKm2_of (polygon : JsVal) : float :=
  (turf_area polygon / 1000000)%float.

End WithHost.

(** The inclusive range [0.01, 2500] of admissible areas, and its outside. *)
Definition within_bounds (areaKm2 : float) : bool :=
  (MIN_AREA_KM2 <=? areaKm2)%float && (areaKm2 <=? MAX_AREA_KM2)%float.

Definition outside_bounds (areaKm2 : float) : bool :=
  (MAX_AREA_KM2 <? areaKm2)%float || (areaKm2 <? MIN_AREA_KM2)%float.

End Validator.

(** ** services/api.js *)

Module Api.

(** What an invocation of [detectWater] does to the outside world, in the
    order in which it does it. *)
Inductive Effect : Type :=
| EProgress (stage : JsVal)                       (* onProgress(stage) *)
| ESetInterval (id : positive) (ms : Z)           (* setInterval(callback, ms) *)
| EClearInterval (id : positive)                  (* clearInterval(id) *)
| EPost (url : string) (body : gmap string JsVal) (* api.post(url, body) *)
| EConsoleError (label : string).                 (* console.error(label, error) *)

(** How the promise returned by [api.post] settles. *)
Inductive Outcome : Type :=
| Resolved (response : JsVal)
| Rejected (error : JsVal).

(** The local variables of one invocation that outlive its first
    synchronous segment: [progressInterval] (undefined when there is no
    [onProgress]) and the counter [stage] captured by the interval callback. *)
Record Call : Type := {
  progressInterval : option positive;
  stage : nat
}.

Definition stages : list string := ["imagery"; "filters"; "vectorizing"].

(** [stages[i]] *)
Definition stages_at (i : nat) : JsVal :=
  match stages !! i with
  | Some s => JStr s
  | None => JUndefined
  end.

(** The object literal [{ geometry, ...params }]: the spread comes second,
    so a key of [params] wins over [geometry]. *)
Definition request_body (geometry : JsVal) (params : gmap string JsVal)
  : gmap string JsVal :=
  params ∪ {[ "geometry" := geometry ]}.

(** [detectWater] up to its [await].  [fresh] is the identifier the browser
    returns from [setInterval]; it is a positive integer, hence truthy. *)
Definition detectWater_begin (geometry : JsVal) (params : gmap string JsVal)
    (onProgress : bool) (fresh : positive) : Call * list Effect :=
  if onProgress then
    ({| progressInterval := Some fresh; stage := 0 |},
     [EProgress (stages_at 0);
      ESetInterval fresh 15000;
      EPost "/detect-water" (request_body geometry params)])
  else
    ({| progressInterval := None; stage := 0 |},
     [EPost "/detect-water" (request_body geometry params)]).

(** The callback handed to [setInterval]. *)
Definition interval_callback (c : Call) : Call * list Effect :=
  let stage' := (stage c + 1) mod length stages in
  ({| progressInterval := progressInterval c; stage := stage' |},
   [EProgress (stages_at stage')]).

Section WithHost.
Context `{!Host}.

(** The body of the [catch] block, after its [console.error]. *)
Definition rethrow (error : JsVal) : Completion JsVal :=
  response ← get error "response";
  if truthy response then
    data ← get response "data";
    detail ← get data "detail";
    Throw (new_Error (or_else detail (JStr "Server error occurred")))
  else
    request ← get error "request";
    if truthy request then
      Throw (new_Error (JStr "No response from server. Please check your connection."))
    else
      message ← get error "message";
      Throw (new_Error (or_else message (JStr "Failed to send request"))).

(** [detectWater] from its [await] on. *)
Definition detectWater_settle (c : Call) (o : Outcome)
  : list Effect * Completion JsVal :=
  match o with
  | Resolved response =>
      let cleared := match progressInterval c with
                     | Some id => [EClearInterval id]
                     | None => []
                     end in
      match get response "data" with
      | Normal data => (cleared, Normal data)
      | Throw error =>
          ((cleared ++ [EConsoleError "Error detecting water:"])%list, rethrow error)
      end
  | Rejected error =>
      ([EConsoleError "Error detecting water:"], rethrow error)
  end.

End WithHost.

(** The browser's table of active intervals under a sequence of effects. *)
Definition interval_effect (active : gset positive) (e : Effect) : gset positive :=
  match e with
  | ESetInterval id _ => active ∪ {[ id ]}
  | EClearInterval id => active ∖ {[ id ]}
  | _ => active
  end.

Definition intervals_after (es : list Effect) (active : gset positive)
  : gset positive :=
  foldl interval_effect active es.

(** The requests and the progress reports in a sequence of effects. *)
Definition posts (es : list Effect) : list (string * gmap string JsVal) :=
  omap (fun e => match e with EPost url body => Some (url, body) | _ => None end) es.

Definition reports (es : list Effect) : list JsVal :=
  omap (fun e => match e with EProgress s => Some s | _ => None end) es.

(** One whole invocation: the first segment, [ticks] firings of the interval
    while the request is pending, then the settlement. *)
Fixpoint fire (ticks : nat) (c : Call) : Call * list Effect :=
  match ticks with
  | O => (c, [])
  | S n =>
      let '(c1, es1) := interval_callback c in
      let '(c2, es2) := fire n c1 in
      (c2, (es1 ++ es2)%list)
  end.

Section Invocation.
Context `{!Host}.

Definition detectWater (geometry : JsVal) (params : gmap string JsVal)
    (onProgress : bool) (fresh : positive) (ticks : nat) (o : Outcome)
  : list Effect * Completion JsVal :=
  let '(c0, es0) := detectWater_begin geometry params onProgress fresh in
  let '(c1, es1) := match progressInterval c0 with
                    | Some _ => fire ticks c0
                    | None => (c0, [])
                    end in
  let '(es2, r) := detectWater_settle c1 o in
  ((es0 ++ es1 ++ es2)%list, r).

End Invocation.

End Api.

(** ** App.js *)

Module App.

(** The component state set by the handlers ([showAdvanced], [basemap],
    [overlayOpacity] and [showResults] are display toggles that no handler
    below reads or writes). *)
Record AppState : Type := {
  selectedAoi : JsVal;
  drawnAoi : JsVal;
  loading : bool;
  processingStage : JsVal;
  results : JsVal;
  error : JsVal;
  sentinelOverlay : JsVal;
  advancedParams : gmap string JsVal
}.

Definition initial_params : gmap string JsVal :=
  list_to_map [("vv_threshold", JNull); ("vh_threshold", JNull);
               ("vv_vh_diff", JNull); ("slope_max", JNull);
               ("min_area_pixels", JNull); ("texture_window", JNull)].

Definition initial : AppState := {|
  selectedAoi := JNull; drawnAoi := JNull; loading := false;
  processingStage := JNull; results := JNull; error := JNull;
  sentinelOverlay := JNull; advancedParams := initial_params
|}.

(** The page: the component state, the [detectWater] invocations whose
    locals are still referenced (keyed by their interval), the browser's
    active intervals, the invocations awaiting their response, and the
    requests sent so far. *)
Record World : Type := {
  app : AppState;
  calls : gmap positive Api.Call;
  intervals : gset positive;
  awaiting : gset positive;
  next_timer : positive;
  requests : list (string * gmap string JsVal)
}.

Definition boot : World := {|
  app := initial; calls := ∅; intervals := ∅; awaiting := ∅;
  next_timer := 1%positive; requests := []
|}.

(** Handlers run in a state monad over the page, with exceptions. *)
Definition M (A : Type) : Type := World -> World * Completion A.

#[global] Instance M_ret : MRet M := fun _ a w => (w, Normal a).
#[global] Instance M_bind : MBind M := fun _ _ k m w =>
  match m w with
  | (w', Normal a) => k a w'
  | (w', Throw e) => (w', Throw e)
  end.

Definition lift {A} (c : Completion A) : M A := fun w => (w, c).

Definition try_catch_M {A} (body : M A) (handler : JsVal -> M A) : M A :=
  fun w => match body w with
           | (w', Normal a) => (w', Normal a)
           | (w', Throw e) => handler e w'
           end.

Definition finally_M {A} (body : M A) (cleanup : M unit) : M A :=
  fun w => let '(w1, r) := body w in
           match cleanup w1 with
           | (w2, Normal _) => (w2, r)
           | (w2, Throw e) => (w2, Throw e)
           end.

Definition update (f : AppState -> AppState) : M unit :=
  fun w => ({| app := f (app w); calls := calls w; intervals := intervals w;
               awaiting := awaiting w; next_timer := next_timer w;
               requests := requests w |}, Normal tt).

(** A computation keeps a relation between the page before and after. *)
Definition keeps (R : World -> World -> Prop) {A} (m : M A) : Prop :=
  forall w, R w (m w).1.

(** The two AOIs are as before; the requests sent are as before. *)
Definition same_aois (w w' : World) : Prop :=
  selectedAoi (app w') = selectedAoi (app w)
  /\ drawnAoi (app w') = drawnAoi (app w).

Definition same_requests (w w' : World) : Prop := requests w' = requests w.

Definition setSelectedAoi (v : JsVal) : M unit :=
  update (fun s => {| selectedAoi := v; drawnAoi := drawnAoi s;
    loading := loading s; processingStage := processingStage s;
    results := results s; error := error s;
    sentinelOverlay := sentinelOverlay s; advancedParams := advancedParams s |}).

Definition setDrawnAoi (v : JsVal) : M unit :=
  update (fun s => {| selectedAoi := selectedAoi s; drawnAoi := v;
    loading := loading s; processingStage := processingStage s;
    results := results s; error := error s;
    sentinelOverlay := sentinelOverlay s; advancedParams := advancedParams s |}).

Definition setLoading (b : bool) : M unit :=
  update (fun s => {| selectedAoi := selectedAoi s; drawnAoi := drawnAoi s;
    loading := b; processingStage := processingStage s;
    results := results s; error := error s;
    sentinelOverlay := sentinelOverlay s; advancedParams := advancedParams s |}).

Definition setProcessingStage (v : JsVal) : M unit :=
  update (fun s => {| selectedAoi := selectedAoi s; drawnAoi := drawnAoi s;
    loading := loading s; processingStage := v;
    results := results s; error := error s;
    sentinelOverlay := sentinelOverlay s; advancedParams := advancedParams s |}).

Definition setResults (v : JsVal) : M unit :=
  update (fun s => {| selectedAoi := selectedAoi s; drawnAoi := drawnAoi s;
    loading := loading s; processingStage := processingStage s;
    results := v; error := error s;
    sentinelOverlay := sentinelOverlay s; advancedParams := advancedParams s |}).

Definition setError (v : JsVal) : M unit :=
  update (fun s => {| selectedAoi := selectedAoi s; drawnAoi := drawnAoi s;
    loading := loading s; processingStage := processingStage s;
    results := results s; error := v;
    sentinelOverlay := sentinelOverlay s; advancedParams := advancedParams s |}).

Definition setSentinelOverlay (v : JsVal) : M unit :=
  update (fun s => {| selectedAoi := selectedAoi s; drawnAoi := drawnAoi s;
    loading := loading s; processingStage := processingStage s;
    results := results s; error := error s;
    sentinelOverlay := v; advancedParams := advancedParams s |}).

Definition setAdvancedParams (p : gmap string JsVal) : M unit :=
  update (fun s => {| selectedAoi := selectedAoi s; drawnAoi := drawnAoi s;
    loading := loading s; processingStage := processingStage s;
    results := results s; error := error s;
    sentinelOverlay := sentinelOverlay s; advancedParams := p |}).

(** The effects of [detectWater] on the page.  The [onProgress] the app
    passes is [(stage) => setProcessingStage(stage)]. *)
Definition perform (e : Api.Effect) : M unit :=
  match e with
  | Api.EProgress stage => setProcessingStage stage
  | Api.EPost url body =>
      fun w => ({| app := app w; calls := calls w; intervals := intervals w;
                   awaiting := awaiting w; next_timer := next_timer w;
                   requests := (requests w ++ [(url, body)])%list |}, Normal tt)
  | Api.EConsoleError _ => mret tt
  | _ =>
      fun w => ({| app := app w; calls := calls w;
                   intervals := Api.interval_effect (intervals w) e;
                   awaiting := awaiting w; next_timer := next_timer w;
                   requests := requests w |}, Normal tt)
  end.

Fixpoint performs (es : list Api.Effect) : M unit :=
  match es with
  | [] => mret tt
  | e :: rest => perform e;; performs rest
  end.

Definition handleAoiSelect (aoi : JsVal) : M unit :=
  setSelectedAoi aoi;;
  setDrawnAoi JNull;;
  setResults JNull;;
  setError JNull.

Definition handleAoiDraw (geometry : JsVal) : M unit :=
  setDrawnAoi geometry;;
  setSelectedAoi JNull;;
  setResults JNull;;
  setError JNull.

(** [drawnAoi || (selectedAoi ? { type: 'Polygon', coordinates:
    [selectedAoi.coordinates] } : null)] *)
Definition currentAoi (s : AppState) : Completion JsVal :=
  if truthy (drawnAoi s) then Normal (drawnAoi s)
  else if truthy (selectedAoi s) then
    coordinates ← get (selectedAoi s) "coordinates";
    Normal (JObj [("type", JStr "Polygon"); ("coordinates", JArr [coordinates])])
  else Normal JNull.

(** The loop over [Object.keys(advancedParams)] that copies the entries
    whose value is not null. *)
Definition copy_param (advancedParams params : gmap string JsVal) (key : string)
  : gmap string JsVal :=
  let value := default JUndefined (advancedParams !! key) in
  if not_null value then <[ key := value ]> params else params.

Definition prepare_params (advancedParams : gmap string JsVal)
  : gmap string JsVal :=
  foldl (copy_param advancedParams) ∅ (map_to_list advancedParams).*1.

Section WithHost.
Context `{!Host}.

(** [detectWater(currentAoi, params, (stage) => setProcessingStage(stage))]
    up to the [await] inside it: the interval identifier comes from the
    browser, and the invocation is left awaiting its response. *)
Definition call_detectWater (geometry : JsVal) (params : gmap string JsVal)
  : M unit :=
  fun w =>
    let id := next_timer w in
    let '(c, es) := Api.detectWater_begin geometry params true id in
    performs es
      {| app := app w; calls := <[ id := c ]> (calls w);
         intervals := intervals w; awaiting := awaiting w ∪ {[ id ]};
         next_timer := Pos.succ id; requests := requests w |}.

(** [handleDetectWater] up to its [await].  The handler reads the state
    [s] of the render it was created in. *)
Definition handleDetectWater_begin (s : AppState) : M unit :=
  aoi ← lift (currentAoi s);
  if negb (truthy aoi) then
    setError (JStr "Please draw an AOI or select a test location")
  else
    validation ← lift (Validator.validateAOI aoi);
    if negb (Validator.isValid validation) then
      setError (from_option JStr JNull (Validator.error validation))
    else
      setLoading true;;
      setError JNull;;
      setResults JNull;;
      setProcessingStage (JStr "imagery");;
      call_detectWater aoi (prepare_params (advancedParams s)).

(** [handleDetectWater] from its [await] on, for the invocation [c] and the
    settlement [o] of its request: the rest of [detectWater], then the rest
    of the [try], the [catch] and the [finally]. *)
Definition handleDetectWater_resume (c : Api.Call) (o : Api.Outcome) : M unit :=
  finally_M
    (try_catch_M
       (let '(es, r) := Api.detectWater_settle c o in
        performs es;;
        data ← lift r;
        setResults data;;
        tile_url ← lift (get data "tile_url");
        (if truthy tile_url then
           image_bounds ← lift (get data "image_bounds");
           setSentinelOverlay (JObj [("url", tile_url); ("bounds", image_bounds)])
         else mret tt);;
        setProcessingStage JNull)
       (fun err =>
          message ← lift (get err "message");
          setError (or_else message (JStr "An error occurred during detection"));;
          setProcessingStage JNull))
    (setLoading false).

(** What can happen on the page. *)
Inductive Event : Type :=
| AoiSelect (aoi : JsVal)                      (* TestAoiSelector: onSelect *)
| AoiDraw (geometry : JsVal)                   (* MapView: onAoiDraw *)
| DetectClick                                  (* Sidebar: onDetectWater *)
| ParamsSet (params : gmap string JsVal)       (* AdvancedPanel: setParams *)
| ErrorDismiss                                 (* error banner: setError(null) *)
| OverlayHide                                  (* setSentinelOverlay(null) *)
| IntervalFires (id : positive)
| RequestSettles (id : positive) (o : Api.Outcome).

Definition on_interval (id : positive) : M unit :=
  fun w =>
    if decide (id ∈ intervals w) then
      match calls w !! id with
      | Some c =>
          let '(c', es) := Api.interval_callback c in
          performs es
            {| app := app w; calls := <[ id := c' ]> (calls w);
               intervals := intervals w; awaiting := awaiting w;
               next_timer := next_timer w; requests := requests w |}
      | None => (w, Normal tt)
      end
    else (w, Normal tt).

Definition on_settle (id : positive) (o : Api.Outcome) : M unit :=
  fun w =>
    if decide (id ∈ awaiting w) then
      match calls w !! id with
      | Some c =>
          handleDetectWater_resume c o
            {| app := app w; calls := calls w; intervals := intervals w;
               awaiting := awaiting w ∖ {[ id ]};
               next_timer := next_timer w; requests := requests w |}
      | None => (w, Normal tt)
      end
    else (w, Normal tt).

Definition handle (ev : Event) : M unit :=
  match ev with
  | AoiSelect aoi => handleAoiSelect aoi
  | AoiDraw geometry => handleAoiDraw geometry
  | DetectClick => fun w => handleDetectWater_begin (app w) w
  | ParamsSet params => setAdvancedParams params
  | ErrorDismiss => setError JNull
  | OverlayHide => setSentinelOverlay JNull
  | IntervalFires id => on_interval id
  | RequestSettles id o => on_settle id o
  end.

Definition step (w : World) (ev : Event) : World := (handle ev w).1.

(** At most one of the two AOIs is set. *)
Definition one_aoi (s : AppState) : Prop :=
  selectedAoi s = JNull \/ drawnAoi s = JNull.

Definition run (w : World) (evs : list Event) : World := foldl step w evs.

End WithHost.

End App.

(** ** components/ResultsPanel.js *)

Module ResultsPanel.

(** The response of the detection service, as the panel reads it: the
    feature collection and its sibling metadata object.  A field that is
    null or missing is [None]. *)
Inductive Scalar : Type :=
| SNull
| SNum (n : float)
| SStr (s : string).

Record FeatureCollection : Type := {
  features : option (list JsVal)
}.

Record Metadata : Type := {
  warning : option string;
  acquisition_date : option string;
  water_area_km2 : option float;
  water_percentage : option float;
  processing_time_seconds : option float;
  aoi_area_km2 : option float;
  parameters_used : option (list (string * Scalar))
}.

Record Results : Type := {
  water_polygons : option FeatureCollection;
  metadata : Metadata
}.

(** Rendered elements: text, or an element with its class, its [disabled]
    attribute and its children. *)
Inductive Node : Type :=
| Text (s : string)
| Elem (tag className : string) (disabled : bool) (children : list Node).

(** [water_polygons?.features?.length || 0] *)
Definition featureCount (results : Results) : nat :=
  match water_polygons results with
  | None => 0
  | Some collection =>
      match features collection with
      | None => 0
      | Some fs => let n := length fs in if Nat.eqb n 0 then 0 else n
      end
  end.

(** A string operand of [||] or [&&] is truthy when it is not empty. *)
Definition nonempty (s : string) : bool := negb (String.eqb s "").

Fixpoint replace_underscores (s : string) : string :=
  match s with
  | EmptyString => EmptyString
  | String c rest =>
      String (if Ascii.eqb c "_"%char then " "%char else c) (replace_underscores rest)
  end.

Section WithHost.
Context `{!Host}.

Definition metadata_item (label : string) (value : list Node) : Node :=
  Elem "div" "metadata-item" false
    [Elem "span" "metadata-label" false [Text label];
     Elem "span" "metadata-value" false value].

(** [x?.toFixed(digits) || 0] *)
Definition fixed_or_zero (x : option float) (digits : nat) : string :=
  match x with
  | Some n => let s := toFixed n digits in if nonempty s then s else "0"
  | None => "0"
  end.

(** [{metadata.warning && (<div className="warning-box">...</div>)}] *)
Definition warning_box (m : Metadata) : list Node :=
  match warning m with
  | Some w =>
      if nonempty w then
        [Elem "div" "warning-box" false
           [Elem "strong" "" false [Text "Warning:"]; Text " "; Text w]]
      else []
  | None => []
  end.

(** [{metadata.aoi_area_km2 && (...)}]: React prints a falsy number. *)
Definition aoi_area_item (m : Metadata) : list Node :=
  match aoi_area_km2 m with
  | Some a =>
      if truthy (JNum a) then
        [metadata_item "AOI Area" [Text (toFixed a 2); Text " km²"]]
      else [Text (numToString a)]
  | None => []
  end.

Definition scalar_child (v : Scalar) : list Node :=
  match v with
  | SNull => []
  | SNum n => [Text (numToString n)]
  | SStr s => [Text s]
  end.

Definition parameters_box (m : Metadata) : list Node :=
  match parameters_used m with
  | Some entries =>
      [Elem "div" "parameters-used" false
         [Elem "strong" "" false [Text "Parameters Used:"];
          Elem "ul" "" false
            (List.map (fun '(key, value) =>
               Elem "li" "" false
                 (Elem "span" "" false [Text (replace_underscores key); Text ":"]
                  :: Text " " :: scalar_child value)) entries)]]
  | None => []
  end.

Definition metadata_grid (results : Results) : Node :=
  let m := metadata results in
  Elem "div" "metadata-grid" false
    ([metadata_item "Acquisition Date"
        [Text (match acquisition_date m with
               | Some d => if nonempty d then d else "N/A"
               | None => "N/A"
               end)];
      metadata_item "Water Area"
        [Text (fixed_or_zero (water_area_km2 m) 3); Text " km²"];
      metadata_item "Water Coverage"
        [Text (fixed_or_zero (water_percentage m) 2); Text "%"];
      metadata_item "Processing Time"
        (match processing_time_seconds m with
         | Some t => [Text (numToString t); Text "s"]
         | None => [Text "s"]
         end);
      metadata_item "Polygons Detected" [Text (pretty (featureCount results))]]
     ++ aoi_area_item m)%list.

Definition download_button (results : Results) : Node :=
  Elem "button" "download-btn" (Nat.eqb (featureCount results) 0)
    [Text "📥 Download GeoJSON"].

Definition render (results : Results) : Node :=
  Elem "div" "results-panel" false
    [Elem "div" "results-header" false
       [Elem "h3" "" false [Text "Detection Results"];
        Elem "button" "close-btn" false [Text "×"]];
     Elem "div" "results-content" false
       (warning_box (metadata results)
        ++ [metadata_grid results]
        ++ parameters_box (metadata results)
        ++ [download_button results])%list].

End WithHost.

(** The same response with another warning. *)
Definition with_warning (w : option string) (results : Results) : Results :=
  {| water_polygons := water_polygons results;
     metadata := {|
       warning := w;
       acquisition_date := acquisition_date (metadata results);
       water_area_km2 := water_area_km2 (metadata results);
       water_percentage := water_percentage (metadata results);
       processing_time_seconds := processing_time_seconds (metadata results);
       aoi_area_km2 := aoi_area_km2 (metadata results);
       parameters_used := parameters_used (metadata results) |} |}.

(** All elements of a tree that carry a given class. *)
Fixpoint by_class (cls : string) (n : Node) : list Node :=
  match n with
  | Text _ => []
  | Elem tag c d children =>
      ((if String.eqb c cls then [n] else [])
       ++ flat_map (by_class cls) children)%list
  end.

(** The tree without the elements of a given class. *)
Fixpoint without_class (cls : string) (n : Node) : Node :=
  match n with
  | Text s => Text s
  | Elem tag c d children =>
      Elem tag c d
        (flat_map (fun child => match child with
                                | Elem _ c' _ _ =>
                                    if String.eqb c' cls then []
                                    else [without_class cls child]
                                | Text _ => [child]
                                end) children)
  end.

End ResultsPanel.

(** ** components/ProgressIndicator.js *)

Module ProgressIndicator.

Record StageInfo : Type := {
  text : string;
  progress : Z
}.

(** [switch (stage)] compares with [===]: only a string can match a case. *)
Definition getStageInfo (stage : JsVal) : StageInfo :=
  match stage with
  | JStr "imagery" => {| text := "Processing imagery..."; progress := 33 |}
  | JStr "filters" => {| text := "Applying filters..."; progress := 66 |}
  | JStr "vectorizing" => {| text := "Generating results..."; progress := 100 |}
  | _ => {| text := "Processing..."; progress := 0 |}
  end.

End ProgressIndicator.

(** The second copy of the component in the repository, which knows one
    more stage, ['coldstart'], and shows a second line of text for it. *)

Module ProgressIndicatorColdStart.

Record StageInfo : Type := {
  text : string;
  subtext : option string;
  progress : Z
}.

Definition getStageInfo (stage : JsVal) : StageInfo :=
  match stage with
  | JStr "coldstart" =>
      {| text := "Waking up backend server...";
         subtext := Some "First request may take 30-60 seconds";
         progress := 10 |}
  | JStr "imagery" =>
      {| text := "Processing imagery..."; subtext := None; progress := 33 |}
  | JStr "filters" =>
      {| text := "Applying filters..."; subtext := None; progress := 66 |}
  | JStr "vectorizing" =>
      {| text := "Generating results..."; subtext := None; progress := 100 |}
  | _ => {| text := "Processing..."; subtext := None; progress := 0 |}
  end.

End ProgressIndicatorColdStart.

(** ** The extraction pipeline (specification sections 3 and 4)

    The code of the detection service is not among the sources; this module
    follows the specification.  Raster values are rationals (dB, degrees,
    metres).  A run records the histogram computations and the stages it
    performs. *)

Module Pipeline.

(** Modelled from the spec: the provenance tag {automatic, manual} of the
    threshold (4.1). *)
Inductive Provenance : Type := Automatic | Manual.

(** Modelled from the spec: DetectionParameters (3), each field nullable. *)
Record DetectionParameters : Type := {
  primary_threshold : option Q;
  secondary_threshold : option Q;
  difference_ceiling : option Q;
  slope_ceiling : option Q;
  min_feature_size : option nat;
  smoothing_window : option nat;
  cutoff_date : option string
}.

(** Modelled from the spec: the parameter set after defaulting (4.5). *)
Record ResolvedParameters : Type := {
  primary_used : Q;
  secondary_used : Q;
  difference_used : Q;
  slope_used : Q;
  min_size_used : nat
}.

(** Modelled from the spec: RasterLayerSet (3); a missing pixel is [None]. *)
Record RasterLayerSet : Type := {
  primary : list (list (option Q));
  secondary : list (list (option Q));
  slope : list (list (option Q));
  pixel_size_m : Q;
  aoi_area_km2 : Q
}.

(** Modelled from the spec: what a run does, in order (4.5). *)
Inductive Step : Type :=
| HistogramBuilt (counts : list nat)
| ThresholdSelected
| MaskBuilt
| MaskRefined
| Vectorized.

(** Modelled from the spec: the 256 bins of the histogram (4.1). *)
Definition bins : nat := 256.

(** Modelled from the spec: the valid (non-missing) pixels (4.1). *)
Definition valid_values (r : list (list (option Q))) : list Q :=
  omap id (concat r).

(** Modelled from the spec: the observed value range (4.1). *)
Definition lowest (vs : list Q) : Q :=
  foldr (fun v m => if Qle_bool v m then v else m) (hd 0%Q vs) vs.

(** Modelled from the spec: the observed value range (4.1). *)
Definition highest (vs : list Q) : Q :=
  foldr (fun v m => if Qle_bool m v then v else m) (hd 0%Q vs) vs.

(** Modelled from the spec: the bin of a value, for bins of equal width
    spanning the observed range (4.1). *)
Definition bin_of (lo hi v : Q) : nat :=
  if Qeq_bool lo hi then 0
  else Nat.min (bins - 1)
         (Z.to_nat (Qfloor ((v - lo) * inject_Z (Z.of_nat bins) / (hi - lo))%Q)).

(** Modelled from the spec: the histogram accumulation (4.1, 5): integer
    bin counts over the valid pixels.  It is the one place where a
    histogram is computed, and it is a step of the run. *)
Definition histogram (vs : list Q) : list Step * list nat :=
  let lo := lowest vs in
  let hi := highest vs in
  let counts :=
    foldl (fun h v => alter S (bin_of lo hi v) h) (replicate bins 0) vs in
  ([HistogramBuilt counts], counts).

(** Modelled from the spec: the sum of the counts, and of the counts
    weighted by their bin index (4.1). *)
Definition mass (h : list nat) : Z := foldr (fun c a => (Z.of_nat c + a)%Z) 0%Z h.

(** Modelled from the spec: see [mass]. *)
Definition moment (h : list nat) : Z :=
  foldr (fun '(i, c) a => (Z.of_nat i * Z.of_nat c + a)%Z) 0%Z (imap pair h).

(** Modelled from the spec: the between-class variance of the split after
    bin [k], up to the constant factor of the squared total (4.1). *)
Definition between_class (h : list nat) (k : nat) : Q :=
  let w0 := mass (take (S k) h) in
  let w1 := (mass h - w0)%Z in
  let d := (moment (take (S k) h) * mass h - moment h * w0)%Z in
  if (w0 =? 0)%Z || (w1 =? 0)%Z then 0%Q
  else (inject_Z (d * d) / inject_Z (w0 * w1))%Q.

(** Modelled from the spec: the split that maximizes the between-class
    variance, the first one among equals (4.1). *)
Definition otsu_bin (h : list nat) : nat :=
  foldl (fun best k =>
           if Qle_bool (between_class h k) (between_class h best)
           then best else k)
        0 (seq 1 (bins - 2)).

(** Modelled from the spec: the automatic threshold for the histogram [h]
    of the values, the upper edge of the chosen bin (4.1). *)
Definition otsu_threshold (vs : list Q) (h : list nat) : Q :=
  let lo := lowest vs in
  let hi := highest vs in
  (lo + inject_Z (Z.of_nat (S (otsu_bin h))) * (hi - lo)
        / inject_Z (Z.of_nat bins))%Q.

(** Modelled from the spec: a histogram is unimodal when its counts never
    rise again after they have fallen (4.1). *)
Fixpoint falling (previous : nat) (h : list nat) : bool :=
  match h with
  | [] => true
  | c :: rest => Nat.leb c previous && falling c rest
  end.

(** Modelled from the spec: see [falling]. *)
Fixpoint rising_then_falling (previous : nat) (h : list nat) : bool :=
  match h with
  | [] => true
  | c :: rest =>
      if Nat.leb previous c then rising_then_falling c rest
      else falling c rest
  end.

(** Modelled from the spec: see [falling]. *)
Definition unimodal (h : list nat) : bool := rising_then_falling 0 h.

(** Modelled from the spec: the histograms for which automatic
    thresholding is flagged as unreliable: unimodal, or with fewer than two
    populated bins (4.1). *)
Definition degenerate (h : list nat) : bool :=
  unimodal h
  || Nat.ltb (length (List.filter (fun c => negb (Nat.eqb c 0)) h)) 2.

(** Modelled from the spec: the Threshold Selector (4.1), with the steps it
    performs: the manual branch returns the override as it is; the
    automatic branch builds the histogram and takes Otsu's threshold from
    it. *)
Definition select_threshold (values : list Q) (override : option Q)
  : list Step * (Q * Provenance * option string) :=
  match override with
  | Some t => ([ThresholdSelected], (t, Manual, None))
  | None =>
      let '(steps, h) := histogram values in
      ((steps ++ [ThresholdSelected])%list,
       (otsu_threshold values h, Automatic,
        if degenerate h
        then Some "automatic threshold from a degenerate histogram"
        else None))
  end.

(** Modelled from the spec: the per-pixel rule of the Mask Builder (4.2). *)
Definition water_candidate (p : ResolvedParameters) (vv vh sl : option Q) : bool :=
  match vv, vh, sl with
  | Some a, Some b, Some s =>
      Qle_bool a (primary_used p) && Qle_bool b (secondary_used p)
      && Qle_bool (a - b)%Q (difference_used p) && Qle_bool s (slope_used p)
  | _, _, _ => false
  end.

(** Modelled from the spec: the candidate mask (4.2). *)
Definition build_mask (layers : RasterLayerSet) (p : ResolvedParameters)
  : list (list bool) :=
  zip_with (fun row_vv rest =>
              zip_with (fun vv '(vh, sl) => water_candidate p vv vh sl)
                       row_vv (zip rest.1 rest.2))
           (primary layers) (zip (secondary layers) (slope layers)).

(** Modelled from the spec: the pixel of a 2-D array at a row and a
    column (3). *)
Definition pixel {A} (r : list (list A)) (i j : nat) : option A :=
  row ← r !! i; row !! j.

(** Modelled from the spec: the shape of a layer, and the structural check
    of the inputs (6, 7). *)
Definition shape (r : list (list (option Q))) : list nat := List.map (@length _) r.

(** Modelled from the spec: see [shape]. *)
Definition well_shaped (layers : RasterLayerSet) : bool :=
  negb (Nat.eqb (length (concat (primary layers))) 0)
  && bool_decide (shape (primary layers) = shape (secondary layers))
  && bool_decide (shape (primary layers) = shape (slope layers)).

(** Modelled from the spec: the typed failure (6, 7). *)
Inductive Failure : Type := InputShapeError.

Section Stages.

(** Modelled from the spec: the Mask Refiner and the Vectorizer are taken
    by their contracts (4.3, 4.4), the defaults of the parameters and the
    measured duration are given. *)
Variable Polygon : Type.
Variable refine : list (list bool) -> nat -> list (list bool).
Variable vectorize : list (list bool) -> list Polygon.
Variable defaults : ResolvedParameters.
Variable duration : Q.

(** Modelled from the spec: DetectionResult (3), with the threshold used
    and its provenance. *)
Record DetectionResult : Type := {
  polygons : list Polygon;
  water_area_km2 : Q;
  water_percentage : Q;
  processing_time_seconds : Q;
  threshold : Q;
  provenance : Provenance;
  parameters_used : ResolvedParameters;
  warning : option string
}.

(** Modelled from the spec: the number of water pixels of a mask (4.4). *)
Definition water_pixels (mask : list (list bool)) : nat :=
  length (List.filter id (concat mask)).

(** Modelled from the spec: the Pipeline Orchestrator (4.5): the structural
    check, then the four stages in order. *)
Definition runPipeline (layers : RasterLayerSet) (params : DetectionParameters)
  : list Step * (Failure + DetectionResult) :=
  if negb (well_shaped layers) then ([], inl InputShapeError)
  else
    let '(steps, (t, tag, warn)) :=
      select_threshold (valid_values (primary layers)) (primary_threshold params) in
    let used := {|
      primary_used := t;
      secondary_used := default (secondary_used defaults) (secondary_threshold params);
      difference_used := default (difference_used defaults) (difference_ceiling params);
      slope_used := default (slope_used defaults) (slope_ceiling params);
      min_size_used := default (min_size_used defaults) (min_feature_size params)
    |} in
    let candidate := build_mask layers used in
    let refined := refine candidate (min_size_used used) in
    let area := (inject_Z (Z.of_nat (water_pixels refined))
                 * pixel_size_m layers * pixel_size_m layers / 1000000)%Q in
    ((steps ++ [MaskBuilt; MaskRefined; Vectorized])%list,
     inr {| polygons := vectorize refined;
            water_area_km2 := area;
            water_percentage := (area / aoi_area_km2 layers * 100)%Q;
            processing_time_seconds := duration;
            threshold := t;
            provenance := tag;
            parameters_used := used;
            warning := warn |}).

End Stages.

End Pipeline.

(** ** Sample data

    A host in which turf accepts every array of rings and measures 25 km²,
    used to run the definitions on concrete inputs. *)

Module Sample.

Definition host : Host := {|
  turf_polygon := fun coordinates =>
    match coordinates with
    | JArr _ => Normal (JObj [("type", JStr "Feature"); ("coordinates", coordinates)])
    | _ => Throw (JObj [("name", JStr "Error")])
    end;
  turf_area := fun _ => 25000000%float;
  toFixed := fun _ _ => "0.00";
  numToString := fun _ => "0"
|}.

(** Whether a value holds a NaN coordinate. *)
Fixpoint has_nan (v : JsVal) : bool :=
  match v with
  | JNum n => PrimFloat.is_nan n
  | JArr items => existsb has_nan items
  | JObj props => existsb (fun p => match p with (_, x) => has_nan x end) props
  | _ => false
  end.

(** The same host, on which the geodesic area of a ring with a NaN
    coordinate is NaN, as is the result of turf's arithmetic on it. *)
Definition nan_host : Host := {|
  turf_polygon := turf_polygon (Host := host);
  turf_area := fun polygon =>
    if has_nan polygon then PrimFloat.nan else 25000000%float;
  toFixed := fun _ _ => "0.00";
  numToString := fun _ => "0"
|}.

Definition ring : JsVal :=
  JArr [JArr [JNum 10; JNum 50]; JArr [JNum 10.1; JNum 50];
        JArr [JNum 10.1; JNum 50.1]; JArr [JNum 10; JNum 50]].

Definition square : JsVal :=
  JObj [("type", JStr "Polygon"); ("coordinates", JArr [ring])].

(** A closed ring of four positions, one of which has NaN as its
    longitude. *)
Definition nan_ring : JsVal :=
  JArr [JArr [JNum 10; JNum 50]; JArr [JNum PrimFloat.nan; JNum 50];
        JArr [JNum 10.1; JNum 50.1]; JArr [JNum 10; JNum 50]].

Definition nan_square : JsVal :=
  JObj [("type", JStr "Polygon"); ("coordinates", JArr [nan_ring])].

Definition site_a : JsVal :=
  JObj [("id", JNum 1); ("name", JStr "A"); ("coordinates", ring)].

Definition site_b : JsVal :=
  JObj [("id", JNum 2); ("name", JStr "B"); ("coordinates", ring)].

Definition no_features : JsVal :=
  JObj [("water_polygons",
         JObj [("type", JStr "FeatureCollection"); ("features", JArr [])]);
        ("metadata", JObj [("water_area_km2", JNum 0)])].

Definition ok_response : JsVal := JObj [("data", no_features)].

Definition server_error : JsVal :=
  JObj [("response",
         JObj [("status", JNum 500);
               ("data", JObj [("detail", JStr "Detection failed")])])].

(** The page after choosing site A and setting one advanced parameter. *)
Definition tuned : gmap string JsVal :=
  <[ "slope_max" := JNum 5 ]> App.initial_params.

Definition ready : App.World :=
  App.run (H := host) App.boot [App.AoiSelect site_a; App.ParamsSet tuned].

Definition body_a : gmap string JsVal :=
  Api.request_body square {[ "slope_max" := JNum 5 ]}.

(** A two-pixel scene and an override of the primary threshold. *)
Definition scene : Pipeline.RasterLayerSet := {|
  Pipeline.primary := [[Some (-20)%Q; Some (-8)%Q]];
  Pipeline.secondary := [[Some (-27)%Q; Some (-15)%Q]];
  Pipeline.slope := [[Some 1%Q; Some 2%Q]];
  Pipeline.pixel_size_m := 10%Q;
  Pipeline.aoi_area_km2 := 1%Q
|}.

Definition override (t : Q) : Pipeline.DetectionParameters := {|
  Pipeline.primary_threshold := Some t;
  Pipeline.secondary_threshold := None;
  Pipeline.difference_ceiling := None;
  Pipeline.slope_ceiling := None;
  Pipeline.min_feature_size := None;
  Pipeline.smoothing_window := None;
  Pipeline.cutoff_date := None
|}.

Definition defaults : Pipeline.ResolvedParameters := {|
  Pipeline.primary_used := (-15)%Q;
  Pipeline.secondary_used := (-22)%Q;
  Pipeline.difference_used := 10%Q;
  Pipeline.slope_used := 5%Q;
  Pipeline.min_size_used := 100
|}.

(** Site B is chosen while the detection for site A is pending. *)
Definition overtaken (o : Api.Outcome) : list App.Event :=
  [App.AoiSelect site_a; App.DetectClick; App.AoiSelect site_b;
   App.RequestSettles 1 o].

End Sample.

(** ** The rest of the client

    [formatArea] of utils/validator.js, and the components around the app:
    AdvancedPanel.js (both copies), TestAoiSelector.js, Sidebar.js,
    MapView.js with its search bar, and the download of ResultsPanel.js. *)

(** What these take from the browser besides the host above. *)
Class Browser : Type := {
  parseFloat : string -> float;
  parseInt : string -> float;
  trim : string -> string;
  encodeURIComponent : string -> string
}.

Module Format.

Section WithHost.
Context `{!Host}.

Definition formatArea (areaKm2 : float) : string :=
  if (areaKm2 <? 1)%float then
    toFixed (areaKm2 * 1000000)%float 0 ++ " m²"
  else
    toFixed areaKm2 2 ++ " km²".

End WithHost.

End Format.

(** ** components/AdvancedPanel.js *)

Module AdvancedPanel.

(** The sliders of the panel, each with a Reset button. *)
Inductive Control : Type :=
| VvThreshold
| VhThreshold
| VvVhDiff
| SlopeMax
| MinAreaPixels.

Definition key_of (c : Control) : string :=
  match c with
  | VvThreshold => "vv_threshold"
  | VhThreshold => "vh_threshold"
  | VvVhDiff => "vv_vh_diff"
  | SlopeMax => "slope_max"
  | MinAreaPixels => "min_area_pixels"
  end.

(** The object given to [setParams] by "Reset All to Auto". *)
Definition reset_all : gmap string JsVal :=
  list_to_map [("vv_threshold", JNull); ("vh_threshold", JNull);
               ("vv_vh_diff", JNull); ("slope_max", JNull);
               ("min_area_pixels", JNull); ("texture_window", JNull)].

(** What the user does in the panel. *)
Inductive Action : Type :=
| Change (c : Control) (value : string)   (* onChange of a slider *)
| Reset (c : Control)                     (* its Reset button *)
| ResetAll.

Section WithBrowser.
Context `{!Browser}.

(** The object [handleParamChange] gives to [setParams]:
    [{ ...params, [key]: value === '' ? null : parseFloat(value) }]. *)
Definition handleParamChange (params : gmap string JsVal) (key value : string)
  : gmap string JsVal :=
  <[ key := if String.eqb value "" then JNull else JNum (parseFloat value) ]>
    params.

Definition next_params (a : Action) (params : gmap string JsVal)
  : gmap string JsVal :=
  match a with
  | Change c value => handleParamChange params (key_of c) value
  | Reset c => handleParamChange params (key_of c) ""
  | ResetAll => reset_all
  end.

End WithBrowser.

End AdvancedPanel.

(** The second copy of the panel: an end date kept as a string, and two
    sliders. *)

Module AdvancedPanelDates.

Inductive Control : Type :=
| StartDate
| SlopeMax
| MinAreaPixels.

Definition key_of (c : Control) : string :=
  match c with
  | StartDate => "start_date"
  | SlopeMax => "slope_max"
  | MinAreaPixels => "min_area_pixels"
  end.

(** The object given to [setParams] by "Reset All to Defaults". *)
Definition reset_all : gmap string JsVal :=
  list_to_map [("start_date", JNull); ("slope_max", JNull);
               ("min_area_pixels", JNull)].

Inductive Action : Type :=
| Change (c : Control) (value : string)
| Reset (c : Control)
| ResetAll.

(** [{ ...params, [key]: value === '' ? null : value }] *)
Definition handleParamChange (params : gmap string JsVal) (key value : string)
  : gmap string JsVal :=
  <[ key := if String.eqb value "" then JNull else JStr value ]> params.

Section WithBrowser.
Context `{!Browser}.

(** [{ ...params, [key]: value === '' ? null : parseFloat(value) }] *)
Definition handleNumericChange (params : gmap string JsVal) (key value : string)
  : gmap string JsVal :=
  <[ key := if String.eqb value "" then JNull else JNum (parseFloat value) ]>
    params.

(** The date input calls [handleParamChange], the sliders
    [handleNumericChange]; every Reset button calls [handleParamChange]
    with the empty string. *)
Definition next_params (a : Action) (params : gmap string JsVal)
  : gmap string JsVal :=
  match a with
  | Change StartDate value => handleParamChange params (key_of StartDate) value
  | Change c value => handleNumericChange params (key_of c) value
  | Reset c => handleParamChange params (key_of c) ""
  | ResetAll => reset_all
  end.

End WithBrowser.

End AdvancedPanelDates.

(** ** components/TestAoiSelector.js *)

Module TestAoiSelector.

(** [a.id === id] for the number [id]: only a number equal to it matches. *)
Definition has_id (id : float) (a : JsVal) : Completion bool :=
  v ← get a "id";
  Normal (match v with
          | JNum n => PrimFloat.eqb n id
          | _ => false
          end).

(** [Array.prototype.find] *)
Fixpoint find (p : JsVal -> Completion bool) (l : list JsVal)
  : Completion (option JsVal) :=
  match l with
  | [] => Normal None
  | a :: rest =>
      b ← p a;
      if (b : bool) then Normal (Some a) else find p rest
  end.

Section WithBrowser.
Context `{!Browser}.
Variable testAois : list JsVal.

(** [handleSelect] for the value of the chosen option: the new
    [selectedId], and the arguments with which [onSelect] is called (none,
    or one), unless the search throws. *)
Definition handleSelect (value : string) : JsVal * Completion (list JsVal) :=
  let id := parseInt value in
  (JNum id,
   if truthy (JNum id) then
     found ← find (has_id id) testAois;
     Normal (match found with
             | Some aoi => if truthy aoi then [aoi] else []
             | None => []
             end)
   else Normal [JNull]).

End WithBrowser.

End TestAoiSelector.

(** ** components/Sidebar.js *)

Module Sidebar.

(** The Detect button is disabled while loading. *)
Definition detect_disabled (loading : bool) : bool := loading.

(** A click on the button reaches [onDetectWater] only when the button is
    enabled. *)
Definition click (s : App.AppState) : list App.Event :=
  if detect_disabled (App.loading s) then [] else [App.DetectClick].

End Sidebar.

(** ** components/MapView.js *)

Module MapView.

(** [drawnAoi ? { type: 'Feature', geometry: drawnAoi } : null] *)
Definition drawnAoiPolygon (drawnAoi : JsVal) : JsVal :=
  if truthy drawnAoi then
    JObj [("type", JStr "Feature"); ("geometry", drawnAoi)]
  else JNull.

(** [selectedAoi ? { type: 'Feature', geometry: { type: 'Polygon',
    coordinates: [selectedAoi.coordinates] } } : null] *)
Definition selectedAoiPolygon (selectedAoi : JsVal) : Completion JsVal :=
  if truthy selectedAoi then
    coordinates ← get selectedAoi "coordinates";
    Normal (JObj [("type", JStr "Feature");
                  ("geometry",
                   JObj [("type", JStr "Polygon");
                         ("coordinates", JArr [coordinates])])])
  else Normal JNull.

(** The AOI layers of the map: the drawn polygon, then the selected one,
    each when it is not null. *)
Definition aoi_layers (s : App.AppState) : Completion (list JsVal) :=
  selected ← selectedAoiPolygon (App.selectedAoi s);
  Normal (List.filter truthy [drawnAoiPolygon (App.drawnAoi s); selected]).

(** [showResults && results && results.water_polygons &&
    results.water_polygons.features.length > 0]: whether the layer of the
    detected water is on the map.  Reading the length of a missing feature
    list throws. *)
Definition water_layer (showResults : bool) (results : option ResultsPanel.Results)
  : Completion bool :=
  if showResults then
    match results with
    | None => Normal false
    | Some r =>
        match ResultsPanel.water_polygons r with
        | None => Normal false
        | Some collection =>
            match ResultsPanel.features collection with
            | None => Throw type_error
            | Some fs => Normal (Nat.ltb 0 (length fs))
            end
        end
    end
  else Normal false.

(** [handleCreated] and [handleDeleted]: what they pass to [onAoiDraw]. *)
Definition handleCreated (geoJSON : JsVal) : Completion (list App.Event) :=
  geometry ← get geoJSON "geometry";
  Normal [App.AoiDraw geometry].

Definition handleDeleted : list App.Event := [App.AoiDraw JNull].

End MapView.

(** The search bar of the second copy of MapView.js. *)

Module SearchBar.

Record State : Type := {
  query : string;
  results : JsVal;
  isSearching : bool;
  showResults : bool
}.

(** How [fetch] followed by [response.json()] ends. *)
Inductive Outcome : Type :=
| Found (data : JsVal)
| Failed (error : JsVal).

Section WithBrowser.
Context `{!Browser}.

Definition search_url (q : string) : string :=
  "https://nominatim.openstreetmap.org/search?format=json&q="
    ++ encodeURIComponent q ++ "&limit=5".

(** [handleSearch] up to its [await]: the new state and the URLs fetched. *)
Definition handleSearch_begin (s : State) : State * list string :=
  if String.eqb (trim (query s)) "" then (s, [])
  else ({| query := query s; results := results s; isSearching := true;
           showResults := showResults s |},
        [search_url (query s)]).

(** [handleSearch] from its [await] on, on the state of that moment. *)
Definition handleSearch_settle (o : Outcome) (s : State) : State :=
  match o with
  | Found data =>
      {| query := query s; results := data; isSearching := false;
         showResults := true |}
  | Failed _ =>
      {| query := query s; results := results s; isSearching := false;
         showResults := showResults s |}
  end.

(** [handleKeyPress]: only Enter searches. *)
Definition handleKeyPress (key : string) (s : State) : State * list string :=
  if String.eqb key "Enter" then handleSearch_begin s else (s, []).

(** [handleResultClick] for the result clicked: reading its [lat] and
    [lon] throws for a result that is null; otherwise the list is hidden
    and the query cleared (the flight of the map is not part of the bar). *)
Definition handleResultClick (result : JsVal) (s : State) : Completion State :=
  lat ← get result "lat";
  lon ← get result "lon";
  Normal {| query := ""; results := results s; isSearching := isSearching s;
            showResults := false |}.

(** The bar with its fetches: how many are in flight, and every address
    fetched so far. *)
Record Bar : Type := {
  state : State;
  pending : nat;
  fetched : list string
}.

Definition initial : Bar :=
  {| state := {| query := ""; results := JArr []; isSearching := false;
                 showResults := false |};
     pending := 0; fetched := [] |}.

(** What can happen to the bar.  The button is disabled while
    [isSearching]; the key handler of the input is not.  A result can be
    clicked only while the list is shown. *)
Inductive Input : Type :=
| Typed (value : string)             (* onChange of the input *)
| Button                             (* onClick of the button *)
| Key (key : string)                 (* onKeyPress of the input *)
| Settled (o : Outcome)              (* a fetch in flight ends *)
| ResultClicked (index : nat).       (* onClick of a result *)

Definition started (b : Bar) (begun : State * list string) : Bar :=
  {| state := begun.1; pending := pending b + length begun.2;
     fetched := (fetched b ++ begun.2)%list |}.

Definition step (b : Bar) (i : Input) : Bar :=
  match i with
  | Typed value =>
      {| state := {| query := value; results := results (state b);
                     isSearching := isSearching (state b);
                     showResults := showResults (state b) |};
         pending := pending b; fetched := fetched b |}
  | Button =>
      if isSearching (state b) then b
      else started b (handleSearch_begin (state b))
  | Key key => started b (handleKeyPress key (state b))
  | Settled o =>
      match pending b with
      | O => b
      | S n => {| state := handleSearch_settle o (state b); pending := n;
                  fetched := fetched b |}
      end
  | ResultClicked index =>
      match showResults (state b), results (state b) with
      | true, JArr items =>
          match items !! index with
          | Some result =>
              match handleResultClick result (state b) with
              | Normal s => {| state := s; pending := pending b;
                               fetched := fetched b |}
              | Throw _ => b
              end
          | None => b
          end
      | _, _ => b
      end
  end.

Definition run (b : Bar) (inputs : list Input) : Bar := foldl step b inputs.

End WithBrowser.

End SearchBar.

(** ** The download of components/ResultsPanel.js *)

Module Download.

(** [s.split(c)[0]]: the text before the first [c], all of [s] without one. *)
Fixpoint before (c : ascii) (s : string) : string :=
  match s with
  | EmptyString => EmptyString
  | String a rest =>
      if Ascii.eqb a c then EmptyString else String a (before c rest)
  end.

(** [`water_detection_${new Date().toISOString().split('T')[0]}.geojson`] *)
Definition file_name (iso : string) : string :=
  "water_detection_" ++ before "T"%char iso ++ ".geojson".

End Download.

(** ** The page as its user drives it

    The components around the app turn what the user does into calls of the
    app's handlers: the dropdown of test locations, the drawing tools of
    the map, the Detect button, the panel of advanced parameters, the
    buttons of the error banner and of the overlay control.  The interval
    and the settlement of a request come from the browser. *)

Module Page.

Inductive Input : Type :=
| Choose (value : string)               (* TestAoiSelector: handleSelect *)
| Created (geoJSON : JsVal)             (* MapView: handleCreated *)
| Deleted                               (* MapView: handleDeleted *)
| DetectButton                          (* Sidebar: the Detect button *)
| Panel (a : AdvancedPanel.Action)      (* AdvancedPanel *)
| DismissError                          (* the × of the error banner *)
| HideOverlay                           (* Hide of the overlay control *)
| Interval (id : positive)
| Settled (id : positive) (o : Api.Outcome).

Section WithHost.
Context `{!Host} `{!Browser}.
Variable testAois : list JsVal.

(** The handler calls an input leads to, in the state [s] on screen.  The
    banner exists only while [error] is truthy, the overlay control only
    while [sentinelOverlay] is. *)
Definition events (s : App.AppState) (i : Input) : list App.Event :=
  match i with
  | Choose value =>
      match (TestAoiSelector.handleSelect testAois value).2 with
      | Normal args => List.map App.AoiSelect args
      | Throw _ => []
      end
  | Created geoJSON =>
      match MapView.handleCreated geoJSON with
      | Normal evs => evs
      | Throw _ => []
      end
  | Deleted => MapView.handleDeleted
  | DetectButton => Sidebar.click s
  | Panel a =>
      [App.ParamsSet (AdvancedPanel.next_params a (App.advancedParams s))]
  | DismissError => if truthy (App.error s) then [App.ErrorDismiss] else []
  | HideOverlay =>
      if truthy (App.sentinelOverlay s) then [App.OverlayHide] else []
  | Interval id => [App.IntervalFires id]
  | Settled id o => [App.RequestSettles id o]
  end.

Definition step (w : App.World) (i : Input) : App.World :=
  App.run w (events (App.app w) i).

Definition run (w : App.World) (inputs : list Input) : App.World :=
  foldl step w inputs.

End WithHost.

(** The stage names that [ProgressIndicator] knows. *)
Definition known_stage (stage : JsVal) : Prop :=
  stage = JStr "imagery" \/ stage = JStr "filters" \/ stage = JStr "vectorizing".

(** The overlay is absent, or an object with a truthy [url]. *)
Definition overlay_ok (overlay : JsVal) : Prop :=
  overlay = JNull
  \/ exists url bounds,
       overlay = JObj [("url", url); ("bounds", bounds)] /\ truthy url = true.

(** While the page is loading exactly one request is pending, and none
    otherwise. *)
Definition one_pending (w : App.World) : Prop :=
  if App.loading (App.app w) then exists id, App.awaiting w = {[ id ]}
  else App.awaiting w = ∅.

(** Every pending invocation holds its own interval, and the active
    intervals are those of the pending invocations. *)
Definition no_leak (w : App.World) : Prop :=
  App.intervals w = App.awaiting w
  /\ forall id, id ∈ App.awaiting w ->
       exists c, App.calls w !! id = Some c
                 /\ Api.progressInterval c = Some id.

Section WithHost.
Context `{!Host}.

(** [handleDetectWater] from the return of [detectWater] on, which gave
    [r]: the rest of the [try], the [catch] and the [finally]. *)
Definition handleDetectWater_rest (r : Completion JsVal) : App.M unit :=
  App.finally_M
    (App.try_catch_M
       (data ← App.lift r;
        App.setResults data;;
        tile_url ← App.lift (get data "tile_url");
        (if truthy tile_url then
           image_bounds ← App.lift (get data "image_bounds");
           App.setSentinelOverlay
             (JObj [("url", tile_url); ("bounds", image_bounds)])
         else mret tt);;
        App.setProcessingStage JNull)
       (fun err =>
          message ← App.lift (get err "message");
          App.setError
            (or_else message (JStr "An error occurred during detection"));;
          App.setProcessingStage JNull))
    (App.setLoading false).

End WithHost.

(** Only what the page displays of a detection differs: the loading flag,
    the stage, the results, the error and the overlay. *)
Definition same_but_display (w w' : App.World) : Prop :=
  App.selectedAoi (App.app w') = App.selectedAoi (App.app w)
  /\ App.drawnAoi (App.app w') = App.drawnAoi (App.app w)
  /\ App.advancedParams (App.app w') = App.advancedParams (App.app w)
  /\ App.calls w' = App.calls w
  /\ App.intervals w' = App.intervals w
  /\ App.awaiting w' = App.awaiting w
  /\ App.next_timer w' = App.next_timer w
  /\ App.requests w' = App.requests w.

(** The stage is as before, or null. *)
Definition stage_kept_or_null (w w' : App.World) : Prop :=
  App.processingStage (App.app w') = JNull
  \/ App.processingStage (App.app w') = App.processingStage (App.app w).

(** The overlay is as before, or a proper one. *)
Definition overlay_kept_or_ok (w w' : App.World) : Prop :=
  App.sentinelOverlay (App.app w') = App.sentinelOverlay (App.app w)
  \/ overlay_ok (App.sentinelOverlay (App.app w')).

(** The stage is null or a known one, and a known one while loading. *)
Definition stage_ok (s : App.AppState) : Prop :=
  (App.processingStage s = JNull \/ known_stage (App.processingStage s))
  /\ (App.loading s = true -> known_stage (App.processingStage s)).

(** A request that fails. *)
Definition rejection (ev : App.Event) : bool :=
  match ev with
  | App.RequestSettles _ (Api.Rejected _) => true
  | _ => false
  end.

End Page.

(** ** More sample data *)

Module Demo.

Definition browser : Browser := {|
  parseFloat := fun s => if String.eqb s "7" then 7%float else PrimFloat.nan;
  parseInt := fun s =>
    if String.eqb s "1" then 1%float
    else if String.eqb s "2" then 2%float
    else PrimFloat.nan;
  trim := fun s => s;
  encodeURIComponent := fun s => s
|}.

Definition testAois : list JsVal := [Sample.site_a; Sample.site_b].

(** A session without failure: choose site A, detect, let
    the interval fire, receive the response. *)
Definition calm : list App.Event :=
  [App.AoiSelect Sample.site_a; App.DetectClick; App.IntervalFires 1;
   App.RequestSettles 1 (Api.Resolved Sample.ok_response)].

End Demo.

(** * Part II: properties *)

(** ** Comparisons of binary64 numbers *)

Lemma SFcompare_antisym (x y : spec_float) :
  SFcompare y x = option_map CompOpp (SFcompare x y).
Proof.
  destruct x as [sx|sx| |sx mx ex], y as [sy|sy| |sy my ey]; simpl;
    try reflexivity; try (destruct sx; reflexivity);
    try (destruct sy; reflexivity); try (destruct sx, sy; reflexivity).
  destruct sx, sy; simpl; try reflexivity;
    rewrite (Z.compare_antisym ex ey); destruct (ex ?= ey)%Z; simpl;
    try reflexivity;
    rewrite Pos.compare_cont_antisym; simpl;
    rewrite ?CompOpp_involutive; reflexivity.
Qed.

Lemma SFcompare_refl (x : spec_float) :
  SFcompare x x = match x with S754_nan => None | _ => Some Eq end.
Proof.
  destruct x as [s|s| |s m e]; simpl; try reflexivity.
  - destruct s; reflexivity.
  - rewrite Z.compare_refl, Pos.compare_cont_refl. destruct s; reflexivity.
Qed.

Lemma is_nan_Prim2SF (x : float) :
  PrimFloat.is_nan x = false -> Prim2SF x <> S754_nan.
Proof.
  unfold PrimFloat.is_nan. rewrite FloatAxioms.eqb_spec. unfold SFeqb.
  rewrite SFcompare_refl. intros Hx E. rewrite E in Hx. discriminate.
Qed.

(** On numbers that are not NaN, [x < y] is the negation of [y <= x]. *)
Lemma ltb_negb_leb (x y : float) :
  PrimFloat.is_nan x = false -> PrimFloat.is_nan y = false ->
  PrimFloat.ltb x y = negb (PrimFloat.leb y x).
Proof.
  intros Hx Hy. apply is_nan_Prim2SF in Hx, Hy.
  rewrite FloatAxioms.ltb_spec, FloatAxioms.leb_spec. unfold SFltb, SFleb.
  rewrite (SFcompare_antisym (Prim2SF x) (Prim2SF y)).
  destruct (Prim2SF x) as [sx|sx| |sx mx ex] eqn:Ex; try congruence;
    destruct (Prim2SF y) as [sy|sy| |sy my ey] eqn:Ey; try congruence;
    destruct (SFcompare _ _) as [[]|] eqn:Ec; simpl; try reflexivity;
    simpl in Ec; try discriminate.
Qed.

(** Every comparison with NaN is false. *)
Lemma ltb_nan_l (y : float) : PrimFloat.ltb PrimFloat.nan y = false.
Proof. rewrite FloatAxioms.ltb_spec. reflexivity. Qed.

Lemma ltb_nan_r (x : float) : PrimFloat.ltb x PrimFloat.nan = false.
Proof.
  rewrite FloatAxioms.ltb_spec. unfold SFltb.
  change (Prim2SF PrimFloat.nan) with S754_nan.
  destruct (Prim2SF x); reflexivity.
Qed.

(** A comparison with NaN is false. *)
Lemma ltb_is_nan (x y : float) :
  PrimFloat.is_nan x = true \/ PrimFloat.is_nan y = true ->
  PrimFloat.ltb x y = false.
Proof.
  intros Hn. rewrite FloatAxioms.ltb_spec. unfold SFltb.
  assert (forall z, PrimFloat.is_nan z = true -> Prim2SF z = S754_nan) as Hz.
  { intros z Hzn. unfold PrimFloat.is_nan in Hzn.
    rewrite FloatAxioms.eqb_spec in Hzn. unfold SFeqb in Hzn.
    rewrite SFcompare_refl in Hzn.
    destruct (Prim2SF z); try reflexivity; discriminate. }
  destruct Hn as [Hn|Hn]; rewrite (Hz _ Hn); [reflexivity|].
  destruct (Prim2SF x); reflexivity.
Qed.

(** Nothing is above a positive number of a greater exponent and below
    one of a smaller exponent. *)
Lemma SFltb_between (mhi mlo : positive) (ehi elo : Z) (x : spec_float) :
  (elo < ehi)%Z ->
  SFltb (S754_finite false mhi ehi) x = true ->
  SFltb x (S754_finite false mlo elo) = true -> False.
Proof.
  intros He. unfold SFltb.
  destruct x as [s|s| |s m e]; simpl.
  - discriminate.
  - destruct s; discriminate.
  - discriminate.
  - destruct s; [discriminate|].
    destruct (Z.compare_spec ehi e) as [Heq|Hlt|Hgt];
      destruct (Z.compare_spec e elo) as [Heq'|Hlt'|Hgt'];
      try discriminate; lia.
Qed.

(** No number is above 2500 and below 0.01. *)
Lemma not_both_outside (a : float) :
  (Validator.MAX_AREA_KM2 <? a)%float = true ->
  (a <? Validator.MIN_AREA_KM2)%float = true -> False.
Proof.
  rewrite !FloatAxioms.ltb_spec.
  assert (exists mhi mlo,
            Prim2SF Validator.MAX_AREA_KM2 = S754_finite false mhi (-41)
            /\ Prim2SF Validator.MIN_AREA_KM2 = S754_finite false mlo (-59))
    as [mhi [mlo [-> ->]]] by (do 2 eexists; split; vm_compute; reflexivity).
  apply SFltb_between. lia.
Qed.

(** ** components/ProgressIndicator.js *)

(** C10: [getStageInfo] is total: for every stage value (null, undefined,
    any string, any other value) it returns a record whose progress lies in
    [0, 100], and every stage outside 'imagery', 'filters', 'vectorizing'
    gets the text 'Processing...' with progress 0. *)
Theorem getStageInfo_total (stage : JsVal) :
  let info := ProgressIndicator.getStageInfo stage in
  (0 <= ProgressIndicator.progress info <= 100)%Z
  /\ ((stage = JStr "imagery" /\ ProgressIndicator.text info = "Processing imagery..."
         /\ ProgressIndicator.progress info = 33%Z)
      \/ (stage = JStr "filters" /\ ProgressIndicator.text info = "Applying filters..."
            /\ ProgressIndicator.progress info = 66%Z)
      \/ (stage = JStr "vectorizing" /\ ProgressIndicator.text info = "Generating results..."
            /\ ProgressIndicator.progress info = 100%Z)
      \/ (stage <> JStr "imagery" /\ stage <> JStr "filters"
            /\ stage <> JStr "vectorizing"
            /\ ProgressIndicator.text info = "Processing..."
            /\ ProgressIndicator.progress info = 0%Z)).
Proof.
  destruct stage as [| | b | n | s | items | props];
    try (cbn; split; [lia | do 3 right; repeat split; congruence]).
  destruct (decide (s = "imagery")) as [->|H1];
    [cbn; split; [lia | left; auto] |].
  destruct (decide (s = "filters")) as [->|H2];
    [cbn; split; [lia | right; left; auto] |].
  destruct (decide (s = "vectorizing")) as [->|H3];
    [cbn; split; [lia | do 2 right; left; auto] |].
  assert (E : ProgressIndicator.getStageInfo (JStr s)
              = {| ProgressIndicator.text := "Processing...";
                   ProgressIndicator.progress := 0 |}).
  { unfold ProgressIndicator.getStageInfo.
    repeat match goal with
           | |- context [match ?x with _ => _ end] =>
               is_var x; destruct x; try reflexivity
           end; congruence. }
  cbn zeta. rewrite E. cbn. split; [lia |].
  do 3 right. repeat split; congruence.
Qed.

(** The second copy of the component is total as well; its extra stage
    'coldstart' has a text and a progress of its own. *)
Remark getStageInfo_coldstart_total (stage : JsVal) :
  (0 <= ProgressIndicatorColdStart.progress
          (ProgressIndicatorColdStart.getStageInfo stage) <= 100)%Z
  /\ ProgressIndicatorColdStart.progress
       (ProgressIndicatorColdStart.getStageInfo (JStr "coldstart")) = 10%Z.
Proof.
  split; [|reflexivity].
  unfold ProgressIndicatorColdStart.getStageInfo.
  repeat match goal with
         | |- context [match ?x with _ => _ end] => destruct x
         end; cbn; lia.
Qed.

(** ** utils/validator.js *)

Section ValidatorFacts.
Context `{!Host}.

Lemma validateAOI_absent (geometry : JsVal) :
  truthy geometry = false ->
  Validator.validateAOI geometry
  = Normal {| Validator.isValid := false;
              Validator.error := Some "No geometry provided";
              Validator.area := 0 |}.
Proof.
  intros Hg. unfold Validator.validateAOI, Validator.validateAOI_try.
  rewrite Hg. reflexivity.
Qed.

Lemma validateAOI_not_polygon (geometry : JsVal) :
  truthy geometry = true ->
  Validator.polygon_of geometry = None ->
  Validator.validateAOI geometry
  = Normal {| Validator.isValid := false;
              Validator.error := Some "Invalid geometry";
              Validator.area := 0 |}.
Proof.
  intros Hg Hp. unfold Validator.polygon_of in Hp. rewrite Hg in Hp.
  unfold Validator.validateAOI, Validator.validateAOI_try. rewrite Hg. cbn.
  destruct (get geometry "coordinates") as [c|e]; cbn in *; [|reflexivity].
  destruct (turf_polygon c) as [p|e]; cbn in *; [discriminate|reflexivity].
Qed.

Lemma validateAOI_polygon (geometry polygon : JsVal) :
  Validator.polygon_of geometry = Some polygon ->
  let a := Validator.areaKm2_of polygon in
  Validator.validateAOI geometry
  = Normal (if (Validator.MAX_AREA_KM2 <? a)%float then
              {| Validator.isValid := false;
                 Validator.error := Some (Validator.too_large a);
                 Validator.area := a |}
            else if (a <? Validator.MIN_AREA_KM2)%float then
              {| Validator.isValid := false;
                 Validator.error := Some (Validator.too_small a);
                 Validator.area := a |}
            else
              {| Validator.isValid := true; Validator.error := None;
                 Validator.area := a |}).
Proof.
  unfold Validator.polygon_of. intros Hp.
  destruct (truthy geometry) eqn:Hg; [|discriminate].
  unfold Validator.validateAOI, Validator.validateAOI_try. rewrite Hg. cbn.
  destruct (get geometry "coordinates") as [c|e]; cbn in *; [|discriminate].
  destruct (turf_polygon c) as [p|e]; cbn in *; [|discriminate].
  injection Hp as ->. unfold Validator.areaKm2_of.
  destruct (_ <? _)%float; [reflexivity|].
  destruct (_ <? _)%float; reflexivity.
Qed.

(** [validateAOI] returns: no exception leaves its [try]/[catch]. *)
Lemma validateAOI_returns (geometry : JsVal) :
  exists r, Validator.validateAOI geometry = Normal r.
Proof.
  destruct (truthy geometry) eqn:Hg.
  - destruct (Validator.polygon_of geometry) as [p|] eqn:Hp.
    + eexists. apply (validateAOI_polygon _ _ Hp).
    + eexists. apply (validateAOI_not_polygon _ Hg Hp).
  - eexists. apply (validateAOI_absent _ Hg).
Qed.

(** Away from NaN, failing both size checks is lying in [0.01, 2500]. *)
Lemma within_bounds_checks (a : float) :
  PrimFloat.is_nan a = false ->
  Validator.within_bounds a
  = negb (Validator.MAX_AREA_KM2 <? a)%float
    && negb (a <? Validator.MIN_AREA_KM2)%float.
Proof.
  intros Ha. unfold Validator.within_bounds.
  rewrite (ltb_negb_leb Validator.MAX_AREA_KM2 a) by (reflexivity || exact Ha).
  rewrite (ltb_negb_leb a Validator.MIN_AREA_KM2) by (reflexivity || exact Ha).
  rewrite !negb_involutive. apply andb_comm.
Qed.

(** A result that is valid lies outside neither bound. *)
Lemma valid_not_outside (geometry : JsVal) (r : Validator.Validation) :
  Validator.validateAOI geometry = Normal r ->
  Validator.isValid r = true ->
  Validator.outside_bounds (Validator.area r) = false.
Proof.
  intros Hr Hv.
  destruct (truthy geometry) eqn:Hg.
  - destruct (Validator.polygon_of geometry) as [p|] eqn:Hp.
    + rewrite (validateAOI_polygon _ _ Hp) in Hr. injection Hr as <-.
      cbn zeta in *. unfold Validator.outside_bounds.
      destruct (Validator.MAX_AREA_KM2 <? Validator.areaKm2_of p)%float eqn:E1;
        [discriminate|].
      destruct (Validator.areaKm2_of p <? Validator.MIN_AREA_KM2)%float eqn:E2;
        [discriminate|].
      cbn [Validator.area]. rewrite E1, E2. reflexivity.
    + rewrite (validateAOI_not_polygon _ Hg Hp) in Hr.
      injection Hr as <-. discriminate.
  - rewrite (validateAOI_absent _ Hg) in Hr. injection Hr as <-. discriminate.
Qed.

(** When turf reports NaN, both comparisons are false and the geometry is
    accepted. *)
Remark validateAOI_nan_area (geometry polygon : JsVal) :
  Validator.polygon_of geometry = Some polygon ->
  Validator.areaKm2_of polygon = PrimFloat.nan ->
  Validator.validateAOI geometry
  = Normal {| Validator.isValid := true; Validator.error := None;
              Validator.area := PrimFloat.nan |}.
Proof.
  intros Hp Ha. rewrite (validateAOI_polygon _ _ Hp). cbn zeta.
  rewrite Ha, ltb_nan_r, ltb_nan_l. reflexivity.
Qed.

End ValidatorFacts.




(** ** services/api.js *)

Section ApiFacts.
Context `{!Host}.

(** The [catch] block always ends in a [throw]. *)
Lemma rethrow_throws (error : JsVal) : exists e, Api.rethrow error = Throw e.
Proof.
  unfold Api.rethrow.
  destruct (get error "response") as [response|e]; cbn; [|eauto].
  destruct (truthy response).
  - destruct (get response "data") as [data|e]; cbn; [|eauto].
    destruct (get data "detail") as [detail|e]; cbn; eauto.
  - destruct (get error "request") as [request|e]; cbn; [|eauto].
    destruct (truthy request); [eauto|].
    destruct (get error "message") as [message|e]; cbn; eauto.
Qed.

(** The interval callback only reports progress. *)
Lemma fire_progressInterval (ticks : nat) (c : Api.Call) :
  Api.progressInterval (Api.fire ticks c).1 = Api.progressInterval c.
Proof.
  revert c. induction ticks as [|n IH]; intros c; [reflexivity|].
  cbn. specialize (IH (Api.interval_callback c).1).
  destruct (Api.fire n _) as [c2 es2]. cbn in *. exact IH.
Qed.

Lemma fire_effects (ticks : nat) (c : Api.Call) :
  (Api.fire ticks c).2
  = List.map (fun k => Api.EProgress (Api.stages_at ((Api.stage c + k) mod 3)))
             (seq 1 ticks).
Proof.
  revert c. induction ticks as [|n IH]; intros c; [reflexivity|].
  cbn [Api.fire]. unfold Api.interval_callback at 1.
  specialize (IH {| Api.progressInterval := Api.progressInterval c;
                    Api.stage := (Api.stage c + 1) mod length Api.stages |}).
  destruct (Api.fire n _) as [c2 es2]. cbn [fst snd] in *. rewrite IH.
  cbn [seq List.map app]. f_equal.
  rewrite <- (seq_shift n 1), List.map_map. apply List.map_ext. intros k.
  cbn [Api.stage]. change (length Api.stages) with 3.
  rewrite Nat.Div0.add_mod_idemp_l. do 3 f_equal. lia.
Qed.

Lemma intervals_after_progress (f : nat -> JsVal) (l : list nat)
    (active : gset positive) :
  Api.intervals_after (List.map (fun k => Api.EProgress (f k)) l) active = active.
Proof.
  unfold Api.intervals_after.
  induction l as [|k l IHl]; [reflexivity|]. exact IHl.
Qed.

(** X1: the progress reports of an invocation with a callback are
    [stages[k mod 3]] for k = 0, 1, ..., one per firing of the interval
    after the first, however the request settles. *)
Lemma detectWater_reports (geometry : JsVal) (params : gmap string JsVal)
    (fresh : positive) (ticks : nat) (o : Api.Outcome) :
  Api.reports (Api.detectWater geometry params true fresh ticks o).1
  = List.map (fun k => Api.stages_at (k mod 3)) (seq 0 (S ticks)).
Proof.
  unfold Api.detectWater. cbn [Api.detectWater_begin Api.progressInterval].
  pose proof (fire_effects ticks {| Api.progressInterval := Some fresh;
                                    Api.stage := 0 |}) as Hf.
  destruct (Api.fire ticks _) as [c1 es1]. cbn [fst snd Api.stage] in Hf.
  destruct (Api.detectWater_settle c1 o) as [es2 r] eqn:Hs. cbn [fst].
  assert (Api.reports es2 = []) as H2.
  { unfold Api.detectWater_settle in Hs. destruct o as [response|error].
    - destruct (get response "data"); injection Hs as <- _;
        destruct (Api.progressInterval c1); reflexivity.
    - injection Hs as <- _. reflexivity. }
  unfold Api.reports in *. cbn [omap list_omap app].
  rewrite omap_app, H2, app_nil_r, Hf.
  cbn [seq List.map]. f_equal.
  rewrite <- (seq_shift ticks 0), List.map_map.
  induction (seq 0 ticks) as [|k l IHl]; [reflexivity|].
  cbn [List.map omap list_omap]. rewrite IHl. reflexivity.
Qed.

(** X2: an invocation whose request resolves leaves no interval active. *)
Lemma detectWater_resolved_clears (geometry : JsVal) (params : gmap string JsVal)
    (fresh : positive) (ticks : nat) (response : JsVal) :
  Api.intervals_after
    (Api.detectWater geometry params true fresh ticks (Api.Resolved response)).1 ∅
  = ∅.
Proof.
  unfold Api.detectWater. cbn [Api.detectWater_begin Api.progressInterval].
  pose proof (fire_effects ticks {| Api.progressInterval := Some fresh;
                                    Api.stage := 0 |}) as Hf.
  pose proof (fire_progressInterval ticks {| Api.progressInterval := Some fresh;
                                            Api.stage := 0 |}) as Hp.
  destruct (Api.fire ticks _) as [c1 es1]. cbn [fst snd Api.stage] in Hf, Hp.
  unfold Api.detectWater_settle. rewrite Hp. cbn [Api.progressInterval].
  assert (forall A, Api.intervals_after es1 A = A) as Hes1.
  { subst es1. intros A. apply intervals_after_progress. }
  destruct (get response "data"); cbn [fst];
    unfold Api.intervals_after in *; cbn [foldl app];
    rewrite foldl_app, Hes1; cbn; set_solver.
Qed.

End ApiFacts.

Section DetectWaterFailure.
Context `{!Host}.

Lemma detectWater_rejected (geometry : JsVal) (params : gmap string JsVal)
    (onProgress : bool) (fresh : positive) (ticks : nat) (error : JsVal) :
  exists es1,
    Api.detectWater geometry params onProgress fresh ticks (Api.Rejected error)
    = (((Api.detectWater_begin geometry params onProgress fresh).2
        ++ List.map (fun k => Api.EProgress (Api.stages_at (k mod 3))) es1
        ++ [Api.EConsoleError "Error detecting water:"])%list,
       Api.rethrow error).
Proof.
  unfold Api.detectWater. destruct onProgress; cbn [Api.detectWater_begin].
  - cbn [Api.progressInterval].
    pose proof (fire_effects ticks {| Api.progressInterval := Some fresh;
                                      Api.stage := 0 |}) as Hf.
    destruct (Api.fire ticks _) as [c1 es1]. cbn [fst snd Api.stage] in Hf.
    subst es1. exists (seq 1 ticks). reflexivity.
  - exists []. reflexivity.
Qed.

(** C5 (as amended): a failing request makes [detectWater] throw, after
    exactly one POST and without a second attempt.  When the error carries a
    response, the message is the [detail] of its body if that is truthy (a
    string detail is taken as it is) and 'Server error occurred' otherwise;
    with a request but no response, it is 'No response from server. Please
    check your connection.'; otherwise it is the message of the error if
    that is truthy, and 'Failed to send request' otherwise. *)
Theorem detectWater_failure (geometry : JsVal) (params : gmap string JsVal)
    (onProgress : bool) (fresh : positive) (ticks : nat) (error : JsVal) :
  let run := Api.detectWater geometry params onProgress fresh ticks
               (Api.Rejected error) in
  Api.posts run.1 = [("/detect-water", Api.request_body geometry params)]
  /\ (exists e, run.2 = Throw e)
  /\ (forall response data detail,
        get error "response" = Normal response -> truthy response = true ->
        get response "data" = Normal data -> get data "detail" = Normal detail ->
        run.2 = Throw (new_Error (if truthy detail then detail
                                  else JStr "Server error occurred")))
  /\ (forall response request,
        get error "response" = Normal response -> truthy response = false ->
        get error "request" = Normal request -> truthy request = true ->
        run.2 = Throw (new_Error
                  (JStr "No response from server. Please check your connection.")))
  /\ (forall response request message,
        get error "response" = Normal response -> truthy response = false ->
        get error "request" = Normal request -> truthy request = false ->
        get error "message" = Normal message ->
        run.2 = Throw (new_Error (if truthy message then message
                                  else JStr "Failed to send request")))
  /\ (forall s, get (new_Error (JStr s)) "message" = Normal (JStr s)).
Proof.
  destruct (detectWater_rejected geometry params onProgress fresh ticks error)
    as [es1 ->]. cbn [fst snd].
  split; [|split; [apply rethrow_throws|]].
  - unfold Api.posts. rewrite !omap_app.
    assert (omap (fun e => match e with
                           | Api.EPost url body => Some (url, body)
                           | _ => None
                           end)
              (List.map (fun k => Api.EProgress (Api.stages_at (k mod 3))) es1)
            = []) as ->.
    { induction es1 as [|k l IHl]; [reflexivity|]. exact IHl. }
    destruct onProgress; reflexivity.
  - unfold Api.rethrow, or_else.
    split; [|split; [|split]].
    + intros response data detail Hr Ht Hd He.
      rewrite Hr; cbn. rewrite Ht, Hd; cbn. rewrite He. reflexivity.
    + intros response request Hr Ht Hq Hqt.
      rewrite Hr; cbn. rewrite Ht, Hq; cbn. rewrite Hqt. reflexivity.
    + intros response request message Hr Ht Hq Hqt Hm.
      rewrite Hr; cbn. rewrite Ht, Hq; cbn. rewrite Hqt, Hm. reflexivity.
    + intros s. reflexivity.
Qed.

(** C7: with a progress callback, an invocation whose request is rejected
    registers its interval (every 15000 ms) and never clears it: the
    interval is still active after [detectWater] has thrown. *)
Theorem detectWater_rejected_keeps_interval (geometry : JsVal)
    (params : gmap string JsVal) (fresh : positive) (ticks : nat)
    (error : JsVal) :
  let run := Api.detectWater geometry params true fresh ticks
               (Api.Rejected error) in
  In (Api.ESetInterval fresh 15000) run.1
  /\ ~ In (Api.EClearInterval fresh) run.1
  /\ Api.intervals_after run.1 ∅ = {[ fresh ]}
  /\ exists e, run.2 = Throw e.
Proof.
  destruct (detectWater_rejected geometry params true fresh ticks error)
    as [es1 ->]. cbn [fst snd Api.detectWater_begin].
  split; [right; left; reflexivity|].
  split; [|split; [|apply rethrow_throws]].
  - intros Hin. cbn in Hin.
    destruct Hin as [Hin|[Hin|[Hin|Hin]]]; try discriminate.
    apply in_app_or in Hin. destruct Hin as [Hin|Hin].
    + apply in_map_iff in Hin. destruct Hin as [k [Hk _]]. discriminate.
    + destruct Hin as [Hin|[]]. discriminate.
  - unfold Api.intervals_after. cbn [foldl app].
    rewrite foldl_app.
    change (foldl Api.interval_effect ?A (List.map ?f es1))
      with (Api.intervals_after (List.map f es1) A).
    rewrite (intervals_after_progress (fun k => Api.stages_at (k mod 3))).
    cbn. set_solver.
Qed.

End DetectWaterFailure.

(** An error without response and request whose message is the empty
    string is not passed on: the fallback text replaces it.  Likewise a
    [detail] that is present but empty is replaced. *)
Lemma detectWater_message_not_verbatim :
  ~ (forall (props : list (string * JsVal)) (message : string),
       assoc "response" props = None ->
       assoc "request" props = None ->
       assoc "message" props = Some (JStr message) ->
       (Api.detectWater (H := Sample.host) Sample.square ∅ false 1 0
          (Api.Rejected (JObj props))).2
       = Throw (new_Error (H := Sample.host) (JStr message)))
  /\ ~ (forall (props : list (string * JsVal)) (detail : string),
       assoc "detail" props = Some (JStr detail) ->
       (Api.detectWater (H := Sample.host) Sample.square ∅ false 1 0
          (Api.Rejected (JObj [("response", JObj [("data", JObj props)])]))).2
       = Throw (new_Error (H := Sample.host) (JStr detail))).
Proof.
  split.
  - intros Hall.
    specialize (Hall [("message", JStr "")] "" eq_refl eq_refl eq_refl).
    vm_compute in Hall. discriminate.
  - intros Hall.
    specialize (Hall [("detail", JStr "")] "" eq_refl).
    vm_compute in Hall. discriminate.
Qed.

(** ** App.js *)

Section AppFacts.
Context `{!Host}.

Lemma get_truthy (v : JsVal) (k : string) :
  truthy v = true -> exists x, get v k = Normal x.
Proof. destruct v; cbn; try discriminate; eauto. Qed.

(** Building the current AOI never throws. *)
Lemma currentAoi_returns (s : App.AppState) :
  exists aoi, App.currentAoi s = Normal aoi.
Proof.
  unfold App.currentAoi. destruct (truthy (App.drawnAoi s)); [eauto|].
  destruct (truthy (App.selectedAoi s)) eqn:Hs; [|eauto].
  destruct (get_truthy _ "coordinates" Hs) as [c ->]. cbn. eauto.
Qed.

(** An invalid validation carries a message. *)
Lemma invalid_has_message (geometry : JsVal) (v : Validator.Validation) :
  Validator.validateAOI geometry = Normal v ->
  Validator.isValid v = false ->
  exists msg, Validator.error v = Some msg.
Proof.
  intros Hv Hi.
  destruct (truthy geometry) eqn:Hg.
  - destruct (Validator.polygon_of geometry) as [p|] eqn:Hp.
    + rewrite (validateAOI_polygon _ _ Hp) in Hv. injection Hv as <-.
      cbn zeta in *.
      destruct (_ <? _)%float; [eexists; reflexivity|].
      destruct (_ <? _)%float; [eexists; reflexivity|discriminate].
    + rewrite (validateAOI_not_polygon _ Hg Hp) in Hv. injection Hv as <-.
      eexists; reflexivity.
  - rewrite (validateAOI_absent _ Hg) in Hv. injection Hv as <-.
    eexists; reflexivity.
Qed.

(** What [handleDetectWater] does up to its [await], by cases. *)
Lemma detect_click_no_aoi (w : App.World) (aoi : JsVal) :
  App.currentAoi (App.app w) = Normal aoi -> truthy aoi = false ->
  App.handle App.DetectClick w
  = App.setError (JStr "Please draw an AOI or select a test location") w.
Proof.
  intros Hc Ht. cbn [App.handle]. unfold App.handleDetectWater_begin.
  unfold mbind, App.M_bind, App.lift. rewrite Hc, Ht. reflexivity.
Qed.

Lemma detect_click_invalid (w : App.World) (aoi : JsVal)
    (v : Validator.Validation) :
  App.currentAoi (App.app w) = Normal aoi -> truthy aoi = true ->
  Validator.validateAOI aoi = Normal v -> Validator.isValid v = false ->
  App.handle App.DetectClick w
  = App.setError (from_option JStr JNull (Validator.error v)) w.
Proof.
  intros Hc Ht Hv Hi. cbn [App.handle]. unfold App.handleDetectWater_begin.
  unfold mbind, App.M_bind, App.lift. rewrite Hc, Ht. cbn [negb].
  rewrite Hv, Hi. reflexivity.
Qed.

Lemma detect_click_valid (w : App.World) (aoi : JsVal)
    (v : Validator.Validation) :
  App.currentAoi (App.app w) = Normal aoi -> truthy aoi = true ->
  Validator.validateAOI aoi = Normal v -> Validator.isValid v = true ->
  let s := App.app w in
  let id := App.next_timer w in
  App.handle App.DetectClick w
  = ({| App.app := {| App.selectedAoi := App.selectedAoi s;
                      App.drawnAoi := App.drawnAoi s;
                      App.loading := true;
                      App.processingStage := JStr "imagery";
                      App.results := JNull;
                      App.error := JNull;
                      App.sentinelOverlay := App.sentinelOverlay s;
                      App.advancedParams := App.advancedParams s |};
        App.calls := <[ id := {| Api.progressInterval := Some id;
                                 Api.stage := 0 |} ]> (App.calls w);
        App.intervals := App.intervals w ∪ {[ id ]};
        App.awaiting := App.awaiting w ∪ {[ id ]};
        App.next_timer := Pos.succ id;
        App.requests :=
          (App.requests w
           ++ [("/detect-water",
                Api.request_body aoi (App.prepare_params (App.advancedParams s)))])%list
     |}, Normal tt).
Proof.
  intros Hc Ht Hv Hi. cbn [App.handle]. unfold App.handleDetectWater_begin.
  unfold mbind, App.M_bind, App.lift. rewrite Hc, Ht. cbn [negb].
  rewrite Hv, Hi. reflexivity.
Qed.

End AppFacts.

Section DetectWaterGuard.
Context `{!Host}.

(** C3: [handleDetectWater] always finds a current AOI value and a
    validation of it.  It posts to /detect-water, once, exactly when the AOI
    exists and its validation is valid, and then the validated area lies
    outside neither size bound; otherwise no request is sent and the error
    is set: to the prompt when there is no AOI, to the validation's message
    when the AOI is invalid. *)
Theorem handleDetectWater_guard (w : App.World) :
  exists aoi v,
    App.currentAoi (App.app w) = Normal aoi
    /\ Validator.validateAOI aoi = Normal v
    /\ let w' := App.step w App.DetectClick in
       if truthy aoi && Validator.isValid v then
         App.requests w'
         = (App.requests w
            ++ [("/detect-water",
                 Api.request_body aoi
                   (App.prepare_params (App.advancedParams (App.app w))))])%list
         /\ Validator.outside_bounds (Validator.area v) = false
       else
         App.requests w' = App.requests w
         /\ exists msg,
              App.error (App.app w') = JStr msg
              /\ (truthy aoi = false ->
                  msg = "Please draw an AOI or select a test location")
              /\ (truthy aoi = true -> Validator.error v = Some msg).
Proof.
  destruct (currentAoi_returns (App.app w)) as [aoi Hc].
  destruct (validateAOI_returns aoi) as [v Hv].
  exists aoi, v. split; [exact Hc|]. split; [exact Hv|]. cbn zeta.
  unfold App.step.
  destruct (truthy aoi) eqn:Ht; cbn [andb].
  - destruct (Validator.isValid v) eqn:Hi.
    + rewrite (detect_click_valid w aoi v Hc Ht Hv Hi). cbn.
      split; [reflexivity|]. exact (valid_not_outside aoi v Hv Hi).
    + rewrite (detect_click_invalid w aoi v Hc Ht Hv Hi). cbn.
      split; [reflexivity|].
      destruct (invalid_has_message aoi v Hv Hi) as [msg Hm].
      exists msg. rewrite Hm. cbn. split; [reflexivity|].
      split; [discriminate|reflexivity].
  - rewrite (detect_click_no_aoi w aoi Hc Ht). cbn.
    split; [reflexivity|]. eexists. split; [reflexivity|].
    split; [reflexivity|discriminate].
Qed.

(** The entries copied by the loop over the keys. *)
Lemma copy_params_lookup (advancedParams acc : gmap string JsVal)
    (keys : list string) (k : string) :
  foldl (App.copy_param advancedParams) acc keys !! k
  = if decide (k ∈ keys) then
      let value := default JUndefined (advancedParams !! k) in
      if not_null value then Some value else acc !! k
    else acc !! k.
Proof.
  revert acc. induction keys as [|x keys IH]; intros acc.
  - cbn. rewrite decide_False by apply not_elem_of_nil. reflexivity.
  - cbn [foldl]. rewrite IH. unfold App.copy_param. cbn zeta.
    destruct (decide (k ∈ keys)) as [Hin|Hin].
    + rewrite decide_True by (right; exact Hin).
      destruct (not_null (default JUndefined (advancedParams !! k))) eqn:Hk;
        [reflexivity|].
      destruct (not_null (default JUndefined (advancedParams !! x))) eqn:Hx;
        [|reflexivity].
      rewrite lookup_insert_ne; [reflexivity|]. congruence.
    + destruct (decide (x = k)) as [->|Hne].
      * rewrite decide_True by left.
        destruct (not_null (default JUndefined (advancedParams !! k)));
          [apply lookup_insert_eq|reflexivity].
      * rewrite decide_False
          by (intros Hc; apply elem_of_cons in Hc; destruct Hc; congruence).
        destruct (not_null (default JUndefined (advancedParams !! x)));
          [apply lookup_insert_ne; exact Hne|reflexivity].
Qed.

(** The prepared parameters are the entries whose value is not null. *)
Lemma prepare_params_lookup (advancedParams : gmap string JsVal)
    (k : string) (v : JsVal) :
  App.prepare_params advancedParams !! k = Some v
  <-> advancedParams !! k = Some v /\ v <> JNull.
Proof.
  unfold App.prepare_params. rewrite copy_params_lookup, lookup_empty.
  destruct (advancedParams !! k) as [x|] eqn:Hk.
  - rewrite decide_True.
    + cbn. destruct x; cbn; split; try (intros [? ?]; congruence);
        try (intros [= <-]; split; [reflexivity|discriminate]); discriminate.
    + apply list_elem_of_fmap. exists (k, x). split; [reflexivity|].
      apply elem_of_map_to_list. exact Hk.
  - rewrite decide_False.
    + split; [discriminate|intros [? _]; discriminate].
    + intros Hin. apply list_elem_of_fmap in Hin.
      destruct Hin as [[k' x] [-> Hin]]. apply elem_of_map_to_list in Hin.
      cbn in Hk. congruence.
Qed.

(** C4: the body of a request sent by [handleDetectWater] goes to
    /detect-water and holds, besides [geometry], exactly the advanced
    parameters whose value is not null, each with its value; no key of the
    body is bound to null. *)
Theorem request_body_non_null_params (w : App.World) (url : string)
    (body : gmap string JsVal) :
  App.requests (App.step w App.DetectClick)
  = (App.requests w ++ [(url, body)])%list ->
  url = "/detect-water"
  /\ (forall k v, k <> "geometry" ->
        (body !! k = Some v
         <-> App.advancedParams (App.app w) !! k = Some v /\ v <> JNull))
  /\ (forall k, body !! k <> Some JNull)
  /\ is_Some (body !! "geometry").
Proof.
  intros Hreq. unfold App.step in Hreq.
  destruct (currentAoi_returns (App.app w)) as [aoi Hc].
  destruct (validateAOI_returns aoi) as [v Hv].
  destruct (truthy aoi) eqn:Ht; [destruct (Validator.isValid v) eqn:Hi|];
    [rewrite (detect_click_valid w aoi v Hc Ht Hv Hi) in Hreq
    |rewrite (detect_click_invalid w aoi v Hc Ht Hv Hi) in Hreq
    |rewrite (detect_click_no_aoi w aoi Hc Ht) in Hreq];
    cbn in Hreq.
  - apply app_inv_head in Hreq. injection Hreq as <- <-.
    split; [reflexivity|]. unfold Api.request_body.
    split; [|split].
    + intros k x Hk. rewrite lookup_union_Some_raw, prepare_params_lookup.
      rewrite lookup_singleton_ne by congruence.
      split; [intros [?|[_ ?]]; [assumption|discriminate]|intros ?; left; assumption].
    + intros k Hk. apply lookup_union_Some_raw in Hk.
      destruct Hk as [Hk|[_ Hk]].
      * apply prepare_params_lookup in Hk. destruct Hk as [_ Hk]. congruence.
      * apply lookup_singleton_Some in Hk. destruct Hk as [_ ->]. discriminate.
    + destruct (App.prepare_params (App.advancedParams (App.app w)) !! "geometry")
        as [x|] eqn:Hp.
      * exists x. apply lookup_union_Some_raw. left. exact Hp.
      * exists aoi. apply lookup_union_Some_raw. right.
        split; [exact Hp|apply lookup_singleton_eq].
  - exfalso. rewrite <- (app_nil_r (App.requests w)) in Hreq at 1.
    apply app_inv_head in Hreq. discriminate.
  - exfalso. rewrite <- (app_nil_r (App.requests w)) in Hreq at 1.
    apply app_inv_head in Hreq. discriminate.
Qed.

End DetectWaterGuard.

(** The request of the sample page carries [geometry] and [slope_max]. *)
Lemma request_body_non_null_params_witness :
  "/detect-water" = "/detect-water"
  /\ (forall k v, k <> "geometry" ->
        (Sample.body_a !! k = Some v
         <-> App.advancedParams (App.app Sample.ready) !! k = Some v
             /\ v <> JNull))
  /\ (forall k, Sample.body_a !! k <> Some JNull)
  /\ is_Some (Sample.body_a !! "geometry").
Proof.
  apply (request_body_non_null_params (H := Sample.host) Sample.ready
           "/detect-water" Sample.body_a).
  vm_compute. reflexivity.
Defined.

(** C9 (as amended): right after an AOI is selected or drawn, the chosen
    value is stored, the other AOI is null, and results and error are
    null. *)
Theorem aoi_choice_resets `{!Host} (w : App.World) (chosen : JsVal) :
  let selected := App.app (App.step w (App.AoiSelect chosen)) in
  let drawn := App.app (App.step w (App.AoiDraw chosen)) in
  (App.selectedAoi selected = chosen /\ App.drawnAoi selected = JNull
   /\ App.results selected = JNull /\ App.error selected = JNull)
  /\ (App.drawnAoi drawn = chosen /\ App.selectedAoi drawn = JNull
      /\ App.results drawn = JNull /\ App.error drawn = JNull).
Proof. cbn. repeat split. Qed.

(** A detection still pending when another AOI is chosen delivers its
    results, or its error, beside the new AOI. *)
Lemma stale_results_beside_new_aoi :
  (let w := App.run (H := Sample.host) App.boot
              (Sample.overtaken (Api.Resolved Sample.ok_response)) in
   App.selectedAoi (App.app w) = Sample.site_b
   /\ App.results (App.app w) = Sample.no_features
   /\ App.results (App.app w) <> JNull)
  /\ (let w := App.run (H := Sample.host) App.boot
                 (Sample.overtaken (Api.Rejected Sample.server_error)) in
      App.selectedAoi (App.app w) = Sample.site_b
      /\ App.error (App.app w) = JStr "Detection failed"
      /\ App.error (App.app w) <> JNull).
Proof.
  split; vm_compute; (split; [reflexivity|]); (split; [reflexivity|]);
    discriminate.
Qed.

(** *** What the handlers leave alone *)

Section Frames.
Context `{!Host}.
Variable R : App.World -> App.World -> Prop.
Hypothesis R_refl : forall w, R w w.
Hypothesis R_trans : forall a b c, R a b -> R b c -> R a c.

Lemma keeps_ret {A} (a : A) : App.keeps R (mret a : App.M A).
Proof. intros w. apply R_refl. Qed.

Lemma keeps_lift {A} (c : Completion A) : App.keeps R (App.lift c).
Proof. intros w. apply R_refl. Qed.

Lemma keeps_bind {A B} (m : App.M A) (k : A -> App.M B) :
  App.keeps R m -> (forall a, App.keeps R (k a)) -> App.keeps R (m ≫= k).
Proof.
  intros Hm Hk w. unfold mbind, App.M_bind.
  specialize (Hm w). destruct (m w) as [w1 [a|e]]; cbn in *; [|exact Hm].
  apply (R_trans _ _ _ Hm), Hk.
Qed.

Lemma keeps_try_catch {A} (body : App.M A) (handler : JsVal -> App.M A) :
  App.keeps R body -> (forall e, App.keeps R (handler e)) ->
  App.keeps R (App.try_catch_M body handler).
Proof.
  intros Hb Hh w. unfold App.try_catch_M.
  specialize (Hb w). destruct (body w) as [w1 [a|e]]; cbn in *; [exact Hb|].
  apply (R_trans _ _ _ Hb), Hh.
Qed.

Lemma keeps_finally {A} (body : App.M A) (cleanup : App.M unit) :
  App.keeps R body -> App.keeps R cleanup ->
  App.keeps R (App.finally_M body cleanup).
Proof.
  intros Hb Hc w. unfold App.finally_M.
  specialize (Hb w). destruct (body w) as [w1 r]. cbn in Hb.
  specialize (Hc w1). destruct (cleanup w1) as [w2 [[]|e]]; cbn in *;
    exact (R_trans _ _ _ Hb Hc).
Qed.

Lemma keeps_performs (es : list Api.Effect) :
  Forall (fun e => App.keeps R (App.perform e)) es ->
  App.keeps R (App.performs es).
Proof.
  induction 1 as [|e es He Hes IH]; cbn [App.performs].
  - apply keeps_ret.
  - apply keeps_bind; [exact He|intros _; exact IH].
Qed.

End Frames.

Ltac keeps_step :=
  first [ apply keeps_bind; [assumption| |intros ?]
        | apply keeps_try_catch; [assumption| |intros ?]
        | apply keeps_finally; [assumption| |]
        | apply keeps_lift; assumption
        | apply keeps_ret; assumption
        | match goal with |- App.keeps _ (if ?b then _ else _) => destruct b end
        | match goal with
          | |- App.keeps _ (let '(_, _) := ?p in _) => destruct p
          end ].

Section FrameFacts.
Context `{!Host}.

Lemma same_aois_refl (w : App.World) : App.same_aois w w.
Proof. split; reflexivity. Qed.

Lemma same_aois_trans (a b c : App.World) :
  App.same_aois a b -> App.same_aois b c -> App.same_aois a c.
Proof. intros [? ?] [? ?]. split; congruence. Qed.

Lemma same_requests_refl (w : App.World) : App.same_requests w w.
Proof. reflexivity. Qed.

Lemma same_requests_trans (a b c : App.World) :
  App.same_requests a b -> App.same_requests b c -> App.same_requests a c.
Proof. unfold App.same_requests. congruence. Qed.

Lemma perform_same_aois (e : Api.Effect) :
  App.keeps App.same_aois (App.perform e).
Proof. intros w. destruct e; split; reflexivity. Qed.

Lemma perform_same_requests (e : Api.Effect) :
  (forall url body, e <> Api.EPost url body) ->
  App.keeps App.same_requests (App.perform e).
Proof. intros He w. destruct e; try reflexivity. now destruct (He url body). Qed.

(** The effects of a settlement hold no request. *)
Lemma settle_no_post (c : Api.Call) (o : Api.Outcome) :
  Forall (fun e => forall url body, e <> Api.EPost url body)
         (Api.detectWater_settle c o).1.
Proof.
  unfold Api.detectWater_settle.
  destruct o as [response|error]; [|repeat constructor; discriminate].
  destruct (get response "data"), (Api.progressInterval c); cbn;
    repeat constructor; discriminate.
Qed.

Lemma resume_same_aois (c : Api.Call) (o : Api.Outcome) :
  App.keeps App.same_aois (App.handleDetectWater_resume c o).
Proof.
  pose proof same_aois_refl. pose proof same_aois_trans.
  unfold App.handleDetectWater_resume.
  repeat keeps_step; try (intros w; split; reflexivity).
  apply keeps_performs; [assumption..|].
  apply Forall_forall. intros e _. apply perform_same_aois.
Qed.

Lemma resume_same_requests (c : Api.Call) (o : Api.Outcome) :
  App.keeps App.same_requests (App.handleDetectWater_resume c o).
Proof.
  pose proof same_requests_refl. pose proof same_requests_trans.
  unfold App.handleDetectWater_resume.
  pose proof (settle_no_post c o) as Hs.
  repeat keeps_step; try (intros w; reflexivity).
  apply keeps_performs; [assumption..|].
  cbn in Hs. eapply Forall_impl; [exact Hs|].
  intros e He. apply perform_same_requests. exact He.
Qed.

End FrameFacts.

Section Reachable.
Context `{!Host}.

Lemma interval_same (R : App.World -> App.World -> Prop) (id : positive) :
  (forall w, R w w) -> (forall a b c, R a b -> R b c -> R a c) ->
  (forall w calls, R w {| App.app := App.app w; App.calls := calls;
                          App.intervals := App.intervals w;
                          App.awaiting := App.awaiting w;
                          App.next_timer := App.next_timer w;
                          App.requests := App.requests w |}) ->
  (forall stage, App.keeps R (App.perform (Api.EProgress stage))) ->
  App.keeps R (App.on_interval id).
Proof.
  intros Hrefl Htrans Hcalls Hprog w. unfold App.on_interval.
  destruct (decide (id ∈ App.intervals w)); [|apply Hrefl].
  destruct (App.calls w !! id) as [c|]; [|apply Hrefl].
  unfold Api.interval_callback.
  eapply Htrans; [apply Hcalls|].
  apply keeps_performs; [assumption..|].
  repeat constructor. apply Hprog.
Qed.

Lemma step_same_aois (w : App.World) (ev : App.Event) :
  (forall v, ev <> App.AoiSelect v) -> (forall v, ev <> App.AoiDraw v) ->
  App.same_aois w (App.step w ev).
Proof.
  intros Hs Hd. unfold App.step.
  destruct ev as [v|v| |p| | |id|id o]; cbn [App.handle];
    try (split; reflexivity).
  - now destruct (Hs v).
  - now destruct (Hd v).
  - destruct (currentAoi_returns (App.app w)) as [aoi Hc].
    destruct (validateAOI_returns aoi) as [v Hv].
    destruct (truthy aoi) eqn:Ht; [destruct (Validator.isValid v) eqn:Hi|].
    + change (App.handleDetectWater_begin (App.app w) w)
        with (App.handle App.DetectClick w).
      rewrite (detect_click_valid w aoi v Hc Ht Hv Hi). split; reflexivity.
    + change (App.handleDetectWater_begin (App.app w) w)
        with (App.handle App.DetectClick w).
      rewrite (detect_click_invalid w aoi v Hc Ht Hv Hi). split; reflexivity.
    + change (App.handleDetectWater_begin (App.app w) w)
        with (App.handle App.DetectClick w).
      rewrite (detect_click_no_aoi w aoi Hc Ht). split; reflexivity.
  - apply (interval_same App.same_aois id same_aois_refl same_aois_trans).
    + intros ? ?; split; reflexivity.
    + intros ?. apply perform_same_aois.
  - unfold App.on_settle.
    destruct (decide (id ∈ App.awaiting w)); [|split; reflexivity].
    destruct (App.calls w !! id) as [c|]; [|split; reflexivity].
    exact (resume_same_aois c o _).
Qed.

Lemma step_same_requests (w : App.World) (ev : App.Event) :
  ev <> App.DetectClick -> App.same_requests w (App.step w ev).
Proof.
  intros Hev. unfold App.step.
  destruct ev as [v|v| |p| | |id|id o]; cbn [App.handle];
    try reflexivity; try congruence.
  - apply (interval_same App.same_requests id
             same_requests_refl same_requests_trans).
    + reflexivity.
    + intros ?. apply perform_same_requests. discriminate.
  - unfold App.on_settle.
    destruct (decide (id ∈ App.awaiting w)); [|reflexivity].
    destruct (App.calls w !! id) as [c|]; [|reflexivity].
    exact (resume_same_requests c o _).
Qed.

(** X3: in every state the page can reach, at most one of the two AOIs
    is set. *)
Lemma one_aoi_reachable (evs : list App.Event) :
  App.one_aoi (App.app (App.run App.boot evs)).
Proof.
  unfold App.run.
  assert (App.one_aoi (App.app App.boot)) as Hb by (left; reflexivity).
  revert Hb. generalize App.boot. induction evs as [|ev evs IH]; intros w Hw.
  - exact Hw.
  - cbn [foldl]. apply IH.
    destruct ev as [v|v| |p| | |id|id o];
      try (left; reflexivity); try (right; reflexivity);
      match goal with
      | |- App.one_aoi (App.app (App.step ?w ?ev)) =>
          destruct (step_same_aois w ev) as [Es Ed]; try discriminate;
          unfold App.one_aoi; rewrite Es, Ed; exact Hw
      end.
Qed.

End Reachable.

(** After a failed detection the page is idle, yet the interval of the
    failed invocation is still active and keeps setting the stage. *)
Example failed_detection_interval_still_fires :
  let w := App.run (H := Sample.host) App.boot
             [App.AoiSelect Sample.site_a; App.DetectClick;
              App.RequestSettles 1 (Api.Rejected Sample.server_error)] in
  App.loading (App.app w) = false
  /\ App.error (App.app w) = JStr "Detection failed"
  /\ App.processingStage (App.app w) = JNull
  /\ App.intervals w = {[ 1%positive ]}
  /\ App.processingStage (App.app (App.step (H := Sample.host) w (App.IntervalFires 1)))
     = JStr "filters".
Proof. vm_compute. repeat split. Qed.

(** A response without features is stored as the results, with no error,
    and its interval is cleared. *)
Example empty_detection_is_a_result :
  let w := App.run (H := Sample.host) App.boot
             [App.AoiSelect Sample.site_a; App.DetectClick;
              App.IntervalFires 1;
              App.RequestSettles 1 (Api.Resolved Sample.ok_response)] in
  App.results (App.app w) = Sample.no_features
  /\ App.error (App.app w) = JNull
  /\ App.loading (App.app w) = false
  /\ App.processingStage (App.app w) = JNull
  /\ App.intervals w = ∅.
Proof. vm_compute. repeat split. Qed.

(** ** components/ResultsPanel.js *)

Section ResultsPanelFacts.
Context `{!Host}.

Lemma parameters_box_classes (cls : string) (m : ResultsPanel.Metadata) :
  cls = "warning-box" \/ cls = "metadata-item" \/ cls = "download-btn" ->
  flat_map (ResultsPanel.by_class cls) (ResultsPanel.parameters_box m) = [].
Proof.
  intros Hcls. unfold ResultsPanel.parameters_box.
  destruct (ResultsPanel.parameters_used m) as [entries|]; [|reflexivity].
  destruct Hcls as [-> | [-> | ->]]; cbn; rewrite ?app_nil_r;
    (induction entries as [|[key value] entries IH]; [reflexivity|]);
    cbn; rewrite ?app_nil_r; rewrite IH; destruct value; reflexivity.
Qed.

(** The elements of one of the three classes in the whole panel. *)
Lemma by_class_render (cls : string) (results : ResultsPanel.Results) :
  cls = "warning-box" \/ cls = "metadata-item" \/ cls = "download-btn" ->
  ResultsPanel.by_class cls (ResultsPanel.render results)
  = (flat_map (ResultsPanel.by_class cls)
       (ResultsPanel.warning_box (ResultsPanel.metadata results))
     ++ ResultsPanel.by_class cls (ResultsPanel.metadata_grid results)
     ++ ResultsPanel.by_class cls (ResultsPanel.download_button results))%list.
Proof.
  intros Hcls. unfold ResultsPanel.render.
  pose proof (parameters_box_classes cls (ResultsPanel.metadata results) Hcls)
    as Hp.
  destruct Hcls as [-> | [-> | ->]];
    cbn [ResultsPanel.by_class flat_map String.eqb Ascii.eqb Bool.eqb app];
    rewrite ?flat_map_app; cbn [flat_map app];
    rewrite ?flat_map_app, Hp; cbn [flat_map app]; rewrite ?app_nil_r;
    reflexivity.
Qed.

Lemma featureCount_zero (results : ResultsPanel.Results) :
  Nat.eqb (ResultsPanel.featureCount results) 0 = true
  <-> ResultsPanel.featureCount results = 0.
Proof. apply Nat.eqb_eq. Qed.

Lemma featureCount_length (results : ResultsPanel.Results) :
  ResultsPanel.featureCount results
  = match ResultsPanel.water_polygons results with
    | Some collection =>
        match ResultsPanel.features collection with
        | Some fs => length fs
        | None => 0
        end
    | None => 0
    end.
Proof.
  unfold ResultsPanel.featureCount.
  destruct (ResultsPanel.water_polygons results) as [c|]; [|reflexivity].
  destruct (ResultsPanel.features c) as [fs|]; [|reflexivity].
  destruct fs; reflexivity.
Qed.

(** The cases of the optional parts of the panel. *)
Ltac panel_cases results :=
  unfold ResultsPanel.warning_box, ResultsPanel.metadata_grid,
    ResultsPanel.aoi_area_item;
  let w := fresh "w" in
  let a := fresh "a" in
  let Ea := fresh "Ea" in
  let Et := fresh "Et" in
  destruct (ResultsPanel.warning (ResultsPanel.metadata results)) as [w|];
    [destruct (ResultsPanel.nonempty w)|];
    (destruct (ResultsPanel.aoi_area_km2 (ResultsPanel.metadata results))
       as [a|] eqn:Ea; [destruct (truthy (JNum a)) eqn:Et|]);
    destruct (ResultsPanel.processing_time_seconds
                (ResultsPanel.metadata results)).

(** C6: the feature count is the number of features, and 0 when the
    collection or its feature list is absent.  Whatever the count, the
    panel shows, each as a labelled item and in this order, the acquisition
    date (or 'N/A'), the water area with 3 decimals and the coverage with 2
    (or 0, when the number is missing), the processing time and the count,
    then the AOI area when there is one; the panel depends on the response
    only through its metadata and the count; and its one download button
    is disabled exactly when the count is 0. *)
Theorem zero_features_rendered (results : ResultsPanel.Results) :
  let m := ResultsPanel.metadata results in
  let n := ResultsPanel.featureCount results in
  let item := fun (label : string) (value : list ResultsPanel.Node) =>
    ResultsPanel.Elem "div" "metadata-item" false
      [ResultsPanel.Elem "span" "metadata-label" false
         [ResultsPanel.Text label];
       ResultsPanel.Elem "span" "metadata-value" false value] in
  let fixed := fun (x : option float) (digits : nat) =>
    match x with
    | Some v => if String.eqb (toFixed v digits) "" then "0"
                else toFixed v digits
    | None => "0"
    end in
  (ResultsPanel.water_polygons results = None -> n = 0)
  /\ (forall c, ResultsPanel.water_polygons results = Some c ->
        n = from_option (@length _) 0 (ResultsPanel.features c))
  /\ ResultsPanel.by_class "metadata-item" (ResultsPanel.render results)
     = ([item "Acquisition Date"
           [ResultsPanel.Text
              (match ResultsPanel.acquisition_date m with
               | Some d => if String.eqb d "" then "N/A" else d
               | None => "N/A"
               end)];
         item "Water Area"
           [ResultsPanel.Text (fixed (ResultsPanel.water_area_km2 m) 3);
            ResultsPanel.Text " km²"];
         item "Water Coverage"
           [ResultsPanel.Text (fixed (ResultsPanel.water_percentage m) 2);
            ResultsPanel.Text "%"];
         item "Processing Time"
           (match ResultsPanel.processing_time_seconds m with
            | Some t => [ResultsPanel.Text (numToString t);
                         ResultsPanel.Text "s"]
            | None => [ResultsPanel.Text "s"]
            end);
         item "Polygons Detected" [ResultsPanel.Text (pretty n)]]
        ++ match ResultsPanel.aoi_area_km2 m with
           | Some a =>
               if truthy (JNum a) then
                 [item "AOI Area" [ResultsPanel.Text (toFixed a 2);
                                   ResultsPanel.Text " km²"]]
               else []
           | None => []
           end)%list
  /\ ResultsPanel.by_class "download-btn" (ResultsPanel.render results)
     = [ResultsPanel.Elem "button" "download-btn" (Nat.eqb n 0)
          [ResultsPanel.Text "📥 Download GeoJSON"]]
  /\ (forall other,
        ResultsPanel.metadata other = m ->
        ResultsPanel.featureCount other = n ->
        ResultsPanel.render other = ResultsPanel.render results).
Proof.
  cbn zeta. split; [|split; [|split; [|split]]].
  - intros Hw. rewrite featureCount_length, Hw. reflexivity.
  - intros c Hw. rewrite featureCount_length, Hw.
    destruct (ResultsPanel.features c); reflexivity.
  - rewrite by_class_render by (right; left; reflexivity).
    panel_cases results;
      unfold ResultsPanel.fixed_or_zero, ResultsPanel.nonempty;
      destruct (ResultsPanel.acquisition_date (ResultsPanel.metadata results))
        as [d|]; try destruct (String.eqb d "");
      destruct (ResultsPanel.water_area_km2 (ResultsPanel.metadata results))
        as [x|]; try destruct (String.eqb (toFixed x 3) "");
      destruct (ResultsPanel.water_percentage (ResultsPanel.metadata results))
        as [y|]; try destruct (String.eqb (toFixed y 2) "");
      cbn -[pretty]; reflexivity.
  - rewrite by_class_render by (right; right; reflexivity).
    panel_cases results; reflexivity.
  - intros other Hm Hn.
    unfold ResultsPanel.render, ResultsPanel.metadata_grid,
      ResultsPanel.download_button.
    rewrite Hm, Hn. reflexivity.
Qed.

Lemma without_warning_parameters (m : ResultsPanel.Metadata) :
  flat_map (fun child =>
              match child with
              | ResultsPanel.Elem _ c _ _ =>
                  if String.eqb c "warning-box" then []
                  else [ResultsPanel.without_class "warning-box" child]
              | ResultsPanel.Text _ => [child]
              end) (ResultsPanel.parameters_box m)
  = ResultsPanel.parameters_box m.
Proof.
  unfold ResultsPanel.parameters_box.
  destruct (ResultsPanel.parameters_used m) as [entries|]; [|reflexivity].
  cbn. do 5 f_equal.
  induction entries as [|[key value] entries IH]; [reflexivity|].
  cbn. rewrite IH. destruct value; reflexivity.
Qed.

(** C8: the panel holds a warning box exactly when the warning of the
    metadata is a non-empty string, and the box shows that string; without
    its warning box, the panel is the panel of the same response without a
    warning: the metadata, the parameters and the download button are
    rendered all the same. *)
Theorem warning_box_rendered (results : ResultsPanel.Results) :
  let boxes :=
    ResultsPanel.by_class "warning-box" (ResultsPanel.render results) in
  (boxes <> []
   <-> exists w, ResultsPanel.warning (ResultsPanel.metadata results) = Some w
                 /\ w <> "")
  /\ (forall w,
        ResultsPanel.warning (ResultsPanel.metadata results) = Some w ->
        w <> "" ->
        boxes = [ResultsPanel.Elem "div" "warning-box" false
                   [ResultsPanel.Elem "strong" "" false
                      [ResultsPanel.Text "Warning:"];
                    ResultsPanel.Text " "; ResultsPanel.Text w]])
  /\ ResultsPanel.without_class "warning-box" (ResultsPanel.render results)
     = ResultsPanel.render (ResultsPanel.with_warning None results)
  /\ ResultsPanel.by_class "metadata-item" (ResultsPanel.render results)
     = ResultsPanel.by_class "metadata-item"
         (ResultsPanel.render (ResultsPanel.with_warning None results))
  /\ ResultsPanel.by_class "download-btn" (ResultsPanel.render results)
     = ResultsPanel.by_class "download-btn"
         (ResultsPanel.render (ResultsPanel.with_warning None results)).
Proof.
  cbn zeta.
  assert (ResultsPanel.by_class "warning-box" (ResultsPanel.render results)
          = ResultsPanel.warning_box (ResultsPanel.metadata results)) as Hb.
  { rewrite by_class_render by (left; reflexivity).
    panel_cases results; reflexivity. }
  rewrite Hb. unfold ResultsPanel.warning_box, ResultsPanel.nonempty.
  split; [|split; [|split; [|split]]].
  - destruct (ResultsPanel.warning (ResultsPanel.metadata results)) as [w|].
    + destruct (String.eqb_spec w ""); cbn.
      * split; [congruence|]. intros [w' [[= <-] Hw]]. contradiction.
      * split; [|discriminate]. intros _. exists w. split; [reflexivity|assumption].
    + split; [congruence|]. intros [w [Hw _]]. discriminate.
  - intros w -> Hw. destruct (String.eqb_spec w ""); [contradiction|reflexivity].
  - transitivity
      (ResultsPanel.Elem "div" "results-panel" false
         [ResultsPanel.Elem "div" "results-header" false
            [ResultsPanel.Elem "h3" "" false
               [ResultsPanel.Text "Detection Results"];
             ResultsPanel.Elem "button" "close-btn" false
               [ResultsPanel.Text "×"]];
          ResultsPanel.Elem "div" "results-content" false
            ([ResultsPanel.metadata_grid results]
             ++ ResultsPanel.parameters_box (ResultsPanel.metadata results)
             ++ [ResultsPanel.download_button results])%list]);
      [|reflexivity].
    unfold ResultsPanel.render.
    cbn [ResultsPanel.without_class flat_map String.eqb Ascii.eqb Bool.eqb app].
    rewrite ?flat_map_app. cbn [flat_map app].
    rewrite ?flat_map_app, without_warning_parameters.
    clear Hb. panel_cases results;
      cbn -[pretty ResultsPanel.fixed_or_zero];
      repeat match goal with
             | E : _ = _ |- _ => rewrite E; clear E
             end; reflexivity.
  - rewrite !by_class_render by (right; left; reflexivity).
    unfold ResultsPanel.warning_box, ResultsPanel.nonempty.
    destruct (ResultsPanel.warning (ResultsPanel.metadata results)) as [w|];
      [destruct (String.eqb w "")|]; reflexivity.
  - rewrite !by_class_render by (right; right; reflexivity).
    unfold ResultsPanel.warning_box, ResultsPanel.nonempty.
    destruct (ResultsPanel.warning (ResultsPanel.metadata results)) as [w|];
      [destruct (String.eqb w "")|]; reflexivity.
Qed.

End ResultsPanelFacts.

(** ** The extraction pipeline *)

Section PipelineFacts.
Variable Polygon : Type.
Variable refine : list (list bool) -> nat -> list (list bool).
Variable vectorize : list (list bool) -> list Polygon.
Variable defaults : Pipeline.ResolvedParameters.
Variable duration : Q.

Lemma select_threshold_manual (values : list Q) (t : Q) :
  Pipeline.select_threshold values (Some t)
  = ([Pipeline.ThresholdSelected], (t, Pipeline.Manual, None)).
Proof. reflexivity. Qed.

(** A pixel of the candidate mask: the rule of the Mask Builder on the
    three values at that place. *)
Lemma build_mask_pixel (layers : Pipeline.RasterLayerSet)
    (p : Pipeline.ResolvedParameters) (i j : nat) :
  Pipeline.pixel (Pipeline.build_mask layers p) i j
  = (vv ← Pipeline.pixel (Pipeline.primary layers) i j;
     vh ← Pipeline.pixel (Pipeline.secondary layers) i j;
     sl ← Pipeline.pixel (Pipeline.slope layers) i j;
     Some (Pipeline.water_candidate p vv vh sl)).
Proof.
  unfold Pipeline.pixel, Pipeline.build_mask.
  rewrite !lookup_zip_with.
  destruct (Pipeline.primary layers !! i) as [r1|];
    destruct (Pipeline.secondary layers !! i) as [r2|];
    destruct (Pipeline.slope layers !! i) as [r3|];
    cbn; rewrite ?lookup_zip_with; cbn;
    try destruct (r1 !! j); try destruct (r2 !! j); try destruct (r3 !! j);
    reflexivity.
Qed.


End PipelineFacts.


(** ** Properties of the rest of the client *)

(** *** utils/validator.js *)

(** X5: the result of [validateAOI] is consistent: it is valid exactly when
    it has no error message; a valid result has its area outside neither
    bound, and an invalid one has area 0 or an area outside a bound. *)
Theorem validateAOI_error_iff_invalid `{!Host} (geometry : JsVal) :
  exists r,
    Validator.validateAOI geometry = Normal r
    /\ (Validator.isValid r = true <-> Validator.error r = None)
    /\ (Validator.isValid r = true ->
        Validator.outside_bounds (Validator.area r) = false)
    /\ (Validator.isValid r = false ->
        Validator.area r = 0%float
        \/ Validator.outside_bounds (Validator.area r) = true).
Proof.
  destruct (Validator.polygon_of geometry) as [p|] eqn:Hp.
  - pose proof (validateAOI_polygon _ _ Hp) as Hr. cbn zeta in Hr.
    unfold Validator.outside_bounds.
    destruct (Validator.MAX_AREA_KM2 <? Validator.areaKm2_of p)%float eqn:E1;
      [|destruct (Validator.areaKm2_of p <? Validator.MIN_AREA_KM2)%float
          eqn:E2];
      eexists; (split; [exact Hr|]);
      cbn [Validator.isValid Validator.error Validator.area];
      rewrite ?E1, ?E2; cbn;
      (split; [split; (discriminate || reflexivity)|]);
      (split; [intros; (discriminate || reflexivity)|]);
      intros; try discriminate; right; reflexivity.
  - destruct (truthy geometry) eqn:Hg;
      [eexists; split; [apply (validateAOI_not_polygon _ Hg Hp)|]
      |eexists; split; [apply (validateAOI_absent _ Hg)|]];
      cbn; (split; [split; discriminate|]);
      (split; [discriminate|]); intros _; left; reflexivity.
Qed.

(** X6: [formatArea] prints an area below 1 km² in m², and everything
    else in km²: every number from 1 on, and NaN.  A number is below 1 or
    from 1 on. *)
Theorem formatArea_unit `{!Host} (a : float) :
  ((a <? 1)%float = true ->
   Format.formatArea a = toFixed (a * 1000000)%float 0 ++ " m²")
  /\ ((1 <=? a)%float = true -> Format.formatArea a = toFixed a 2 ++ " km²")
  /\ (PrimFloat.is_nan a = true -> Format.formatArea a = toFixed a 2 ++ " km²")
  /\ (PrimFloat.is_nan a = false ->
      (a <? 1)%float = true \/ (1 <=? a)%float = true).
Proof.
  unfold Format.formatArea.
  destruct (PrimFloat.is_nan a) eqn:Hn.
  - assert ((a <? 1)%float = false) as ->.
    { rewrite FloatAxioms.ltb_spec. unfold SFltb.
      unfold PrimFloat.is_nan in Hn. rewrite FloatAxioms.eqb_spec in Hn.
      unfold SFeqb in Hn. rewrite SFcompare_refl in Hn.
      destruct (Prim2SF a); try discriminate. reflexivity. }
    repeat split; try discriminate; reflexivity.
  - rewrite (ltb_negb_leb a 1 Hn eq_refl).
    destruct (1 <=? a)%float; cbn; repeat split; try discriminate; auto.
Qed.

(** *** services/api.js *)

Section DetectWaterShape.
Context `{!Host}.

(** The settlement looks at [progressInterval] only. *)
Lemma detectWater_settle_interval (c c' : Api.Call) (o : Api.Outcome) :
  Api.progressInterval c = Api.progressInterval c' ->
  Api.detectWater_settle c o = Api.detectWater_settle c' o.
Proof. intros Hc. unfold Api.detectWater_settle. rewrite Hc. reflexivity. Qed.

(** The effects of an invocation: those of its first segment, one report
    per firing of the interval, those of the settlement. *)
Lemma detectWater_unfold (geometry : JsVal) (params : gmap string JsVal)
    (onProgress : bool) (fresh : positive) (ticks : nat) (o : Api.Outcome) :
  let c0 := {| Api.progressInterval := if onProgress then Some fresh else None;
               Api.stage := 0 |} in
  Api.detectWater geometry params onProgress fresh ticks o
  = (((Api.detectWater_begin geometry params onProgress fresh).2
      ++ (if onProgress then
            List.map (fun k => Api.EProgress (Api.stages_at (k mod 3)))
                     (seq 1 ticks)
          else [])
      ++ (Api.detectWater_settle c0 o).1)%list,
     (Api.detectWater_settle c0 o).2).
Proof.
  cbn zeta. unfold Api.detectWater.
  destruct onProgress; cbn [Api.detectWater_begin Api.progressInterval].
  - pose proof (fire_effects ticks {| Api.progressInterval := Some fresh;
                                      Api.stage := 0 |}) as Hf.
    pose proof (fire_progressInterval ticks
                  {| Api.progressInterval := Some fresh; Api.stage := 0 |})
      as Hp.
    destruct (Api.fire ticks _) as [c1 es1]. cbn [fst snd Api.stage] in Hf, Hp.
    subst es1.
    rewrite (detectWater_settle_interval c1
               {| Api.progressInterval := Some fresh; Api.stage := 0 |} o Hp).
    destruct (Api.detectWater_settle _ o) as [es2 r]. reflexivity.
  - destruct (Api.detectWater_settle _ o) as [es2 r]. reflexivity.
Qed.

Lemma posts_progress (f : nat -> JsVal) (l : list nat) :
  Api.posts (List.map (fun k => Api.EProgress (f k)) l) = [].
Proof. induction l as [|k l IH]; [reflexivity|exact IH]. Qed.

Lemma reports_progress (f : nat -> JsVal) (l : list nat) :
  Api.reports (List.map (fun k => Api.EProgress (f k)) l) = List.map f l.
Proof.
  induction l as [|k l IH]; [reflexivity|].
  cbn [List.map]. unfold Api.reports in *. cbn [omap list_omap].
  rewrite IH. reflexivity.
Qed.

(** The settlement sends nothing, reports nothing and sets no interval. *)
Lemma settle_effects (c : Api.Call) (o : Api.Outcome) :
  Api.posts (Api.detectWater_settle c o).1 = []
  /\ Api.reports (Api.detectWater_settle c o).1 = []
  /\ forall id ms, ~ In (Api.ESetInterval id ms) (Api.detectWater_settle c o).1.
Proof.
  unfold Api.detectWater_settle.
  destruct o as [response|error];
    [destruct (get response "data"), (Api.progressInterval c)|];
    cbn; repeat split; intros id ms Hin;
    repeat (destruct Hin as [Hin|Hin]; [discriminate|]); exact Hin.
Qed.

(** The value thrown by the [catch] block is an object with a string as its
    message. *)
Lemma rethrow_message (error : JsVal) :
  exists e m, Api.rethrow error = Throw e /\ get e "message" = Normal (JStr m).
Proof.
  unfold Api.rethrow.
  destruct (get error "response") as [response|e] eqn:Hr; cbn.
  - destruct (truthy response).
    + destruct (get response "data") as [data|e] eqn:Hd; cbn.
      * destruct (get data "detail") as [detail|e] eqn:He; cbn.
        -- do 2 eexists. split; reflexivity.
        -- destruct data; cbn in He; try discriminate;
             injection He as <-; do 2 eexists; split; reflexivity.
      * destruct response; cbn in Hd; try discriminate;
          injection Hd as <-; do 2 eexists; split; reflexivity.
    + destruct (get error "request") as [request|e] eqn:Hq; cbn.
      * destruct (truthy request); [do 2 eexists; split; reflexivity|].
        destruct (get error "message") as [message|e] eqn:Hm; cbn.
        -- do 2 eexists. split; reflexivity.
        -- destruct error; cbn in Hm; discriminate.
      * destruct error; cbn in Hq; discriminate.
  - destruct error; cbn in Hr; try discriminate;
      injection Hr as <-; do 2 eexists; split; reflexivity.
Qed.

(** X7: an invocation of [detectWater] sends exactly one request, to
    /detect-water, however often its interval fires and however the request
    settles; without a progress callback it reports nothing and sets no
    interval. *)
Theorem detectWater_single_request (geometry : JsVal)
    (params : gmap string JsVal) (onProgress : bool) (fresh : positive)
    (ticks : nat) (o : Api.Outcome) :
  let run := Api.detectWater geometry params onProgress fresh ticks o in
  Api.posts run.1 = [("/detect-water", Api.request_body geometry params)]
  /\ (if onProgress then In (Api.ESetInterval fresh 15000) run.1
      else Api.reports run.1 = []
           /\ forall id ms, ~ In (Api.ESetInterval id ms) run.1).
Proof.
  cbn zeta. rewrite detectWater_unfold. cbn [fst].
  destruct (settle_effects
              {| Api.progressInterval := if onProgress then Some fresh else None;
                 Api.stage := 0 |} o) as [Hp [Hr Hs]].
  unfold Api.posts, Api.reports in *. split.
  - rewrite !omap_app, Hp.
    destruct onProgress; cbn [Api.detectWater_begin snd];
      [rewrite (posts_progress (fun k => Api.stages_at (k mod 3)))|];
      reflexivity.
  - destruct onProgress; cbn [Api.detectWater_begin snd].
    + right; left; reflexivity.
    + split; [rewrite !omap_app, Hr; reflexivity|].
      intros id ms Hin. cbn in Hin.
      destruct Hin as [Hin|Hin]; [discriminate|]. exact (Hs id ms Hin).
Qed.

(** X8: whatever [detectWater] throws is an object whose message is a
    string, for every rejection value and also when a resolved promise
    carries no response object. *)
Theorem detectWater_throws_message (geometry : JsVal)
    (params : gmap string JsVal) (onProgress : bool) (fresh : positive)
    (ticks : nat) (o : Api.Outcome) :
  match (Api.detectWater geometry params onProgress fresh ticks o).2 with
  | Normal data =>
      exists response, o = Api.Resolved response
                       /\ get response "data" = Normal data
  | Throw e => exists m, get e "message" = Normal (JStr m)
  end.
Proof.
  rewrite detectWater_unfold. cbn [snd]. unfold Api.detectWater_settle.
  destruct o as [response|error].
  - destruct (get response "data") as [data|e] eqn:Hd; cbn [snd].
    + exists response. split; [reflexivity|exact Hd].
    + destruct (rethrow_message e) as [e' [m [-> Hm]]]. exists m. exact Hm.
  - cbn [snd]. destruct (rethrow_message error) as [e' [m [-> Hm]]].
    exists m. exact Hm.
Qed.

(** X9: the progress values shown for the reports of an invocation are 33,
    66, 100, 33, ...: every reported stage is one that [getStageInfo]
    knows, and after 100 the bar starts again at 33. *)
Theorem progress_values_cycle (geometry : JsVal) (params : gmap string JsVal)
    (fresh : positive) (ticks : nat) (o : Api.Outcome) :
  List.map (fun stage => ProgressIndicator.progress
                           (ProgressIndicator.getStageInfo stage))
    (Api.reports (Api.detectWater geometry params true fresh ticks o).1)
  = List.map (fun k => match k mod 3 with
                       | 0 => 33%Z
                       | 1 => 66%Z
                       | _ => 100%Z
                       end) (seq 0 (S ticks)).
Proof.
  rewrite detectWater_unfold. cbn [fst Api.detectWater_begin snd].
  destruct (settle_effects {| Api.progressInterval := Some fresh;
                              Api.stage := 0 |} o) as [_ [Hr _]].
  unfold Api.reports in *. cbn [app omap list_omap].
  rewrite omap_app, Hr, app_nil_r.
  change (omap _ (List.map ?f (seq 1 ticks)))
    with (Api.reports (List.map f (seq 1 ticks))).
  rewrite (reports_progress (fun k => Api.stages_at (k mod 3))).
  cbn [seq List.map]. f_equal. rewrite List.map_map.
  apply List.map_ext. intros k.
  pose proof (Nat.mod_upper_bound k 3 ltac:(lia)) as Hk.
  destruct (k mod 3) as [|[|[|n]]]; try reflexivity. lia.
Qed.

End DetectWaterShape.

(** *** App.js: how a request ends *)

(** Runs the handlers' monad on a page. *)
Ltac run_handler :=
  repeat (progress (unfold App.finally_M, App.try_catch_M, mbind, mret,
                      App.M_bind, App.M_ret, App.lift;
                    cbn -[get or_else truthy])).

Section Settlement.
Context `{!Host}.

(** A settlement for an invocation that is not pending changes nothing. *)
Lemma settle_ignored (w : App.World) (id : positive) (o : Api.Outcome) :
  id ∉ App.awaiting w \/ App.calls w !! id = None ->
  App.step w (App.RequestSettles id o) = w.
Proof.
  intros Hn. unfold App.step. cbn [App.handle]. unfold App.on_settle.
  destruct (decide (id ∈ App.awaiting w)) as [Hin|Hin]; [|reflexivity].
  destruct (App.calls w !! id) as [c|]; [|reflexivity].
  destruct Hn as [Hn|Hn]; [contradiction|discriminate].
Qed.

(** The page after the rest of [handleDetectWater] for a rejected request. *)
Lemma resume_rejected (c : Api.Call) (error e : JsVal) (m : string)
    (w : App.World) :
  Api.rethrow error = Throw e -> get e "message" = Normal (JStr m) ->
  let s := App.app w in
  App.handleDetectWater_resume c (Api.Rejected error) w
  = ({| App.app := {| App.selectedAoi := App.selectedAoi s;
                      App.drawnAoi := App.drawnAoi s;
                      App.loading := false;
                      App.processingStage := JNull;
                      App.results := App.results s;
                      App.error :=
                        or_else (JStr m)
                          (JStr "An error occurred during detection");
                      App.sentinelOverlay := App.sentinelOverlay s;
                      App.advancedParams := App.advancedParams s |};
        App.calls := App.calls w; App.intervals := App.intervals w;
        App.awaiting := App.awaiting w; App.next_timer := App.next_timer w;
        App.requests := App.requests w |}, Normal tt).
Proof.
  intros He Hm. unfold App.handleDetectWater_resume, Api.detectWater_settle.
  rewrite He. run_handler. rewrite Hm. reflexivity.
Qed.

(** The page after the rest of [handleDetectWater] for a request resolved
    with an object as the body of its response. *)
Lemma resume_resolved (c : Api.Call) (response : JsVal)
    (props : list (string * JsVal)) (w : App.World) :
  get response "data" = Normal (JObj props) ->
  let s := App.app w in
  let tile_url := default JUndefined (assoc "tile_url" props) in
  let image_bounds := default JUndefined (assoc "image_bounds" props) in
  App.handleDetectWater_resume c (Api.Resolved response) w
  = ({| App.app := {| App.selectedAoi := App.selectedAoi s;
                      App.drawnAoi := App.drawnAoi s;
                      App.loading := false;
                      App.processingStage := JNull;
                      App.results := JObj props;
                      App.error := App.error s;
                      App.sentinelOverlay :=
                        if truthy tile_url then
                          JObj [("url", tile_url); ("bounds", image_bounds)]
                        else App.sentinelOverlay s;
                      App.advancedParams := App.advancedParams s |};
        App.calls := App.calls w;
        App.intervals :=
          match Api.progressInterval c with
          | Some id => App.intervals w ∖ {[ id ]}
          | None => App.intervals w
          end;
        App.awaiting := App.awaiting w; App.next_timer := App.next_timer w;
        App.requests := App.requests w |}, Normal tt).
Proof.
  intros Hd. unfold App.handleDetectWater_resume, Api.detectWater_settle.
  rewrite Hd.
  destruct (Api.progressInterval c); run_handler; cbn [get]; run_handler;
    destruct (truthy (default JUndefined (assoc "tile_url" props)));
    run_handler; cbn [get]; run_handler; reflexivity.
Qed.

(** The page after the rest of [handleDetectWater] for a request resolved
    with null or undefined as the body of its response: reading [tile_url]
    throws, and the [catch] block reports it. *)
Lemma resume_resolved_null (c : Api.Call) (response data : JsVal)
    (w : App.World) :
  get response "data" = Normal data -> data = JNull \/ data = JUndefined ->
  let s := App.app w in
  App.handleDetectWater_resume c (Api.Resolved response) w
  = ({| App.app := {| App.selectedAoi := App.selectedAoi s;
                      App.drawnAoi := App.drawnAoi s;
                      App.loading := false;
                      App.processingStage := JNull;
                      App.results := data;
                      App.error :=
                        JStr "Cannot read properties of undefined or null";
                      App.sentinelOverlay := App.sentinelOverlay s;
                      App.advancedParams := App.advancedParams s |};
        App.calls := App.calls w;
        App.intervals :=
          match Api.progressInterval c with
          | Some id => App.intervals w ∖ {[ id ]}
          | None => App.intervals w
          end;
        App.awaiting := App.awaiting w; App.next_timer := App.next_timer w;
        App.requests := App.requests w |}, Normal tt).
Proof.
  intros Hd Hnull. unfold App.handleDetectWater_resume, Api.detectWater_settle.
  rewrite Hd.
  destruct Hnull as [-> | ->]; destruct (Api.progressInterval c);
    run_handler; cbn [get]; run_handler; reflexivity.
Qed.

(** The [finally] block: whatever happened, the page is no longer loading. *)
Lemma resume_loading_false (c : Api.Call) (o : Api.Outcome) (w : App.World) :
  App.loading (App.app (App.handleDetectWater_resume c o w).1) = false.
Proof.
  unfold App.handleDetectWater_resume, App.finally_M.
  destruct (App.try_catch_M _ _ w) as [w1 r]. reflexivity.
Qed.

Lemma resume_same_awaiting (c : Api.Call) (o : Api.Outcome) :
  App.keeps (fun w w' => App.awaiting w' = App.awaiting w)
    (App.handleDetectWater_resume c o).
Proof.
  assert (forall w : App.World, App.awaiting w = App.awaiting w) as Hrefl
    by reflexivity.
  assert (forall a b c0 : App.World,
            App.awaiting b = App.awaiting a -> App.awaiting c0 = App.awaiting b ->
            App.awaiting c0 = App.awaiting a) as Htrans by (intros; congruence).
  unfold App.handleDetectWater_resume.
  repeat keeps_step; try (intros w; reflexivity).
  apply keeps_performs; [assumption..|].
  apply Forall_forall. intros e _ w. destruct e; reflexivity.
Qed.

(** The page right after a settlement that is not ignored. *)
Lemma settle_step (w : App.World) (id : positive) (c : Api.Call)
    (o : Api.Outcome) :
  id ∈ App.awaiting w -> App.calls w !! id = Some c ->
  App.step w (App.RequestSettles id o)
  = (App.handleDetectWater_resume c o
       {| App.app := App.app w; App.calls := App.calls w;
          App.intervals := App.intervals w;
          App.awaiting := App.awaiting w ∖ {[ id ]};
          App.next_timer := App.next_timer w;
          App.requests := App.requests w |}).1.
Proof.
  intros Hin Hc. unfold App.step. cbn [App.handle]. unfold App.on_settle.
  rewrite decide_True by exact Hin. rewrite Hc. reflexivity.
Qed.

(** X10: a rejected request that is pending ends with the page idle (not
    loading, no stage), the results as they were, no new request, and a
    non-empty error message on the page: the [detail] of the server's
    answer when that is a non-empty string.  A settlement for an
    invocation that is not pending changes nothing. *)
Theorem failed_detection_ends_with_error (w : App.World) (id : positive)
    (error : JsVal) :
  let w' := App.step w (App.RequestSettles id (Api.Rejected error)) in
  ((id ∉ App.awaiting w \/ App.calls w !! id = None) /\ w' = w)
  \/ (id ∈ App.awaiting w
      /\ App.awaiting w' = App.awaiting w ∖ {[ id ]}
      /\ App.loading (App.app w') = false
      /\ App.processingStage (App.app w') = JNull
      /\ App.results (App.app w') = App.results (App.app w)
      /\ App.requests w' = App.requests w
      /\ exists msg,
           msg <> "" /\ App.error (App.app w') = JStr msg
           /\ forall response data detail,
                get error "response" = Normal response ->
                truthy response = true ->
                get response "data" = Normal data ->
                get data "detail" = Normal (JStr detail) ->
                detail <> "" -> msg = detail).
Proof.
  cbn zeta.
  destruct (decide (id ∈ App.awaiting w)) as [Hin|Hin];
    [|left; split; [left; exact Hin|apply settle_ignored; left; exact Hin]].
  destruct (App.calls w !! id) as [c|] eqn:Hc;
    [|left; split; [right; reflexivity|apply settle_ignored; right; exact Hc]].
  right. rewrite (settle_step w id c _ Hin Hc).
  destruct (rethrow_message error) as [e [m [He Hm]]].
  rewrite (resume_rejected c error e m _ He Hm). cbn.
  repeat (split; [reflexivity || exact Hin|]).
  exists (if String.eqb m "" then "An error occurred during detection" else m).
  split; [|split].
  - destruct (String.eqb_spec m ""); [discriminate|assumption].
  - unfold or_else. cbn. destruct (String.eqb m ""); reflexivity.
  - intros response data detail Hr Ht Hd Hdet Hne.
    unfold Api.rethrow in He. rewrite Hr in He. cbn in He.
    rewrite Ht, Hd in He. cbn in He. rewrite Hdet in He. cbn in He.
    unfold or_else in He. cbn in He.
    destruct (String.eqb_spec detail ""); [contradiction|].
    cbn in He. injection He as <-. cbn in Hm. injection Hm as <-.
    destruct (String.eqb_spec detail ""); [contradiction|reflexivity].
Qed.

(** X11: a resolved request that is pending ends with the page no longer
    loading and no new request.  When the body of the response is an
    object it becomes the results, the error stays as it was, the stage is
    null, the interval of the invocation is cleared, and the overlay is
    set from [tile_url] and [image_bounds] exactly when [tile_url] is
    truthy.  When the body is null or undefined, the page shows an error
    instead. *)
Theorem successful_detection_stores_results (w : App.World) (id : positive)
    (response : JsVal) :
  let w' := App.step w (App.RequestSettles id (Api.Resolved response)) in
  ((id ∉ App.awaiting w \/ App.calls w !! id = None) /\ w' = w)
  \/ (exists c,
        id ∈ App.awaiting w /\ App.calls w !! id = Some c
        /\ App.awaiting w' = App.awaiting w ∖ {[ id ]}
        /\ App.loading (App.app w') = false
        /\ App.requests w' = App.requests w
        /\ (forall props,
              get response "data" = Normal (JObj props) ->
              let tile_url := default JUndefined (assoc "tile_url" props) in
              App.results (App.app w') = JObj props
              /\ App.error (App.app w') = App.error (App.app w)
              /\ App.processingStage (App.app w') = JNull
              /\ App.sentinelOverlay (App.app w')
                 = (if truthy tile_url then
                      JObj [("url", tile_url);
                            ("bounds",
                             default JUndefined (assoc "image_bounds" props))]
                    else App.sentinelOverlay (App.app w))
              /\ forall timer, Api.progressInterval c = Some timer ->
                   App.intervals w' = App.intervals w ∖ {[ timer ]})
        /\ (forall data,
              get response "data" = Normal data ->
              data = JNull \/ data = JUndefined ->
              App.results (App.app w') = data
              /\ exists msg, msg <> "" /\ App.error (App.app w') = JStr msg)).
Proof.
  cbn zeta.
  destruct (decide (id ∈ App.awaiting w)) as [Hin|Hin];
    [|left; split; [left; exact Hin|apply settle_ignored; left; exact Hin]].
  destruct (App.calls w !! id) as [c|] eqn:Hc;
    [|left; split; [right; reflexivity|apply settle_ignored; right; exact Hc]].
  right. exists c. rewrite (settle_step w id c _ Hin Hc).
  split; [exact Hin|]. split; [reflexivity|].
  split; [exact (resume_same_awaiting c _ _)|].
  split; [apply resume_loading_false|].
  split; [exact (resume_same_requests c _ _)|].
  split.
  - intros props Hd. rewrite (resume_resolved c response props _ Hd). cbn.
    repeat (split; [reflexivity|]). intros timer ->. reflexivity.
  - intros data Hd Hnull.
    rewrite (resume_resolved_null c response data _ Hd Hnull). cbn.
    split; [reflexivity|]. eexists. split; [|reflexivity]. discriminate.
Qed.

End Settlement.

(** *** App.js over whole sessions *)

Section Sessions.
Context `{!Host}.

Lemma run_preserves (P : App.World -> Prop) (evs : list App.Event) :
  (forall w ev, In ev evs -> P w -> P (App.step w ev)) ->
  forall w, P w -> P (App.run w evs).
Proof.
  unfold App.run. induction evs as [|ev evs IH]; intros Hstep w Hw;
    [exact Hw|].
  cbn [foldl]. apply IH.
  - intros w' ev' Hin. apply Hstep. right. exact Hin.
  - apply Hstep; [left; reflexivity|exact Hw].
Qed.

(** A click on Detect sets the error and nothing else, or starts a
    request. *)
Lemma detect_click_cases (w : App.World) :
  (exists msg, App.step w App.DetectClick = (App.setError msg w).1)
  \/ (exists aoi v,
        App.currentAoi (App.app w) = Normal aoi /\ truthy aoi = true
        /\ Validator.validateAOI aoi = Normal v /\ Validator.isValid v = true
        /\ let s := App.app w in
           let id := App.next_timer w in
           App.step w App.DetectClick
           = {| App.app := {| App.selectedAoi := App.selectedAoi s;
                              App.drawnAoi := App.drawnAoi s;
                              App.loading := true;
                              App.processingStage := JStr "imagery";
                              App.results := JNull;
                              App.error := JNull;
                              App.sentinelOverlay := App.sentinelOverlay s;
                              App.advancedParams := App.advancedParams s |};
                App.calls := <[ id := {| Api.progressInterval := Some id;
                                         Api.stage := 0 |} ]> (App.calls w);
                App.intervals := App.intervals w ∪ {[ id ]};
                App.awaiting := App.awaiting w ∪ {[ id ]};
                App.next_timer := Pos.succ id;
                App.requests :=
                  (App.requests w
                   ++ [("/detect-water",
                        Api.request_body aoi
                          (App.prepare_params (App.advancedParams s)))])%list
             |}).
Proof.
  unfold App.step.
  destruct (currentAoi_returns (App.app w)) as [aoi Hc].
  destruct (validateAOI_returns aoi) as [v Hv].
  destruct (truthy aoi) eqn:Ht; [destruct (Validator.isValid v) eqn:Hi|].
  - right. exists aoi, v. repeat (split; [assumption|]). cbn zeta.
    rewrite (detect_click_valid w aoi v Hc Ht Hv Hi). reflexivity.
  - left. eexists. rewrite (detect_click_invalid w aoi v Hc Ht Hv Hi).
    reflexivity.
  - left. eexists. rewrite (detect_click_no_aoi w aoi Hc Ht). reflexivity.
Qed.

(** The firing of an interval: the callback of its invocation, when the
    interval is active. *)
Lemma interval_fires_step (w : App.World) (id : positive) :
  App.step w (App.IntervalFires id)
  = if decide (id ∈ App.intervals w) then
      match App.calls w !! id with
      | Some c =>
          let s := App.app w in
          let stage' := (Api.stage c + 1) mod 3 in
          {| App.app := {| App.selectedAoi := App.selectedAoi s;
                           App.drawnAoi := App.drawnAoi s;
                           App.loading := App.loading s;
                           App.processingStage := Api.stages_at stage';
                           App.results := App.results s;
                           App.error := App.error s;
                           App.sentinelOverlay := App.sentinelOverlay s;
                           App.advancedParams := App.advancedParams s |};
             App.calls :=
               <[ id := {| Api.progressInterval := Api.progressInterval c;
                           Api.stage := stage' |} ]> (App.calls w);
             App.intervals := App.intervals w;
             App.awaiting := App.awaiting w;
             App.next_timer := App.next_timer w;
             App.requests := App.requests w |}
      | None => w
      end
    else w.
Proof.
  unfold App.step. cbn [App.handle]. unfold App.on_interval.
  destruct (decide (id ∈ App.intervals w)); [|reflexivity].
  destruct (App.calls w !! id) as [c|]; reflexivity.
Qed.

Lemma stages_at_known (k : nat) : Page.known_stage (Api.stages_at (k mod 3)).
Proof.
  pose proof (Nat.mod_upper_bound k 3 ltac:(lia)) as Hk.
  unfold Page.known_stage.
  destruct (k mod 3) as [|[|[|n]]]; cbn; auto. lia.
Qed.

(** Performing effects never throws; it changes the intervals as the
    browser's table says, and neither the pending invocations nor their
    locals. *)
Lemma performs_returns (es : list Api.Effect) (w : App.World) :
  exists w1,
    App.performs es w = (w1, Normal tt)
    /\ App.intervals w1 = Api.intervals_after es (App.intervals w)
    /\ App.awaiting w1 = App.awaiting w
    /\ App.calls w1 = App.calls w
    /\ App.requests w1 = (App.requests w ++ Api.posts es)%list
    /\ (Api.reports es = [] -> App.app w1 = App.app w).
Proof.
  revert w. induction es as [|e es IH]; intros w.
  - exists w. repeat split; try reflexivity. cbn. rewrite app_nil_r.
    reflexivity.
  - cbn [App.performs]. unfold mbind, App.M_bind.
    destruct e; cbn [App.perform];
      unfold App.setProcessingStage, App.update, mret, App.M_ret;
      match goal with
      | |- context [App.performs es ?w0] =>
          destruct (IH w0) as [w1 [-> [Hi [Ha [Hc [Hq Hs]]]]]]
      end;
      exists w1; cbn in *; (split; [reflexivity|]);
      (split; [exact Hi|]); (split; [exact Ha|]); (split; [exact Hc|]);
      (split; [rewrite Hq, <- ?app_assoc; reflexivity|]);
      unfold Api.reports in *; cbn; try exact Hs; discriminate.
Qed.

(** The rest of [handleDetectWater] after the effects of the settlement. *)
Lemma resume_after_effects (c : Api.Call) (o : Api.Outcome) (w : App.World) :
  exists w1,
    App.performs (Api.detectWater_settle c o).1 w = (w1, Normal tt)
    /\ App.handleDetectWater_resume c o w
       = Page.handleDetectWater_rest (Api.detectWater_settle c o).2 w1.
Proof.
  destruct (performs_returns (Api.detectWater_settle c o).1 w)
    as [w1 [Hp _]].
  exists w1. split; [exact Hp|].
  unfold App.handleDetectWater_resume, Page.handleDetectWater_rest.
  destruct (Api.detectWater_settle c o) as [es r]. cbn [fst snd] in *.
  unfold App.finally_M, App.try_catch_M.
  unfold mbind at 1. unfold App.M_bind at 1. rewrite Hp. reflexivity.
Qed.

(** What keeps a relation that every setter of the display keeps. *)
Lemma rest_keeps (R : App.World -> App.World -> Prop)
    (r : Completion JsVal) :
  (forall w, R w w) -> (forall a b c, R a b -> R b c -> R a c) ->
  (forall v, App.keeps R (App.setResults v)) ->
  (forall v, App.keeps R (App.setError v)) ->
  (forall url bounds,
     truthy url = true ->
     App.keeps R (App.setSentinelOverlay
                    (JObj [("url", url); ("bounds", bounds)]))) ->
  App.keeps R (App.setProcessingStage JNull) ->
  App.keeps R (App.setLoading false) ->
  App.keeps R (Page.handleDetectWater_rest r).
Proof.
  intros Hrefl Htrans Hres Herr Hov Hst Hld.
  unfold Page.handleDetectWater_rest.
  apply keeps_finally; [assumption..| |exact Hld].
  apply keeps_try_catch; [assumption..| |].
  - apply keeps_bind; [assumption..|apply keeps_lift; assumption|intros data].
    apply keeps_bind; [assumption..|apply Hres|intros _].
    apply keeps_bind; [assumption..|apply keeps_lift; assumption|].
    intros tile_url.
    apply keeps_bind; [assumption..| |intros _; exact Hst].
    destruct (truthy tile_url) eqn:Ht; [|apply keeps_ret; assumption].
    apply keeps_bind; [assumption..|apply keeps_lift; assumption|].
    intros bounds. apply Hov. exact Ht.
  - intros err.
    apply keeps_bind; [assumption..|apply keeps_lift; assumption|].
    intros message.
    apply keeps_bind; [assumption..|apply Herr|intros _; exact Hst].
Qed.

Lemma rest_same_but_display (r : Completion JsVal) :
  App.keeps Page.same_but_display (Page.handleDetectWater_rest r).
Proof.
  apply rest_keeps;
    [intros w; repeat split; reflexivity
    |
    |intros v w; repeat split; reflexivity
    |intros v w; repeat split; reflexivity
    |intros url bounds _ w; repeat split; reflexivity
    |intros w; repeat split; reflexivity
    |intros w; repeat split; reflexivity].
  intros a b c Hab Hbc. unfold Page.same_but_display in *.
  destruct Hab as (?&?&?&?&?&?&?&?), Hbc as (?&?&?&?&?&?&?&?).
  repeat split; congruence.
Qed.

Lemma rest_stage (r : Completion JsVal) :
  App.keeps Page.stage_kept_or_null (Page.handleDetectWater_rest r).
Proof.
  apply rest_keeps;
    [intros w; right; reflexivity
    |
    |intros v w; right; reflexivity
    |intros v w; right; reflexivity
    |intros url bounds _ w; right; reflexivity
    |intros w; left; reflexivity
    |intros w; right; reflexivity].
  intros a b c Hab [Hc|Hc]; [left; exact Hc|].
  unfold Page.stage_kept_or_null in *. rewrite Hc. exact Hab.
Qed.

Lemma rest_overlay (r : Completion JsVal) :
  App.keeps Page.overlay_kept_or_ok (Page.handleDetectWater_rest r).
Proof.
  apply rest_keeps;
    [intros w; left; reflexivity
    |
    |intros v w; left; reflexivity
    |intros v w; left; reflexivity
    |
    |intros w; left; reflexivity
    |intros w; left; reflexivity].
  - intros a b c Hab [Hc|Hc]; [|right; exact Hc].
    unfold Page.overlay_kept_or_ok in *. rewrite Hc. exact Hab.
  - intros url bounds Ht w. right. right. exists url, bounds.
    split; [reflexivity|exact Ht].
Qed.

Lemma rest_loading_false (r : Completion JsVal) (w : App.World) :
  App.loading (App.app (Page.handleDetectWater_rest r w).1) = false.
Proof.
  unfold Page.handleDetectWater_rest, App.finally_M.
  destruct (App.try_catch_M _ _ w) as [w1 r1]. reflexivity.
Qed.

(** The page after a settlement that is not ignored: the effects of the
    settlement change the intervals only, the rest changes the display
    only. *)
Lemma settle_shape (w : App.World) (id : positive) (c : Api.Call)
    (o : Api.Outcome) :
  id ∈ App.awaiting w -> App.calls w !! id = Some c ->
  let w' := App.step w (App.RequestSettles id o) in
  App.selectedAoi (App.app w') = App.selectedAoi (App.app w)
  /\ App.drawnAoi (App.app w') = App.drawnAoi (App.app w)
  /\ App.advancedParams (App.app w') = App.advancedParams (App.app w)
  /\ App.calls w' = App.calls w
  /\ App.intervals w'
     = Api.intervals_after (Api.detectWater_settle c o).1 (App.intervals w)
  /\ App.awaiting w' = App.awaiting w ∖ {[ id ]}
  /\ App.requests w' = App.requests w
  /\ App.loading (App.app w') = false
  /\ (App.processingStage (App.app w') = JNull
      \/ App.processingStage (App.app w') = App.processingStage (App.app w))
  /\ (App.sentinelOverlay (App.app w') = App.sentinelOverlay (App.app w)
      \/ Page.overlay_ok (App.sentinelOverlay (App.app w'))).
Proof.
  intros Hin Hc. cbn zeta. rewrite (settle_step w id c o Hin Hc).
  match goal with
  | |- context [App.handleDetectWater_resume c o ?w0] =>
      destruct (resume_after_effects c o w0) as [w1 [Hp ->]];
      destruct (performs_returns (Api.detectWater_settle c o).1 w0)
        as [w1' [Hp' [Hi [Ha [Hcalls [Hq Happ]]]]]]
  end.
  rewrite Hp in Hp'. injection Hp' as <-.
  destruct (settle_effects c o) as [Hposts [Hr _]]. specialize (Happ Hr).
  rewrite Hposts, app_nil_r in Hq.
  cbn in Hi, Ha, Hcalls, Happ, Hq.
  destruct (rest_same_but_display (Api.detectWater_settle c o).2 w1)
    as (Es & Ed & Ep & Ec & Ei & Ea & _ & Eq).
  pose proof (rest_stage (Api.detectWater_settle c o).2 w1) as Hs.
  pose proof (rest_overlay (Api.detectWater_settle c o).2 w1) as Ho.
  unfold Page.stage_kept_or_null, Page.overlay_kept_or_ok in Hs, Ho.
  rewrite Es, Ed, Ep, Ec, Ei, Ea, Eq, Happ in *.
  rewrite rest_loading_false.
  repeat split; try assumption; try reflexivity.
Qed.

Lemma stage_ok_step (w : App.World) (ev : App.Event) :
  Page.stage_ok (App.app w) -> Page.stage_ok (App.app (App.step w ev)).
Proof.
  intros Hw. destruct ev as [v|v| |p| | |id|id o]; try exact Hw.
  - destruct (detect_click_cases w) as [[msg E] | (aoi & v & _ & _ & _ & _ & E)];
      [rewrite E; exact Hw|].
    cbn zeta in E. rewrite E. unfold Page.stage_ok, Page.known_stage. cbn. auto.
  - rewrite interval_fires_step.
    destruct (decide (id ∈ App.intervals w)); [|exact Hw].
    destruct (App.calls w !! id) as [c|]; [|exact Hw].
    split; [right|intros _]; apply stages_at_known.
  - destruct (decide (id ∈ App.awaiting w)) as [Hin|Hin];
      [|rewrite settle_ignored by (left; exact Hin); exact Hw].
    destruct (App.calls w !! id) as [c|] eqn:Hc;
      [|rewrite settle_ignored by (right; exact Hc); exact Hw].
    destruct (settle_shape w id c o Hin Hc)
      as (_ & _ & _ & _ & _ & _ & _ & Hl & Hs & _).
    split; [|rewrite Hl; discriminate].
    destruct Hs as [-> | ->]; [left; reflexivity|apply Hw].
Qed.

(** X12: whenever the page is loading, in whatever order the user acts,
    the intervals fire and the requests settle, the stage shown is one
    that the progress indicator knows: its bar stands at 33, 66 or 100,
    never at the 0 of an unknown stage. *)
Theorem loading_shows_known_stage (evs : list App.Event) :
  let s := App.app (App.run App.boot evs) in
  App.loading s = true ->
  In (ProgressIndicator.progress
        (ProgressIndicator.getStageInfo (App.processingStage s)))
     [33; 66; 100]%Z.
Proof.
  cbn zeta. intros Hl.
  assert (Page.stage_ok (App.app (App.run App.boot evs))) as [_ Hs].
  { apply run_preserves.
    - intros w ev _. apply stage_ok_step.
    - split; [left; reflexivity|discriminate]. }
  destruct (Hs Hl) as [-> | [-> | ->]]; cbn; auto.
Qed.

End Sessions.

Lemma loading_shows_known_stage_witness :
  In (ProgressIndicator.progress
        (ProgressIndicator.getStageInfo
           (App.processingStage
              (App.app (App.run (H := Sample.host) App.boot
                          [App.AoiSelect Sample.site_a; App.DetectClick;
                           App.IntervalFires 1])))))
     [33; 66; 100]%Z.
Proof.
  apply (loading_shows_known_stage (H := Sample.host)
           [App.AoiSelect Sample.site_a; App.DetectClick;
            App.IntervalFires 1]).
  vm_compute. reflexivity.
Defined.

Section SessionInvariants.
Context `{!Host}.

(** The handlers of the choices, the panel, the banner and the overlay
    control touch neither the requests nor the timers. *)
Lemma one_pending_step (w : App.World) (ev : App.Event) :
  (ev = App.DetectClick -> App.loading (App.app w) = false) ->
  Page.one_pending w -> Page.one_pending (App.step w ev).
Proof.
  intros Hl Hw. destruct ev as [v|v| |p| | |id|id o]; try exact Hw.
  - specialize (Hl eq_refl). unfold Page.one_pending in Hw. rewrite Hl in Hw.
    destruct (detect_click_cases w)
      as [[msg E] | (aoi & v & _ & _ & _ & _ & E)].
    + rewrite E. unfold Page.one_pending. cbn. rewrite Hl. exact Hw.
    + cbn zeta in E. rewrite E. unfold Page.one_pending. cbn.
      exists (App.next_timer w). rewrite Hw. set_solver.
  - rewrite interval_fires_step.
    destruct (decide (id ∈ App.intervals w)); [|exact Hw].
    destruct (App.calls w !! id) as [c|]; exact Hw.
  - destruct (decide (id ∈ App.awaiting w)) as [Hin|Hin];
      [|rewrite settle_ignored by (left; exact Hin); exact Hw].
    destruct (App.calls w !! id) as [c|] eqn:Hc;
      [|rewrite settle_ignored by (right; exact Hc); exact Hw].
    destruct (settle_shape w id c o Hin Hc)
      as (_ & _ & _ & _ & _ & Ha & _ & Hf & _).
    unfold Page.one_pending in *. rewrite Hf, Ha.
    destruct (App.loading (App.app w)).
    + destruct Hw as [id0 Hw]. rewrite Hw in Hin |- *. set_solver.
    + rewrite Hw in Hin. set_solver.
Qed.

Lemma no_leak_step (w : App.World) (ev : App.Event) :
  Page.rejection ev = false -> Page.no_leak w -> Page.no_leak (App.step w ev).
Proof.
  intros Hev Hw. destruct ev as [v|v| |p| | |id|id o]; try exact Hw.
  - destruct (detect_click_cases w)
      as [[msg E] | (aoi & v & _ & _ & _ & _ & E)]; [rewrite E; exact Hw|].
    cbn zeta in E. rewrite E. destruct Hw as [Hi Hc]. split; cbn.
    + rewrite Hi. reflexivity.
    + intros id Hin. destruct (decide (id = App.next_timer w)) as [->|Hne].
      * eexists. rewrite lookup_insert_eq. split; reflexivity.
      * rewrite lookup_insert_ne by congruence. apply Hc. set_solver.
  - rewrite interval_fires_step.
    destruct (decide (id ∈ App.intervals w)) as [Hin|]; [|exact Hw].
    destruct (App.calls w !! id) as [c|] eqn:Hcall; [|exact Hw].
    destruct Hw as [Hi Hc]. split; [exact Hi|]. cbn.
    intros id' Hin'. destruct (decide (id' = id)) as [->|Hne].
    + eexists. rewrite lookup_insert_eq. split; [reflexivity|]. cbn.
      destruct (Hc id Hin') as [c0 [Hc0 Hp]]. congruence.
    + rewrite lookup_insert_ne by congruence. apply Hc. exact Hin'.
  - destruct o as [response|error]; [|discriminate].
    destruct (decide (id ∈ App.awaiting w)) as [Hin|Hin];
      [|rewrite settle_ignored by (left; exact Hin); exact Hw].
    destruct Hw as [Hi Hc]. destruct (Hc id Hin) as [c [Hcall Hp]].
    destruct (settle_shape w id c (Api.Resolved response) Hin Hcall)
      as (_ & _ & _ & Ecalls & Eint & Ea & _).
    split.
    + rewrite Eint, Ea, Hi. unfold Api.detectWater_settle. rewrite Hp.
      destruct (get response "data"); reflexivity.
    + intros id' Hin'. rewrite Ecalls. apply Hc. set_solver.
Qed.

Lemma overlay_ok_step (w : App.World) (ev : App.Event) :
  Page.overlay_ok (App.sentinelOverlay (App.app w)) ->
  Page.overlay_ok (App.sentinelOverlay (App.app (App.step w ev))).
Proof.
  intros Hw. destruct ev as [v|v| |p| | |id|id o]; try exact Hw.
  - destruct (detect_click_cases w)
      as [[msg E] | (aoi & v & _ & _ & _ & _ & E)]; [rewrite E; exact Hw|].
    cbn zeta in E. rewrite E. exact Hw.
  - left. reflexivity.
  - rewrite interval_fires_step.
    destruct (decide (id ∈ App.intervals w)); [|exact Hw].
    destruct (App.calls w !! id) as [c|]; exact Hw.
  - destruct (decide (id ∈ App.awaiting w)) as [Hin|Hin];
      [|rewrite settle_ignored by (left; exact Hin); exact Hw].
    destruct (App.calls w !! id) as [c|] eqn:Hc;
      [|rewrite settle_ignored by (right; exact Hc); exact Hw].
    destruct (settle_shape w id c o Hin Hc)
      as (_ & _ & _ & _ & _ & _ & _ & _ & _ & [-> | Ho]); assumption.
Qed.

Lemma one_aoi_step (w : App.World) (ev : App.Event) :
  App.one_aoi (App.app w) -> App.one_aoi (App.app (App.step w ev)).
Proof.
  intros Hw.
  destruct ev as [v|v| |p| | |id|id o];
    try (left; reflexivity); try (right; reflexivity);
    match goal with
    | |- App.one_aoi (App.app (App.step ?w ?ev)) =>
        destruct (step_same_aois w ev) as [Es Ed]; try discriminate;
        unfold App.one_aoi; rewrite Es, Ed; exact Hw
    end.
Qed.

(** X13: when no request fails, the timers of the page are exactly those
    of the requests that are pending, each held by its own invocation: a
    session whose requests have all been answered leaves no interval
    behind. *)
Theorem no_failure_no_leaked_interval (evs : list App.Event) :
  Forall (fun ev => Page.rejection ev = false) evs ->
  Page.no_leak (App.run App.boot evs).
Proof.
  intros Hevs. apply run_preserves.
  - intros w ev Hin. apply no_leak_step.
    rewrite Forall_forall in Hevs. apply Hevs. apply list_elem_of_In.
    exact Hin.
  - split; [reflexivity|]. intros id Hin. cbn in Hin. set_solver.
Qed.

(** X14: the overlay of the page is always absent or an object with a
    truthy [url]: the map never gets a tile layer without an address. *)
Theorem overlay_has_url (evs : list App.Event) :
  Page.overlay_ok (App.sentinelOverlay (App.app (App.run App.boot evs))).
Proof.
  apply (run_preserves
           (fun w => Page.overlay_ok (App.sentinelOverlay (App.app w)))).
  - intros w ev _. apply overlay_ok_step.
  - left. reflexivity.
Qed.

(** X15: in every state the page can reach, the map shows at most one
    AOI layer, and it is the outline of the AOI that Detect would send:
    the drawn polygon, else the polygon of the chosen test location. *)
Theorem map_shows_current_aoi (evs : list App.Event) :
  let s := App.app (App.run App.boot evs) in
  exists aoi,
    App.currentAoi s = Normal aoi
    /\ MapView.aoi_layers s
       = Normal (if truthy aoi then
                   [JObj [("type", JStr "Feature"); ("geometry", aoi)]]
                 else []).
Proof.
  cbn zeta.
  assert (App.one_aoi (App.app (App.run App.boot evs))) as Hone.
  { apply (run_preserves (fun w => App.one_aoi (App.app w))).
    - intros w ev _. apply one_aoi_step.
    - left. reflexivity. }
  destruct (App.app (App.run App.boot evs)) as [sel drawn l st res err ov ps].
  unfold App.one_aoi in Hone. cbn in Hone.
  unfold App.currentAoi, MapView.aoi_layers, MapView.selectedAoiPolygon,
    MapView.drawnAoiPolygon. cbn [App.selectedAoi App.drawnAoi].
  destruct (truthy drawn) eqn:Hd.
  - exists drawn. split; [reflexivity|].
    destruct Hone as [-> | ->]; [|discriminate]. cbn. rewrite Hd. reflexivity.
  - destruct (truthy sel) eqn:Hs.
    + destruct (get_truthy sel "coordinates" Hs) as [c Hc]. rewrite Hc. cbn.
      eexists. split; reflexivity.
    + exists JNull. split; reflexivity.
Qed.

End SessionInvariants.

Lemma no_failure_no_leaked_interval_witness :
  Page.no_leak (App.run (H := Sample.host) App.boot Demo.calm).
Proof.
  apply (no_failure_no_leaked_interval (H := Sample.host) Demo.calm).
  repeat constructor.
Defined.

(** *** The page with its components *)

Section PageSessions.
Context `{!Host} `{!Browser}.
Variable testAois : list JsVal.

(** What the components can ask of the app in the state on screen: Detect
    only while the page is not loading, and new parameters only as a panel
    action on the current ones. *)
Lemma page_step_preserves (P : App.World -> Prop) :
  (forall w ev,
     (ev = App.DetectClick -> App.loading (App.app w) = false) ->
     (forall p, ev = App.ParamsSet p ->
        exists a, p = AdvancedPanel.next_params a
                        (App.advancedParams (App.app w))) ->
     P w -> P (App.step w ev)) ->
  forall w i, P w -> P (Page.step testAois w i).
Proof.
  intros Hstep w i Hw. unfold Page.step.
  destruct i as [value|geoJSON| | |a| | |id|id o]; cbn [Page.events].
  - apply run_preserves; [|exact Hw].
    intros w' ev Hin. apply Hstep.
    + intros ->. exfalso.
      destruct (TestAoiSelector.handleSelect testAois value).2; [|exact Hin].
      apply in_map_iff in Hin. destruct Hin as [x [Hx _]]. discriminate.
    + intros p ->. exfalso.
      destruct (TestAoiSelector.handleSelect testAois value).2; [|exact Hin].
      apply in_map_iff in Hin. destruct Hin as [x [Hx _]]. discriminate.
  - unfold MapView.handleCreated.
    destruct (get geoJSON "geometry"); unfold App.run; cbn [mbind foldl];
      [|exact Hw].
    apply Hstep; [discriminate|discriminate|exact Hw].
  - unfold MapView.handleDeleted, App.run. cbn [foldl].
    apply Hstep; [discriminate|discriminate|exact Hw].
  - unfold Sidebar.click, Sidebar.detect_disabled, App.run.
    destruct (App.loading (App.app w)) eqn:Hl; cbn [foldl]; [exact Hw|].
    apply Hstep; [intros _; exact Hl|discriminate|exact Hw].
  - unfold App.run. cbn [foldl]. apply Hstep; [discriminate| |exact Hw].
    intros p [= <-]. exists a. reflexivity.
  - unfold App.run.
    destruct (truthy (App.error (App.app w))); cbn [foldl]; [|exact Hw].
    apply Hstep; [discriminate|discriminate|exact Hw].
  - unfold App.run.
    destruct (truthy (App.sentinelOverlay (App.app w))); cbn [foldl];
      [|exact Hw].
    apply Hstep; [discriminate|discriminate|exact Hw].
  - unfold App.run. cbn [foldl].
    apply Hstep; [discriminate|discriminate|exact Hw].
  - unfold App.run. cbn [foldl].
    apply Hstep; [discriminate|discriminate|exact Hw].
Qed.

Lemma page_run_preserves (P : App.World -> Prop) :
  (forall w i, P w -> P (Page.step testAois w i)) ->
  forall inputs w, P w -> P (Page.run testAois w inputs).
Proof.
  intros Hstep inputs. unfold Page.run.
  induction inputs as [|i inputs IH]; intros w Hw; [exact Hw|].
  cbn [foldl]. apply IH, Hstep, Hw.
Qed.

(** X16: on the page with its Detect button, which is disabled while
    loading, at most one request is pending at any time: exactly one
    while the page is loading and none otherwise, whatever the user does
    and however requests settle. *)
Theorem detect_button_one_pending (inputs : list Page.Input) :
  Page.one_pending (Page.run testAois App.boot inputs).
Proof.
  apply page_run_preserves; [|reflexivity].
  apply page_step_preserves. intros w ev Hl _. apply one_pending_step, Hl.
Qed.

Lemma key_of_not_geometry (c : AdvancedPanel.Control) :
  AdvancedPanel.key_of c <> "geometry".
Proof. destruct c; discriminate. Qed.

Lemma all_null_lookup (entries : list (string * JsVal)) (k : string)
    (v : JsVal) :
  Forall (fun e => e.2 = JNull) entries ->
  (list_to_map entries : gmap string JsVal) !! k = Some v -> v = JNull.
Proof.
  intros Hall Hk. apply elem_of_list_to_map_2 in Hk.
  rewrite Forall_forall in Hall. exact (Hall (k, v) Hk).
Qed.

(** The parameters that are not null belong to a slider of the panel. *)
Lemma next_params_sliders (a : AdvancedPanel.Action)
    (params : gmap string JsVal) :
  (forall k v, params !! k = Some v -> v <> JNull ->
               exists c, k = AdvancedPanel.key_of c) ->
  forall k v, AdvancedPanel.next_params a params !! k = Some v -> v <> JNull ->
              exists c, k = AdvancedPanel.key_of c.
Proof.
  intros Hp k v Hk Hv.
  destruct a as [c value|c|]; cbn [AdvancedPanel.next_params] in Hk.
  - unfold AdvancedPanel.handleParamChange in Hk.
    destruct (decide (k = AdvancedPanel.key_of c)) as [->|Hne];
      [exists c; reflexivity|].
    rewrite lookup_insert_ne in Hk by congruence. exact (Hp k v Hk Hv).
  - unfold AdvancedPanel.handleParamChange in Hk.
    destruct (decide (k = AdvancedPanel.key_of c)) as [->|Hne];
      [exists c; reflexivity|].
    rewrite lookup_insert_ne in Hk by congruence. exact (Hp k v Hk Hv).
  - exfalso. apply Hv. unfold AdvancedPanel.reset_all in Hk.
    apply (all_null_lookup _ k v) in Hk; [exact Hk|].
    repeat constructor.
Qed.

Lemma sliders_step (w : App.World) (ev : App.Event) :
  (forall p, ev = App.ParamsSet p ->
     exists a, p = AdvancedPanel.next_params a
                     (App.advancedParams (App.app w))) ->
  (forall k v, App.advancedParams (App.app w) !! k = Some v -> v <> JNull ->
               exists c, k = AdvancedPanel.key_of c)
  /\ Forall (fun r : string * gmap string JsVal =>
               forall k, is_Some (r.2 !! k) ->
                         k = "geometry" \/ exists c, k = AdvancedPanel.key_of c)
            (App.requests w) ->
  (forall k v, App.advancedParams (App.app (App.step w ev)) !! k = Some v ->
               v <> JNull -> exists c, k = AdvancedPanel.key_of c)
  /\ Forall (fun r : string * gmap string JsVal =>
               forall k, is_Some (r.2 !! k) ->
                         k = "geometry" \/ exists c, k = AdvancedPanel.key_of c)
            (App.requests (App.step w ev)).
Proof.
  intros Hev [Hp Hr]. destruct ev as [v|v| |p| | |id|id o];
    try (split; [exact Hp|exact Hr]).
  - destruct (detect_click_cases w)
      as [[msg E] | (aoi & v & _ & _ & _ & _ & E)];
      [rewrite E; split; [exact Hp|exact Hr]|].
    cbn zeta in E. rewrite E. split; [exact Hp|]. cbn.
    apply Forall_app. split; [exact Hr|]. constructor; [|constructor].
    cbn [snd]. intros k [x Hx]. unfold Api.request_body in Hx.
    apply lookup_union_Some_raw in Hx. destruct Hx as [Hx|[_ Hx]].
    + right. apply prepare_params_lookup in Hx. destruct Hx as [Hx Hn].
      exact (Hp k x Hx Hn).
    + left. apply lookup_singleton_Some in Hx. destruct Hx as [<- _].
      reflexivity.
  - destruct (Hev p eq_refl) as [a ->]. split; [|exact Hr].
    apply next_params_sliders, Hp.
  - rewrite interval_fires_step.
    destruct (decide (id ∈ App.intervals w)); [|split; [exact Hp|exact Hr]].
    destruct (App.calls w !! id) as [c|]; split; (exact Hp || exact Hr).
  - destruct (decide (id ∈ App.awaiting w)) as [Hin|Hin];
      [|rewrite settle_ignored by (left; exact Hin); split; assumption].
    destruct (App.calls w !! id) as [c|] eqn:Hc;
      [|rewrite settle_ignored by (right; exact Hc); split; assumption].
    destruct (settle_shape w id c o Hin Hc)
      as (_ & _ & Eparams & _ & _ & _ & Ereq & _).
    rewrite Eparams, Ereq. split; assumption.
Qed.

(** X17: on the page with the advanced panel, the body of every request
    holds, besides [geometry], only parameters that have a slider in the
    panel; [texture_window], which the page keeps in its state but the
    panel cannot set, is never sent. *)
Theorem requests_hold_slider_keys (inputs : list Page.Input) :
  Forall (fun r : string * gmap string JsVal =>
            r.2 !! "texture_window" = None
            /\ forall k, is_Some (r.2 !! k) ->
                         k = "geometry" \/ exists c, k = AdvancedPanel.key_of c)
         (App.requests (Page.run testAois App.boot inputs)).
Proof.
  assert ((forall k v,
             App.advancedParams
               (App.app (Page.run testAois App.boot inputs)) !! k = Some v ->
             v <> JNull -> exists c, k = AdvancedPanel.key_of c)
          /\ Forall (fun r : string * gmap string JsVal =>
                       forall k, is_Some (r.2 !! k) ->
                                 k = "geometry"
                                 \/ exists c, k = AdvancedPanel.key_of c)
                    (App.requests (Page.run testAois App.boot inputs)))
    as [_ Hr].
  { apply (page_run_preserves
             (fun w =>
                (forall k v,
                   App.advancedParams (App.app w) !! k = Some v ->
                   v <> JNull -> exists c, k = AdvancedPanel.key_of c)
                /\ Forall (fun r : string * gmap string JsVal =>
                             forall k, is_Some (r.2 !! k) ->
                                       k = "geometry"
                                       \/ exists c, k = AdvancedPanel.key_of c)
                          (App.requests w))).
    - apply page_step_preserves. intros w ev _ Hev. apply sliders_step, Hev.
    - split; [|constructor]. intros k v Hk Hv. exfalso. apply Hv.
      change (App.initial_params !! k = Some v) in Hk.
      unfold App.initial_params in Hk.
      apply (all_null_lookup _ k v) in Hk; [exact Hk|]. repeat constructor. }
  eapply Forall_impl; [exact Hr|]. intros r Hk. split; [|exact Hk].
  destruct (r.2 !! "texture_window") as [x|] eqn:Hx; [|reflexivity].
  destruct (Hk "texture_window" (ex_intro _ x Hx)) as [Hg|[c Hc]];
    [discriminate|destruct c; discriminate].
Qed.

(** X4: every request the page with its components ever sends goes to
    /detect-water, and the geometry in its body is an AOI that
    [validateAOI] accepted as valid, with an area neither above 2500 km²
    nor below 0.01 km². *)
Theorem requests_reachable (inputs : list Page.Input) :
  Forall (fun r : string * gmap string JsVal =>
            r.1 = "/detect-water"
            /\ exists aoi v,
                 r.2 !! "geometry" = Some aoi
                 /\ truthy aoi = true
                 /\ Validator.validateAOI aoi = Normal v
                 /\ Validator.isValid v = true
                 /\ (2500 <? Validator.area v)%float = false
                 /\ (Validator.area v <? 0.01)%float = false)
         (App.requests (Page.run testAois App.boot inputs)).
Proof.
  pose (keys := fun r : string * gmap string JsVal =>
                  forall k, is_Some (r.2 !! k) ->
                            k = "geometry"
                            \/ exists c, k = AdvancedPanel.key_of c).
  pose (valid := fun r : string * gmap string JsVal =>
                   r.1 = "/detect-water"
                   /\ exists aoi v,
                        r.2 !! "geometry" = Some aoi
                        /\ truthy aoi = true
                        /\ Validator.validateAOI aoi = Normal v
                        /\ Validator.isValid v = true
                        /\ (2500 <? Validator.area v)%float = false
                        /\ (Validator.area v <? 0.01)%float = false).
  enough (((forall k v,
              App.advancedParams
                (App.app (Page.run testAois App.boot inputs)) !! k = Some v ->
              v <> JNull -> exists c, k = AdvancedPanel.key_of c)
           /\ Forall keys (App.requests (Page.run testAois App.boot inputs)))
          /\ Forall valid (App.requests (Page.run testAois App.boot inputs)))
    as [_ Hv] by exact Hv.
  apply (page_run_preserves
           (fun w =>
              ((forall k v,
                  App.advancedParams (App.app w) !! k = Some v ->
                  v <> JNull -> exists c, k = AdvancedPanel.key_of c)
               /\ Forall keys (App.requests w))
              /\ Forall valid (App.requests w))).
  - apply page_step_preserves. intros w ev _ Hev [Hk Hv].
    split; [apply sliders_step; [exact Hev|exact Hk]|].
    assert (ev = App.DetectClick \/ ev <> App.DetectClick) as [->|Hne]
      by (destruct ev; (left; reflexivity) || (right; discriminate)).
    + destruct (detect_click_cases w)
        as [[msg E] | (aoi & v & _ & Ht & Hval & Hi & E)];
        [rewrite E; exact Hv|].
      cbn zeta in E. rewrite E. cbn [App.requests].
      apply Forall_app. split; [exact Hv|]. constructor; [|constructor].
      split; [reflexivity|]. exists aoi, v. cbn [snd].
      split; [|split; [exact Ht|split; [exact Hval|split; [exact Hi|]]]].
      * unfold Api.request_body. rewrite lookup_union.
        destruct (App.prepare_params (App.advancedParams (App.app w))
                    !! "geometry") as [x|] eqn:Hx.
        -- apply prepare_params_lookup in Hx. destruct Hx as [Hx Hn].
           destruct Hk as [Hk _]. destruct (Hk "geometry" x Hx Hn) as [c Hc].
           destruct (key_of_not_geometry c (eq_sym Hc)).
        -- rewrite lookup_singleton_eq. reflexivity.
      * pose proof (valid_not_outside aoi v Hval Hi) as Ho.
        unfold Validator.outside_bounds in Ho.
        apply orb_false_iff in Ho. exact Ho.
    + rewrite (step_same_requests w ev Hne). exact Hv.
  - split; [split; [|constructor]|constructor].
    intros k v Hk Hv. exfalso. apply Hv.
    change (App.initial_params !! k = Some v) in Hk.
    unfold App.initial_params in Hk.
    apply (all_null_lookup _ k v) in Hk; [exact Hk|]. repeat constructor.
Qed.

(** The prepared parameters, entry by entry. *)
Lemma prepare_params_get (params : gmap string JsVal) (k : string) :
  App.prepare_params params !! k
  = match params !! k with
    | Some v => if not_null v then Some v else None
    | None => None
    end.
Proof.
  destruct (App.prepare_params params !! k) as [x|] eqn:E.
  - apply prepare_params_lookup in E. destruct E as [-> Hn].
    destruct x; try reflexivity. contradiction.
  - destruct (params !! k) as [v|] eqn:Hk; [|reflexivity].
    destruct (not_null v) eqn:Hn; [|reflexivity].
    assert (App.prepare_params params !! k = Some v) as E'.
    { apply prepare_params_lookup. split; [exact Hk|].
      intros ->. discriminate. }
    congruence.
Qed.

Lemma request_body_slider (aoi : JsVal) (params : gmap string JsVal)
    (c : AdvancedPanel.Control) :
  Api.request_body aoi params !! AdvancedPanel.key_of c
  = params !! AdvancedPanel.key_of c.
Proof.
  unfold Api.request_body. rewrite lookup_union.
  rewrite (lookup_singleton_ne "geometry" (AdvancedPanel.key_of c) aoi)
    by (intros E; exact (key_of_not_geometry c (eq_sym E))).
  destruct (params !! AdvancedPanel.key_of c); reflexivity.
Qed.

Lemma prepare_reset_all : App.prepare_params AdvancedPanel.reset_all = ∅.
Proof.
  apply map_eq. intros k. rewrite prepare_params_get, lookup_empty.
  destruct (AdvancedPanel.reset_all !! k) as [v|] eqn:Hk; [|reflexivity].
  unfold AdvancedPanel.reset_all in Hk.
  apply (all_null_lookup _ k v) in Hk; [|repeat constructor].
  rewrite Hk. reflexivity.
Qed.

(** X18: what is done in the panel reaches the next request.  On a page
    that is not loading and whose current AOI is valid, a panel action
    followed by a click on Detect sends one request; after moving a slider
    its body holds the slider's key with the parsed number, after Reset it
    lacks that key, in both cases with the other keys as they would have
    been, and after "Reset All" it holds the geometry only. *)
Theorem panel_action_reaches_request (w : App.World)
    (a : AdvancedPanel.Action) (aoi : JsVal) (v : Validator.Validation) :
  App.loading (App.app w) = false ->
  App.currentAoi (App.app w) = Normal aoi -> truthy aoi = true ->
  Validator.validateAOI aoi = Normal v -> Validator.isValid v = true ->
  let before :=
    Api.request_body aoi (App.prepare_params (App.advancedParams (App.app w)))
  in
  let w' := Page.run testAois w [Page.Panel a; Page.DetectButton] in
  exists body,
    App.requests w' = (App.requests w ++ [("/detect-water", body)])%list
    /\ match a with
       | AdvancedPanel.Change c value =>
           body !! AdvancedPanel.key_of c
           = (if String.eqb value "" then None
              else Some (JNum (parseFloat value)))
           /\ forall k, k <> AdvancedPanel.key_of c -> body !! k = before !! k
       | AdvancedPanel.Reset c =>
           body !! AdvancedPanel.key_of c = None
           /\ forall k, k <> AdvancedPanel.key_of c -> body !! k = before !! k
       | AdvancedPanel.ResetAll => body = {[ "geometry" := aoi ]}
       end.
Proof.
  intros Hl Hc Ht Hv Hi. cbn zeta.
  unfold Page.run. cbn [foldl].
  set (w1 := Page.step testAois w (Page.Panel a)).
  assert (App.loading (App.app w1) = false) as Hl1 by exact Hl.
  assert (App.currentAoi (App.app w1) = Normal aoi) as Hc1 by exact Hc.
  assert (App.requests w1 = App.requests w) as Hq1 by reflexivity.
  unfold Page.step. cbn [Page.events].
  unfold Sidebar.click, Sidebar.detect_disabled. rewrite Hl1.
  unfold App.run. cbn [foldl]. unfold App.step.
  rewrite (detect_click_valid w1 aoi v Hc1 Ht Hv Hi). cbn [fst App.requests].
  rewrite Hq1.
  eexists. split; [reflexivity|].
  change (App.advancedParams (App.app w1))
    with (AdvancedPanel.next_params a (App.advancedParams (App.app w))).
  assert (forall (c : AdvancedPanel.Control) (x : JsVal) (k : string),
            k <> AdvancedPanel.key_of c ->
            Api.request_body aoi
              (App.prepare_params
                 (<[ AdvancedPanel.key_of c := x ]>
                    (App.advancedParams (App.app w)))) !! k
            = Api.request_body aoi
                (App.prepare_params (App.advancedParams (App.app w))) !! k)
    as Hother.
  { intros c x k Hk. unfold Api.request_body. rewrite !lookup_union.
    rewrite !prepare_params_get, lookup_insert_ne by congruence.
    reflexivity. }
  destruct a as [c value|c|]; cbn [AdvancedPanel.next_params].
  - split; [|intros k Hk; apply Hother, Hk].
    rewrite request_body_slider, prepare_params_get.
    unfold AdvancedPanel.handleParamChange. rewrite lookup_insert_eq.
    destruct (String.eqb value ""); reflexivity.
  - split; [|intros k Hk; apply Hother, Hk].
    rewrite request_body_slider, prepare_params_get.
    unfold AdvancedPanel.handleParamChange. rewrite lookup_insert_eq.
    reflexivity.
  - rewrite prepare_reset_all. unfold Api.request_body.
    apply (left_id_L ∅ (∪)).
Qed.

(** [find] over test AOIs that are objects: the first one with the id,
    or none. *)
Lemma find_has_id (id : float) (l : list JsVal) :
  Forall (fun aoi => exists props, aoi = JObj props) l ->
  (exists before aoi after n,
     l = (before ++ aoi :: after)%list
     /\ get aoi "id" = Normal (JNum n) /\ (n =? id)%float = true
     /\ Forall (fun other => forall m, get other "id" = Normal (JNum m) ->
                                      (m =? id)%float = false) before
     /\ TestAoiSelector.find (TestAoiSelector.has_id id) l = Normal (Some aoi)
     /\ truthy aoi = true)
  \/ (Forall (fun other => forall m, get other "id" = Normal (JNum m) ->
                                     (m =? id)%float = false) l
      /\ TestAoiSelector.find (TestAoiSelector.has_id id) l = Normal None).
Proof.
  induction 1 as [|a l [props ->] Hl IH].
  - right. split; [constructor|reflexivity].
  - pose (b := match default JUndefined (assoc "id" props) with
               | JNum n => (n =? id)%float
               | _ => false
               end).
    assert (TestAoiSelector.find (TestAoiSelector.has_id id) (JObj props :: l)
            = if b then Normal (Some (JObj props))
              else TestAoiSelector.find (TestAoiSelector.has_id id) l)
      as -> by reflexivity.
    assert ((exists n, default JUndefined (assoc "id" props) = JNum n
                       /\ (n =? id)%float = true /\ b = true)
            \/ ((forall m, default JUndefined (assoc "id" props) = JNum m ->
                           (m =? id)%float = false)
                /\ b = false)) as Hcase.
    { unfold b. destruct (default JUndefined (assoc "id" props));
        try (right; split; [intros; discriminate|reflexivity]).
      destruct (n =? id)%float eqn:E.
      - left. exists n. auto.
      - right. split; [|reflexivity]. intros m [= <-]. exact E. }
    destruct Hcase as [(n & Hid & Hn & ->)|[Hno ->]].
    + left. exists [], (JObj props), l, n.
      split; [reflexivity|]. split; [cbn; rewrite Hid; reflexivity|].
      split; [exact Hn|]. split; [constructor|]. split; reflexivity.
    + assert (forall m, get (JObj props) "id" = Normal (JNum m) ->
                        (m =? id)%float = false) as Hno'.
      { intros m [= Hm]. apply Hno, Hm. }
      destruct IH as [(before & aoi & after & m & -> & Hg & Hm & Hb & Hf & Hta)
                     |[Hall Hf]].
      * left. exists (JObj props :: before), aoi, after, m.
        split; [reflexivity|]. split; [exact Hg|]. split; [exact Hm|].
        split; [constructor; assumption|]. split; assumption.
      * right. split; [constructor; assumption|exact Hf].
Qed.

(** X19: what a choice in the selector does.  The placeholder, or any
    value that parses to NaN or 0, clears the AOIs: also a drawn one, with
    the results and the error.  Another value selects the first test AOI
    with that id and clears the drawn AOI, the results and the error; when
    no test AOI has the id, the page stays as it is. *)
Theorem selector_choice (w : App.World) (value : string) :
  Forall (fun aoi => exists props, aoi = JObj props) testAois ->
  let id := parseInt value in
  let s' := App.app (Page.step testAois w (Page.Choose value)) in
  let cleared := App.drawnAoi s' = JNull /\ App.results s' = JNull
                 /\ App.error s' = JNull in
  if truthy (JNum id) then
    (exists before aoi after n,
       testAois = (before ++ aoi :: after)%list
       /\ get aoi "id" = Normal (JNum n) /\ (n =? id)%float = true
       /\ Forall (fun other => forall m, get other "id" = Normal (JNum m) ->
                                        (m =? id)%float = false) before
       /\ App.selectedAoi s' = aoi /\ cleared)
    \/ (Forall (fun other => forall m, get other "id" = Normal (JNum m) ->
                                       (m =? id)%float = false) testAois
        /\ Page.step testAois w (Page.Choose value) = w)
  else App.selectedAoi s' = JNull /\ cleared.
Proof.
  intros Hobj. cbn zeta. unfold Page.step. cbn [Page.events].
  unfold TestAoiSelector.handleSelect. cbn [snd].
  destruct (truthy (JNum (parseInt value))) eqn:Ht;
    [|cbn; repeat split; reflexivity].
  destruct (find_has_id (parseInt value) testAois Hobj)
    as [(before & aoi & after & n & E & Hg & Hn & Hb & Hf & Hta)|[Hall Hf]].
  - left. exists before, aoi, after, n. rewrite Hf.
    unfold mbind, completion_bind. rewrite Hta.
    repeat split; try assumption; reflexivity.
  - right. split; [exact Hall|]. rewrite Hf. reflexivity.
Qed.

End PageSessions.

Lemma panel_action_reaches_request_witness :
  exists body,
    App.requests
      (Page.run (H := Sample.host) (H0 := Demo.browser) Demo.testAois
         Sample.ready
         [Page.Panel (AdvancedPanel.Change AdvancedPanel.SlopeMax "7");
          Page.DetectButton])
    = (App.requests Sample.ready ++ [("/detect-water", body)])%list
    /\ body !! "slope_max" = Some (JNum 7).
Proof.
  destruct (panel_action_reaches_request (H := Sample.host)
              (H0 := Demo.browser) Demo.testAois Sample.ready
              (AdvancedPanel.Change AdvancedPanel.SlopeMax "7") Sample.square
              {| Validator.isValid := true; Validator.error := None;
                 Validator.area := 25%float |})
    as [body [Hreq [Hk _]]]; try (vm_compute; reflexivity).
  exists body. split; [exact Hreq|exact Hk].
Defined.

Lemma selector_choice_witness :
  exists aoi n,
    App.selectedAoi
      (App.app (Page.step (H := Sample.host) (H0 := Demo.browser)
                  Demo.testAois App.boot (Page.Choose "2")))
    = aoi
    /\ get aoi "id" = Normal (JNum n) /\ (n =? 2)%float = true.
Proof.
  pose proof (selector_choice (H := Sample.host) (H0 := Demo.browser)
                Demo.testAois App.boot "2") as Hs.
  cbn zeta in Hs.
  change (truthy (JNum (parseInt (Browser := Demo.browser) "2")))
    with true in Hs.
  destruct Hs as [(before & aoi & after & n & _ & Hg & Hn & _ & Hsel & _)
                 |[Hall _]].
  - repeat constructor; eexists; reflexivity.
  - exists aoi, n. repeat split; assumption.
  - exfalso. apply Forall_cons in Hall. destruct Hall as [_ Hall].
    apply Forall_cons in Hall. destruct Hall as [Hb _].
    specialize (Hb 2%float eq_refl). vm_compute in Hb. discriminate.
Defined.

(** X20: the second copy of the progress indicator differs from the first
    only for the stage 'coldstart', and no session of the page ever sets
    that stage: in every state the page can reach both copies show the
    same text and progress, and the second shows no second line. *)
Theorem coldstart_never_shown `{!Host} (evs : list App.Event) :
  let stage := App.processingStage (App.app (App.run App.boot evs)) in
  let first := ProgressIndicator.getStageInfo stage in
  let second := ProgressIndicatorColdStart.getStageInfo stage in
  stage <> JStr "coldstart"
  /\ ProgressIndicatorColdStart.text second = ProgressIndicator.text first
  /\ ProgressIndicatorColdStart.progress second
     = ProgressIndicator.progress first
  /\ ProgressIndicatorColdStart.subtext second = None.
Proof.
  cbn zeta.
  assert (Page.stage_ok (App.app (App.run App.boot evs))) as [Hs _].
  { apply run_preserves.
    - intros w ev _. apply stage_ok_step.
    - split; [left; reflexivity|discriminate]. }
  destruct Hs as [-> | [-> | [-> | ->]]];
    (split; [discriminate|]); repeat split; reflexivity.
Qed.

(** *** components/MapView.js and components/ResultsPanel.js *)

(** X21: the map and the panel agree on the detected water.  The water
    layer is on the map exactly when results are shown and the panel
    counts at least one polygon, and then the download button is enabled.
    The one exception: for a feature collection without a feature list the
    panel counts 0 polygons, while the map throws. *)
Theorem water_layer_matches_panel `{!Host} (showResults : bool)
    (r : ResultsPanel.Results) :
  match MapView.water_layer showResults (Some r) with
  | Normal shown =>
      shown = showResults && negb (Nat.eqb (ResultsPanel.featureCount r) 0)
      /\ (shown = true ->
          ResultsPanel.download_button r
          = ResultsPanel.Elem "button" "download-btn" false
              [ResultsPanel.Text "📥 Download GeoJSON"])
  | Throw _ =>
      showResults = true /\ ResultsPanel.featureCount r = 0
      /\ exists collection,
           ResultsPanel.water_polygons r = Some collection
           /\ ResultsPanel.features collection = None
  end.
Proof.
  unfold MapView.water_layer, ResultsPanel.download_button,
    ResultsPanel.featureCount.
  destruct showResults; [|split; [reflexivity|discriminate]].
  destruct (ResultsPanel.water_polygons r) as [[[fs|]]|];
    cbn [ResultsPanel.features].
  - destruct fs as [|f fs]; cbn; (split; [reflexivity|]);
      [discriminate|reflexivity].
  - split; [reflexivity|]. split; [reflexivity|]. eexists.
    split; reflexivity.
  - split; [reflexivity|discriminate].
Qed.

(** X22: the downloaded file is named after the date of the ISO time
    stamp: the text before its first T. *)
Theorem download_file_name (date time : string) :
  forallb (fun c => negb (Ascii.eqb c "T")) (list_ascii_of_string date) = true ->
  Download.file_name (date ++ String "T" time)
  = "water_detection_" ++ date ++ ".geojson".
Proof.
  intros Hdate. unfold Download.file_name.
  assert (Download.before "T" (date ++ String "T" time) = date) as ->;
    [|reflexivity].
  induction date as [|c date IH].
  - reflexivity.
  - cbn [list_ascii_of_string forallb] in Hdate.
    apply andb_true_iff in Hdate. destruct Hdate as [Hc Hd].
    change (Download.before "T" (String c (date ++ String "T" time))
            = String c date).
    cbn [Download.before].
    destruct (Ascii.eqb c "T"); [discriminate|]. rewrite (IH Hd). reflexivity.
Qed.

Lemma download_file_name_witness :
  Download.file_name "2024-05-01T10:00:00.000Z"
  = "water_detection_2024-05-01.geojson".
Proof.
  apply (download_file_name "2024-05-01" "10:00:00.000Z"). reflexivity.
Defined.

(** *** components/AdvancedPanel.js, second copy *)

(** X23: what the second copy of the panel makes of the parameters sent.
    A date is sent as the text typed and a slider as the parsed number; an
    empty value and Reset take the parameter out of the request; the other
    parameters stay.  "Reset All" takes every parameter out, also those
    for which this panel has no control. *)
Theorem dates_panel_parameters `{!Browser} (a : AdvancedPanelDates.Action)
    (params : gmap string JsVal) (k : string) :
  App.prepare_params (AdvancedPanelDates.next_params a params) !! k
  = match a with
    | AdvancedPanelDates.Change c value =>
        if decide (k = AdvancedPanelDates.key_of c) then
          if String.eqb value "" then None
          else Some (match c with
                     | AdvancedPanelDates.StartDate => JStr value
                     | _ => JNum (parseFloat value)
                     end)
        else App.prepare_params params !! k
    | AdvancedPanelDates.Reset c =>
        if decide (k = AdvancedPanelDates.key_of c) then None
        else App.prepare_params params !! k
    | AdvancedPanelDates.ResetAll => None
    end.
Proof.
  rewrite prepare_params_get.
  destruct a as [c value|c|]; cbn [AdvancedPanelDates.next_params].
  - destruct (decide (k = AdvancedPanelDates.key_of c)) as [->|Hk].
    + destruct c; cbn [AdvancedPanelDates.next_params];
        unfold AdvancedPanelDates.handleParamChange,
          AdvancedPanelDates.handleNumericChange;
        rewrite lookup_insert_eq; destruct (String.eqb value ""); reflexivity.
    + rewrite prepare_params_get.
      destruct c; cbn [AdvancedPanelDates.next_params];
        unfold AdvancedPanelDates.handleParamChange,
          AdvancedPanelDates.handleNumericChange;
        rewrite lookup_insert_ne by congruence; reflexivity.
  - unfold AdvancedPanelDates.handleParamChange.
    destruct (decide (k = AdvancedPanelDates.key_of c)) as [->|Hk].
    + rewrite lookup_insert_eq. reflexivity.
    + rewrite prepare_params_get, lookup_insert_ne by congruence. reflexivity.
  - destruct (AdvancedPanelDates.reset_all !! k) as [v|] eqn:Hk; [|reflexivity].
    unfold AdvancedPanelDates.reset_all in Hk.
    apply (all_null_lookup _ k v) in Hk; [|repeat constructor].
    rewrite Hk. reflexivity.
Qed.

(** *** The search bar of components/MapView.js *)

(** X24: the search bar over whole sessions of typing, clicks on the
    button (disabled while searching), key presses, clicks on a result and
    fetches that end.  Every address fetched is the nominatim search
    address of a query that is not blank; and whenever the bar is
    searching a fetch is in flight, so that the button is enabled again
    once every fetch has ended. *)
Theorem search_bar_session `{!Browser} (inputs : list SearchBar.Input) :
  let bar := SearchBar.run SearchBar.initial inputs in
  Forall (fun url =>
            exists q,
              String.eqb (trim q) "" = false
              /\ url = "https://nominatim.openstreetmap.org/search?format=json&q="
                         ++ encodeURIComponent q ++ "&limit=5")
         (SearchBar.fetched bar)
  /\ (SearchBar.isSearching (SearchBar.state bar) = true ->
      0 < SearchBar.pending bar)
  /\ (SearchBar.pending bar = 0 ->
      SearchBar.isSearching (SearchBar.state bar) = false).
Proof.
  cbn zeta.
  pose (good := fun url =>
                  exists q,
                    String.eqb (trim q) "" = false
                    /\ url = "https://nominatim.openstreetmap.org/search?format=json&q="
                               ++ encodeURIComponent q ++ "&limit=5").
  enough (Forall good (SearchBar.fetched (SearchBar.run SearchBar.initial inputs))
          /\ (SearchBar.isSearching
                (SearchBar.state (SearchBar.run SearchBar.initial inputs)) = true ->
              0 < SearchBar.pending (SearchBar.run SearchBar.initial inputs)))
    as [Hf Hs].
  { split; [exact Hf|]. split; [exact Hs|]. intros Hp.
    destruct (SearchBar.isSearching _) eqn:E; [|reflexivity].
    specialize (Hs eq_refl). lia. }
  unfold SearchBar.run.
  assert (Forall good (SearchBar.fetched SearchBar.initial)
          /\ (SearchBar.isSearching (SearchBar.state SearchBar.initial) = true ->
              0 < SearchBar.pending SearchBar.initial)) as Hb
    by (split; [constructor|discriminate]).
  revert Hb. generalize SearchBar.initial.
  induction inputs as [|i inputs IH]; intros b Hb; [exact Hb|].
  cbn [foldl]. apply IH. clear IH. destruct Hb as [Hf Hs].
  assert (forall s : SearchBar.State,
            SearchBar.state b = s ->
            Forall good
              (SearchBar.fetched
                 (SearchBar.started b (SearchBar.handleSearch_begin s)))
            /\ (SearchBar.isSearching
                  (SearchBar.state
                     (SearchBar.started b (SearchBar.handleSearch_begin s)))
                = true ->
                0 < SearchBar.pending
                      (SearchBar.started b (SearchBar.handleSearch_begin s))))
    as Hsearch.
  { intros s <-. unfold SearchBar.started, SearchBar.handleSearch_begin,
      SearchBar.search_url.
    destruct (String.eqb (trim (SearchBar.query (SearchBar.state b))) "")
      eqn:Hq; cbn.
    - rewrite app_nil_r. split; [exact Hf|]. intros Hi.
      specialize (Hs Hi). lia.
    - split; [|intros _; lia].
      apply Forall_app. split; [exact Hf|]. constructor; [|constructor].
      exists (SearchBar.query (SearchBar.state b)). split; [exact Hq|reflexivity]. }
  destruct i as [value| |key|o|index]; cbn [SearchBar.step].
  - split; [exact Hf|exact Hs].
  - destruct (SearchBar.isSearching (SearchBar.state b)) eqn:Hi;
      [split; [exact Hf|intros _; apply Hs; reflexivity]|].
    apply Hsearch. reflexivity.
  - unfold SearchBar.handleKeyPress.
    destruct (String.eqb key "Enter"); [apply Hsearch; reflexivity|].
    unfold SearchBar.started. cbn. rewrite app_nil_r.
    split; [exact Hf|]. intros Hi. specialize (Hs Hi). lia.
  - destruct (SearchBar.pending b) as [|n] eqn:Hp;
      [split; [exact Hf|rewrite Hp; exact Hs]|].
    cbn. split; [exact Hf|]. destruct o; discriminate.
  - destruct (SearchBar.showResults (SearchBar.state b));
      [|split; [exact Hf|exact Hs]].
    destruct (SearchBar.results (SearchBar.state b));
      try (split; [exact Hf|exact Hs]).
    destruct (_ !! index) as [result|]; [|split; [exact Hf|exact Hs]].
    unfold SearchBar.handleResultClick.
    destruct (get result "lat"); cbn; [|split; [exact Hf|exact Hs]].
    destruct (get result "lon"); cbn; split; (exact Hf || exact Hs).
Qed.
